(** * Provider availability and appointment booking (app/crud.py)

    A shallow embedding of the scheduling core of the healthcare backend:
    the SQLAlchemy models of [app/models.py] become records, the tables
    become lists of rows, and every function of [app/crud.py] that the
    scheduling core relies on becomes a function from the database to
    either a raised exception or a returned value with the committed
    database.  A request that raises before [db.commit()] leaves the
    stored database as it was (the session is closed by [get_db]), so the
    error branch carries no database. *)

From Stdlib Require Import ZArith QArith List String Ascii Bool Lia.
Import ListNotations.
Open Scope string_scope.
Open Scope list_scope.
Open Scope Z_scope.

(** ** Enumerations of [app/models.py] *)

Inductive AvailabilityStatus :=
  AVAILABLE | BOOKED | SLOT_CANCELLED | BLOCKED | MAINTENANCE.

Inductive AppointmentType :=
  CONSULTATION | FOLLOW_UP | EMERGENCY | TELEMEDICINE.

Inductive AppointmentStatus :=
  SCHEDULED | CONFIRMED | IN_PROGRESS | COMPLETED | CANCELLED | NO_SHOW
| RESCHEDULED.

Inductive PaymentStatus :=
  PENDING | PAID | PARTIAL | REFUNDED | PAYMENT_CANCELLED.

Definition AvailabilityStatus_eqb (a b : AvailabilityStatus) : bool :=
  match a, b with
  | AVAILABLE, AVAILABLE | BOOKED, BOOKED | SLOT_CANCELLED, SLOT_CANCELLED
  | BLOCKED, BLOCKED | MAINTENANCE, MAINTENANCE => true
  | _, _ => false
  end.

Definition AppointmentStatus_eqb (a b : AppointmentStatus) : bool :=
  match a, b with
  | SCHEDULED, SCHEDULED | CONFIRMED, CONFIRMED | IN_PROGRESS, IN_PROGRESS
  | COMPLETED, COMPLETED | CANCELLED, CANCELLED | NO_SHOW, NO_SHOW
  | RESCHEDULED, RESCHEDULED => true
  | _, _ => false
  end.

(** [AppointmentType.value] *)
Definition AppointmentType_value (t : AppointmentType) : string :=
  match t with
  | CONSULTATION => "consultation"
  | FOLLOW_UP => "follow_up"
  | EMERGENCY => "emergency"
  | TELEMEDICINE => "telemedicine"
  end.

(** ** Dates and times

    A [date] is its proleptic Gregorian ordinal ([date.toordinal()]); a
    wall-clock [time] is the parsed form of the [HH:mm] strings the
    availability columns hold; an aware [datetime] is an instant counted in
    minutes from the midnight that starts ordinal 0, in UTC; a naive
    datetime is a date with a wall-clock time. *)

Definition UUID := nat.
Definition date := Z.
Definition datetime := Z.

Record time := mk_time { hour : Z; minute : Z }.

Record naive_datetime := datetime_combine { nd_date : date; nd_time : time }.

(** What the [time] type of Python admits. *)
Definition time_ok (t : time) : Prop :=
  0 <= hour t < 24 /\ 0 <= minute t < 60.

Definition minutes_of_day (t : time) : Z := hour t * 60 + minute t.

(** Position of a naive datetime on the minute line: comparing two naive
    datetimes compares these. *)
Definition naive_minutes (n : naive_datetime) : Z :=
  nd_date n * 1440 + minutes_of_day (nd_time n).

(** A [date] used where the store expects an instant: its midnight. *)
Definition date_as_datetime (d : date) : datetime := d * 1440.

(** A pytz zone: [localize] attaches the zone to a naive datetime and the
    result is kept as the UTC instant; [fromutc] is [astimezone(tz)]
    followed by reading the wall clock. *)
Record tzinfo := mk_tzinfo {
  localize : naive_datetime -> datetime;
  fromutc : datetime -> naive_datetime
}.

Definition fixed_offset (offset : Z) : tzinfo :=
  {| localize := fun n => naive_minutes n - offset;
     fromutc := fun u =>
       let w := u + offset in
       datetime_combine (w / 1440)
         (mk_time ((w mod 1440) / 60) ((w mod 1440) mod 60)) |}.

(** [pytz.UTC] *)
Definition UTC : tzinfo := fixed_offset 0.

(** ** Exceptions and results *)

Inductive Error :=
| HTTPException (status_code : Z) (detail : string)
| AttributeError
| ValueError
| IndexError
| UnknownTimeZoneError.

Inductive Result (A : Type) :=
| Ok (a : A)
| Raise (e : Error).
Arguments Ok {A} a.
Arguments Raise {A} e.

Definition HTTP_400_BAD_REQUEST : Z := 400.
Definition HTTP_404_NOT_FOUND : Z := 404.

(** ** Rows of [app/models.py] *)

Record ClinicAddress := {
  street : option string;
  city : option string;
  state : option string
}.

Record Provider := {
  provider_pk : UUID;
  first_name : string;
  last_name : string;
  specialization : string;
  years_of_experience : option Z;
  clinic_address : ClinicAddress;
  is_active : bool
}.

Record Patient := {
  patient_pk : UUID;
  patient_email : string
}.

Record LocationInfo := {
  location_type : string;
  address : option string;
  room_number : option string
}.

(** The [pricing] JSON column; a key that is absent is [None]. *)
Record PricingInfo := {
  base_fee : option Q;
  insurance_accepted : option bool;
  currency : option string
}.

Record ProviderAvailability := {
  availability_pk : UUID;
  pa_provider_id : UUID;
  pa_date : date;
  start_time : time;
  end_time : time;
  timezone : string;
  is_recurring : bool;
  recurrence_pattern : option string;
  recurrence_end_date : option date;
  slot_duration : Z;
  break_duration : Z;
  pa_status : AvailabilityStatus;
  max_appointments_per_slot : Z;
  current_appointments : Z;
  pa_appointment_type : AppointmentType;
  pa_location : LocationInfo;
  pricing : option PricingInfo;
  notes : option string;
  special_requirements : option (list string)
}.

Record AppointmentSlot := {
  slot_pk : UUID;
  availability_id : UUID;
  slot_provider_id : UUID;
  slot_start_time : datetime;
  slot_end_time : datetime;
  slot_status : AvailabilityStatus;
  slot_patient_id : option UUID;
  slot_appointment_type : string;
  slot_booking_reference : option string
}.

Record Appointment := {
  appointment_pk : UUID;
  slot_id : UUID;
  provider_id : UUID;
  patient_id : UUID;
  appointment_type : AppointmentType;
  status : AppointmentStatus;
  payment_status : PaymentStatus;
  scheduled_start_time : datetime;
  scheduled_end_time : datetime;
  location : LocationInfo;
  contact_phone : option string;
  contact_email : option string;
  symptoms : option string;
  appt_base_fee : Q;
  insurance_coverage : Q;
  patient_payment : Q;
  appt_currency : string;
  booking_reference : string;
  cancellation_reason : option string;
  cancelled_by : option string;
  cancelled_at : option datetime
}.

(** The database: one list of rows per table, in row order, and the source
    of fresh primary keys ([uuid.uuid4] as column default). *)
Record Session := {
  providers : list Provider;
  patients : list Patient;
  provider_availability : list ProviderAvailability;
  appointment_slots : list AppointmentSlot;
  appointments : list Appointment;
  next_uuid : UUID
}.

(** ** Queries and row updates *)

(** [db.query(T).filter(T.id == id).first()] *)
Definition query_first {A} (pk : A -> UUID) (id : UUID) (rows : list A)
  : option A :=
  find (fun r => Nat.eqb (pk r) id) rows.

(** Attribute assignments on the object a query returned, as stored at
    commit: the first row with that primary key is replaced. *)
Fixpoint update_row {A} (pk : A -> UUID) (id : UUID) (f : A -> A)
  (rows : list A) : list A :=
  match rows with
  | [] => []
  | r :: rest =>
      if Nat.eqb (pk r) id then f r :: rest
      else r :: update_row pk id f rest
  end.

Definition get_provider_by_id (db : Session) (id : UUID) : option Provider :=
  query_first provider_pk id (providers db).

Definition get_patient_by_id (db : Session) (id : UUID) : option Patient :=
  query_first patient_pk id (patients db).

Definition get_appointment_by_id (db : Session) (id : UUID)
  : option Appointment :=
  query_first appointment_pk id (appointments db).

Definition get_slot (db : Session) (id : UUID) : option AppointmentSlot :=
  query_first slot_pk id (appointment_slots db).

(** The relationship [slot.availability]. *)
Definition slot_availability (db : Session) (slot : AppointmentSlot)
  : option ProviderAvailability :=
  query_first availability_pk (availability_id slot)
    (provider_availability db).

Definition with_slots (db : Session) (l : list AppointmentSlot) : Session :=
  {| providers := providers db; patients := patients db;
     provider_availability := provider_availability db;
     appointment_slots := l; appointments := appointments db;
     next_uuid := next_uuid db |}.

Definition with_availability (db : Session) (l : list ProviderAvailability)
  : Session :=
  {| providers := providers db; patients := patients db;
     provider_availability := l;
     appointment_slots := appointment_slots db;
     appointments := appointments db; next_uuid := next_uuid db |}.

Definition with_appointments (db : Session) (l : list Appointment) : Session :=
  {| providers := providers db; patients := patients db;
     provider_availability := provider_availability db;
     appointment_slots := appointment_slots db;
     appointments := l; next_uuid := next_uuid db |}.

Definition with_next_uuid (db : Session) (n : UUID) : Session :=
  {| providers := providers db; patients := patients db;
     provider_availability := provider_availability db;
     appointment_slots := appointment_slots db;
     appointments := appointments db; next_uuid := n |}.

(** ** Booking engine *)

(** The [appointment_data] mapping of [create_appointment]; a key that
    is absent is [None]. *)
Record AppointmentData := {
  ad_slot_id : UUID;
  ad_appointment_type : AppointmentType;
  ad_contact_phone : option string;
  ad_contact_email : option string;
  ad_symptoms : option string;
  ad_insurance_coverage : option Q;
  ad_patient_payment : option Q
}.

(** [availability.pricing.get('base_fee', 0) if availability.pricing else 0] *)
Definition pricing_base_fee (availability : ProviderAvailability) : Q :=
  match pricing availability with
  | Some p => match base_fee p with Some f => f | None => 0%Q end
  | None => 0%Q
  end.

(** [availability.pricing.get('currency', 'USD') if availability.pricing
    else 'USD'] *)
Definition pricing_currency (availability : ProviderAvailability) : string :=
  match pricing availability with
  | Some p => match currency p with Some c => c | None => "USD" end
  | None => "USD"
  end.

(** [slot.status = BOOKED; slot.patient_id = ...; slot.booking_reference = ...] *)
Definition book_slot (patient : UUID) (reference : string)
  (s : AppointmentSlot) : AppointmentSlot :=
  {| slot_pk := slot_pk s; availability_id := availability_id s;
     slot_provider_id := slot_provider_id s;
     slot_start_time := slot_start_time s;
     slot_end_time := slot_end_time s;
     slot_status := BOOKED;
     slot_patient_id := Some patient;
     slot_appointment_type := slot_appointment_type s;
     slot_booking_reference := Some reference |}.

(** [slot.status = AVAILABLE; slot.patient_id = None;
    slot.booking_reference = None] *)
Definition release_slot (s : AppointmentSlot) : AppointmentSlot :=
  {| slot_pk := slot_pk s; availability_id := availability_id s;
     slot_provider_id := slot_provider_id s;
     slot_start_time := slot_start_time s;
     slot_end_time := slot_end_time s;
     slot_status := AVAILABLE;
     slot_patient_id := None;
     slot_appointment_type := slot_appointment_type s;
     slot_booking_reference := None |}.

Definition set_current_appointments (n : Z) (w : ProviderAvailability)
  : ProviderAvailability :=
  {| availability_pk := availability_pk w; pa_provider_id := pa_provider_id w;
     pa_date := pa_date w; start_time := start_time w;
     end_time := end_time w; timezone := timezone w;
     is_recurring := is_recurring w;
     recurrence_pattern := recurrence_pattern w;
     recurrence_end_date := recurrence_end_date w;
     slot_duration := slot_duration w; break_duration := break_duration w;
     pa_status := pa_status w;
     max_appointments_per_slot := max_appointments_per_slot w;
     current_appointments := n;
     pa_appointment_type := pa_appointment_type w;
     pa_location := pa_location w; pricing := pricing w; notes := notes w;
     special_requirements := special_requirements w |}.

(** [availability.current_appointments += 1] *)
Definition increment_appointments (w : ProviderAvailability)
  : ProviderAvailability :=
  set_current_appointments (current_appointments w + 1) w.

(** [availability.current_appointments =
      max(0, availability.current_appointments - 1)] *)
Definition decrement_appointments (w : ProviderAvailability)
  : ProviderAvailability :=
  set_current_appointments (Z.max 0 (current_appointments w - 1)) w.

(** The unique constraints on [booking_reference] (of [Appointment] and of
    [AppointmentSlot]) as the commit of [create_appointment] meets them: the
    reference is taken when an appointment row carries it, or a slot row
    other than the one being booked does. *)
Definition booking_reference_taken (db : Session) (booked_slot : UUID)
  (reference : string) : bool :=
  existsb (fun a => String.eqb (booking_reference a) reference)
    (appointments db)
  || existsb
       (fun s =>
          negb (Nat.eqb (slot_pk s) booked_slot)
          && match slot_booking_reference s with
             | Some r => String.eqb r reference
             | None => false
             end)
       (appointment_slots db).

(** [create_appointment]; [uuid_hex] is [uuid.uuid4().hex[:8].upper()]. *)
Definition create_appointment (db : Session) (patient_id : UUID)
  (appointment_data : AppointmentData) (uuid_hex : string)
  : Result (Appointment * Session) :=
  match get_patient_by_id db patient_id with
  | None => Raise (HTTPException HTTP_404_NOT_FOUND "Patient not found")
  | Some patient =>
  match get_slot db (ad_slot_id appointment_data) with
  | None =>
      Raise (HTTPException HTTP_404_NOT_FOUND "Appointment slot not found")
  | Some slot =>
  if negb (AvailabilityStatus_eqb (slot_status slot) AVAILABLE) then
    Raise (HTTPException HTTP_400_BAD_REQUEST
             "Appointment slot is not available")
  else
  match get_provider_by_id db (slot_provider_id slot) with
  | None => Raise (HTTPException HTTP_404_NOT_FOUND "Provider not found")
  | Some provider =>
  match slot_availability db slot with
  | None => Raise AttributeError
  | Some availability =>
      let base_fee := pricing_base_fee availability in
      let currency := pricing_currency availability in
      let insurance_coverage :=
        match ad_insurance_coverage appointment_data with
        | Some q => q | None => 0%Q end in
      let patient_payment :=
        match ad_patient_payment appointment_data with
        | Some q => q | None => 0%Q end in
      let booking_reference := ("APT-" ++ uuid_hex)%string in
      let appointment :=
        {| appointment_pk := next_uuid db;
           slot_id := ad_slot_id appointment_data;
           provider_id := slot_provider_id slot;
           patient_id := patient_id;
           appointment_type := ad_appointment_type appointment_data;
           status := SCHEDULED;
           payment_status := PENDING;
           scheduled_start_time := slot_start_time slot;
           scheduled_end_time := slot_end_time slot;
           location := pa_location availability;
           contact_phone := ad_contact_phone appointment_data;
           contact_email := ad_contact_email appointment_data;
           symptoms := ad_symptoms appointment_data;
           appt_base_fee := base_fee;
           insurance_coverage := insurance_coverage;
           patient_payment := patient_payment;
           appt_currency := currency;
           booking_reference := booking_reference;
           cancellation_reason := None;
           cancelled_by := None;
           cancelled_at := None |} in
      if booking_reference_taken db (slot_pk slot) booking_reference then
        (* IntegrityError at commit: db.rollback() *)
        Raise (HTTPException HTTP_400_BAD_REQUEST
                 "Failed to create appointment")
      else
        let db1 :=
          with_slots db
            (update_row slot_pk (slot_pk slot)
               (book_slot patient_id booking_reference)
               (appointment_slots db)) in
        let db2 :=
          with_availability db1
            (update_row availability_pk (availability_pk availability)
               increment_appointments (provider_availability db1)) in
        let db3 :=
          with_next_uuid
            (with_appointments db2 (appointments db2 ++ [appointment]))
            (S (next_uuid db2)) in
        Ok (appointment, db3)
  end end end end.

(** The four assignments to the appointment in [cancel_appointment]. *)
Definition cancel_fields (reason cancelled_by : string) (now : datetime)
  (a : Appointment) : Appointment :=
  {| appointment_pk := appointment_pk a; slot_id := slot_id a;
     provider_id := provider_id a; patient_id := patient_id a;
     appointment_type := appointment_type a;
     status := CANCELLED;
     payment_status := payment_status a;
     scheduled_start_time := scheduled_start_time a;
     scheduled_end_time := scheduled_end_time a;
     location := location a; contact_phone := contact_phone a;
     contact_email := contact_email a; symptoms := symptoms a;
     appt_base_fee := appt_base_fee a;
     insurance_coverage := insurance_coverage a;
     patient_payment := patient_payment a;
     appt_currency := appt_currency a;
     booking_reference := booking_reference a;
     cancellation_reason := Some reason;
     cancelled_by := Some cancelled_by;
     cancelled_at := Some now |}.

(** [appointment.slot_id = new_slot_id] and the three assignments after it. *)
Definition reschedule_fields (new_slot_id : UUID) (new_slot : AppointmentSlot)
  (a : Appointment) : Appointment :=
  {| appointment_pk := appointment_pk a; slot_id := new_slot_id;
     provider_id := provider_id a; patient_id := patient_id a;
     appointment_type := appointment_type a;
     status := RESCHEDULED;
     payment_status := payment_status a;
     scheduled_start_time := slot_start_time new_slot;
     scheduled_end_time := slot_end_time new_slot;
     location := location a; contact_phone := contact_phone a;
     contact_email := contact_email a; symptoms := symptoms a;
     appt_base_fee := appt_base_fee a;
     insurance_coverage := insurance_coverage a;
     patient_payment := patient_payment a;
     appt_currency := appt_currency a;
     booking_reference := booking_reference a;
     cancellation_reason := cancellation_reason a;
     cancelled_by := cancelled_by a;
     cancelled_at := cancelled_at a |}.

(** [appointment.status in [CANCELLED, COMPLETED]] *)
Definition is_terminal (s : AppointmentStatus) : bool :=
  AppointmentStatus_eqb s CANCELLED || AppointmentStatus_eqb s COMPLETED.

(** [cancel_appointment]; [now] is [datetime.utcnow()]. *)
Definition cancel_appointment (db : Session) (appointment_id : UUID)
  (reason cancelled_by : string) (now : datetime)
  : Result (option Appointment * Session) :=
  match get_appointment_by_id db appointment_id with
  | None => Ok (None, db)
  | Some appointment =>
  if is_terminal (status appointment) then
    Raise (HTTPException HTTP_400_BAD_REQUEST
             "Appointment cannot be cancelled")
  else
  let db1 :=
    with_appointments db
      (update_row appointment_pk (appointment_pk appointment)
         (cancel_fields reason cancelled_by now) (appointments db)) in
  match get_slot db1 (slot_id appointment) with
  | None => Raise AttributeError
  | Some slot =>
  let db2 :=
    with_slots db1
      (update_row slot_pk (slot_pk slot) release_slot
         (appointment_slots db1)) in
  match slot_availability db2 slot with
  | None => Raise AttributeError
  | Some availability =>
  let db3 :=
    with_availability db2
      (update_row availability_pk (availability_pk availability)
         decrement_appointments (provider_availability db2)) in
  Ok (get_appointment_by_id db3 appointment_id, db3)
  end end end.

(** [reschedule_appointment] *)
Definition reschedule_appointment (db : Session) (appointment_id : UUID)
  (new_slot_id : UUID) (reason : option string)
  : Result (option Appointment * Session) :=
  match get_appointment_by_id db appointment_id with
  | None => Ok (None, db)
  | Some appointment =>
  if is_terminal (status appointment) then
    Raise (HTTPException HTTP_400_BAD_REQUEST
             "Appointment cannot be rescheduled")
  else
  match get_slot db new_slot_id with
  | None =>
      Raise (HTTPException HTTP_404_NOT_FOUND
               "New appointment slot not found")
  | Some new_slot =>
  if negb (AvailabilityStatus_eqb (slot_status new_slot) AVAILABLE) then
    Raise (HTTPException HTTP_400_BAD_REQUEST
             "New appointment slot is not available")
  else
  match get_slot db (slot_id appointment) with
  | None => Raise AttributeError
  | Some old_slot =>
  let db1 :=
    with_slots db
      (update_row slot_pk (slot_pk old_slot) release_slot
         (appointment_slots db)) in
  let db2 :=
    with_slots db1
      (update_row slot_pk (slot_pk new_slot)
         (book_slot (patient_id appointment) (booking_reference appointment))
         (appointment_slots db1)) in
  let db3 :=
    with_appointments db2
      (update_row appointment_pk (appointment_pk appointment)
         (reschedule_fields new_slot_id new_slot) (appointments db2)) in
  Ok (get_appointment_by_id db3 appointment_id, db3)
  end end end.

(** ** Availability store: deletion *)

(** [db.delete(slot)]: the row the query returned goes. *)
Fixpoint delete_row {A} (pk : A -> UUID) (id : UUID) (rows : list A)
  : list A :=
  match rows with
  | [] => []
  | r :: rest =>
      if Nat.eqb (pk r) id then rest else r :: delete_row pk id rest
  end.

(** [db.query(T).filter(col == id).delete()]: every matching row goes. *)
Definition delete_where {A} (col : A -> UUID) (id : UUID) (rows : list A)
  : list A :=
  filter (fun r => negb (Nat.eqb (col r) id)) rows.

(** [delete_availability_slot] *)
Definition delete_availability_slot (db : Session) (slot_id : UUID)
  (delete_recurring : bool) (reason : option string)
  : Result (bool * Session) :=
  match get_slot db slot_id with
  | None => Ok (false, db)
  | Some slot =>
  if AvailabilityStatus_eqb (slot_status slot) BOOKED then
    Raise (HTTPException HTTP_400_BAD_REQUEST
             "Cannot delete slot with existing bookings")
  else
  if delete_recurring then
    match slot_availability db slot with
    | None => Raise AttributeError
    | Some availability =>
        if is_recurring availability then
          let db1 :=
            with_slots db
              (delete_where availability_id (availability_id slot)
                 (appointment_slots db)) in
          let db2 :=
            with_availability db1
              (delete_where availability_pk (availability_id slot)
                 (provider_availability db1)) in
          Ok (true, db2)
        else
          Ok (true,
              with_slots db
                (delete_row slot_pk (slot_pk slot) (appointment_slots db)))
    end
  else
    Ok (true,
        with_slots db
          (delete_row slot_pk (slot_pk slot) (appointment_slots db)))
  end.

(** ** Availability store: creation and slot generation *)

(** The [availability_data] mapping of [create_provider_availability]; a
    key that is absent is [None] (or [false] for the flag). *)
Record AvailabilityData := {
  avd_date : date;
  avd_start_time : time;
  avd_end_time : time;
  avd_timezone : string;
  avd_slot_duration : Z;
  avd_break_duration : Z;
  avd_is_recurring : bool;
  avd_recurrence_pattern : option string;
  avd_recurrence_end_date : option date;
  avd_max_appointments_per_slot : option Z;
  avd_appointment_type : AppointmentType;
  avd_location : LocationInfo;
  avd_pricing : option PricingInfo;
  avd_notes : option string;
  avd_special_requirements : option (list string)
}.

(** The mapping [create_provider_availability] returns. *)
Record AvailabilityCreated := {
  ac_availability_id : UUID;
  ac_slots_created : Z;
  ac_date_range_start : date;
  ac_date_range_end : date;
  ac_total_appointments_available : Z
}.

Inductive Frequency := DAILY | WEEKLY | MONTHLY.

(** Two decimal digits, as [%H] and [%M] print them. *)
Definition two_digits (n : Z) : string :=
  let d (k : Z) := ascii_of_nat (48 + Z.to_nat k) in
  String (d ((n / 10) mod 10)) (String (d (n mod 10)) EmptyString).

(** The [HH:mm] text of a wall-clock time. *)
Definition strftime_HM (t : time) : string :=
  (two_digits (hour t) ++ ":" ++ two_digits (minute t))%string.

(** [time(h, m)]: raises [ValueError] outside the clock. *)
Definition time_of (h m : Z) : Result time :=
  if (0 <=? h) && (h <=? 23) && (0 <=? m) && (m <=? 59)
  then Ok (mk_time h m) else Raise ValueError.

(** Truth value of an optional string: absent and empty are false. *)
Definition truthy_string (s : option string) : bool :=
  match s with
  | Some s => negb (String.eqb s "")
  | None => false
  end.

(** The windows the conflict query selects: same provider, same date,
    status [AVAILABLE] or [BOOKED]. *)
Definition conflict_candidates (db : Session) (provider : UUID) (d : date)
  : list ProviderAvailability :=
  filter
    (fun w =>
       Nat.eqb (pa_provider_id w) provider
       && Z.eqb (pa_date w) d
       && (AvailabilityStatus_eqb (pa_status w) AVAILABLE
           || AvailabilityStatus_eqb (pa_status w) BOOKED))
    (provider_availability db).

(** [start_datetime < existing_end and end_datetime > existing_start] *)
Definition overlaps (start_datetime end_datetime : naive_datetime)
  (existing : ProviderAvailability) : bool :=
  let existing_start :=
    datetime_combine (pa_date existing) (start_time existing) in
  let existing_end :=
    datetime_combine (pa_date existing) (end_time existing) in
  (naive_minutes start_datetime <? naive_minutes existing_end)
  && (naive_minutes end_datetime >? naive_minutes existing_start).

Section ExternalLibraries.

(** [pytz.timezone]: [None] is [UnknownTimeZoneError]. *)
Variable pytz_timezone : string -> option tzinfo.

(** [list(rrule.rrule(freq, dtstart=..., until=...))] of dateutil. *)
Variable rrule : Frequency -> date -> date -> list date.

(** The loop of [generate_appointment_slots], from index [i] on, over the
    [remaining] indices of [range(slots_count)]. *)
Fixpoint generate_slots_from (tz : tzinfo)
  (availability : ProviderAvailability) (remaining : nat) (i : Z)
  (db : Session) (slots_created : Z) : Result (Z * Session) :=
  match remaining with
  | O => Ok (slots_created, db)
  | S remaining' =>
      let slot_start_minutes :=
        hour (start_time availability) * 60
        + minute (start_time availability)
        + i * (slot_duration availability + break_duration availability) in
      let slot_start_hour := slot_start_minutes / 60 in
      let slot_start_minute := slot_start_minutes mod 60 in
      let slot_end_minutes :=
        slot_start_minutes + slot_duration availability in
      let slot_end_hour := slot_end_minutes / 60 in
      let slot_end_minute := slot_end_minutes mod 60 in
      match time_of slot_start_hour slot_start_minute with
      | Raise e => Raise e
      | Ok slot_start_t =>
      match time_of slot_end_hour slot_end_minute with
      | Raise e => Raise e
      | Ok slot_end_t =>
          let slot_start_utc :=
            localize tz
              (datetime_combine (pa_date availability) slot_start_t) in
          let slot_end_utc :=
            localize tz
              (datetime_combine (pa_date availability) slot_end_t) in
          let appointment_slot :=
            {| slot_pk := next_uuid db;
               availability_id := availability_pk availability;
               slot_provider_id := pa_provider_id availability;
               slot_start_time := slot_start_utc;
               slot_end_time := slot_end_utc;
               slot_status := AVAILABLE;
               slot_patient_id := None;
               slot_appointment_type :=
                 AppointmentType_value (pa_appointment_type availability);
               slot_booking_reference := None |} in
          let db' :=
            with_next_uuid
              (with_slots db (appointment_slots db ++ [appointment_slot]))
              (S (next_uuid db)) in
          generate_slots_from tz availability remaining' (i + 1) db'
            (slots_created + 1)
      end end
  end.

(** [generate_appointment_slots] *)
Definition generate_appointment_slots (db : Session)
  (availability : ProviderAvailability) (slots_count : Z)
  (timezone_str : string) : Result (Z * Session) :=
  let tz :=
    match pytz_timezone timezone_str with
    | Some tz => tz
    | None => UTC
    end in
  generate_slots_from tz availability (Z.to_nat slots_count) 0 db 0.

(** The window row built for one occurrence date. *)
Definition new_availability (id provider_id : UUID)
  (availability_data : AvailabilityData) (current_date : date)
  : ProviderAvailability :=
  {| availability_pk := id;
     pa_provider_id := provider_id;
     pa_date := current_date;
     start_time := avd_start_time availability_data;
     end_time := avd_end_time availability_data;
     timezone := avd_timezone availability_data;
     is_recurring := avd_is_recurring availability_data;
     recurrence_pattern := avd_recurrence_pattern availability_data;
     recurrence_end_date := avd_recurrence_end_date availability_data;
     slot_duration := avd_slot_duration availability_data;
     break_duration := avd_break_duration availability_data;
     pa_status := AVAILABLE;
     max_appointments_per_slot :=
       match avd_max_appointments_per_slot availability_data with
       | Some n => n | None => 1 end;
     current_appointments := 0;
     pa_appointment_type := avd_appointment_type availability_data;
     pa_location := avd_location availability_data;
     pricing := avd_pricing availability_data;
     notes := avd_notes availability_data;
     special_requirements := avd_special_requirements availability_data |}.

(** [total_minutes // effective_duration] of the creation loop. *)
Definition slots_count_of (availability_data : AvailabilityData) : Z :=
  let start_time := avd_start_time availability_data in
  let end_time := avd_end_time availability_data in
  let total_minutes :=
    (hour end_time * 60 + minute end_time)
    - (hour start_time * 60 + minute start_time) in
  let effective_duration :=
    avd_slot_duration availability_data
    + avd_break_duration availability_data in
  total_minutes / effective_duration.

(** One turn of the loop [for current_date in dates_to_create]: the
    window row, the slots it created and the session after it. *)
Definition create_for_date (db : Session) (provider_id : UUID)
  (availability_data : AvailabilityData) (current_date : date)
  : Result (ProviderAvailability * Z * Session) :=
  let effective_duration :=
    avd_slot_duration availability_data
    + avd_break_duration availability_data in
  if effective_duration <=? 0 then
    Raise (HTTPException HTTP_400_BAD_REQUEST
             "Invalid slot duration or break duration")
  else
    let slots_count := slots_count_of availability_data in
    let availability :=
      new_availability (next_uuid db) provider_id availability_data
        current_date in
    let db1 :=
      with_next_uuid
        (with_availability db (provider_availability db ++ [availability]))
        (S (next_uuid db)) in
    match generate_appointment_slots db1 availability slots_count
            (avd_timezone availability_data) with
    | Raise e => Raise e
    | Ok (slots_created, db2) => Ok (availability, slots_created, db2)
    end.

(** The whole loop, with its two accumulators. *)
Fixpoint create_for_dates (db : Session) (provider_id : UUID)
  (availability_data : AvailabilityData) (dates_to_create : list date)
  (created_availabilities : list ProviderAvailability)
  (total_slots_created : Z)
  : Result (list ProviderAvailability * Z * Session) :=
  match dates_to_create with
  | [] => Ok (created_availabilities, total_slots_created, db)
  | current_date :: rest =>
      match create_for_date db provider_id availability_data
              current_date with
      | Raise e => Raise e
      | Ok (availability, slots_created, db') =>
          create_for_dates db' provider_id availability_data rest
            (created_availabilities ++ [availability])
            (total_slots_created + slots_created)
      end
  end.

(** The occurrence dates [dates_to_create]: the recurrence is expanded
    when [is_recurring], [recurrence_pattern] and [recurrence_end_date]
    are all present and true; only then is the pattern looked at. *)
Definition dates_to_create_of (availability_data : AvailabilityData)
  : Result (list date) :=
  match avd_recurrence_pattern availability_data,
        avd_recurrence_end_date availability_data with
  | Some recurrence_pattern, Some recurrence_end_date =>
      if avd_is_recurring availability_data
         && negb (String.eqb recurrence_pattern "")
      then
        if String.eqb recurrence_pattern "daily" then
          Ok (rrule DAILY (avd_date availability_data) recurrence_end_date)
        else if String.eqb recurrence_pattern "weekly" then
          Ok (rrule WEEKLY (avd_date availability_data) recurrence_end_date)
        else if String.eqb recurrence_pattern "monthly" then
          Ok (rrule MONTHLY (avd_date availability_data)
                recurrence_end_date)
        else
          Raise (HTTPException HTTP_400_BAD_REQUEST
                   "Invalid recurrence pattern")
      else Ok [avd_date availability_data]
  | _, _ => Ok [avd_date availability_data]
  end.

(** [create_provider_availability] *)
Definition create_provider_availability (db : Session)
  (provider_id : UUID) (availability_data : AvailabilityData)
  : Result (AvailabilityCreated * Session) :=
  match get_provider_by_id db provider_id with
  | None => Raise (HTTPException HTTP_404_NOT_FOUND "Provider not found")
  | Some provider =>
  let start_datetime :=
    datetime_combine (avd_date availability_data)
      (avd_start_time availability_data) in
  let end_datetime :=
    datetime_combine (avd_date availability_data)
      (avd_end_time availability_data) in
  let existing_conflicts :=
    conflict_candidates db provider_id (avd_date availability_data) in
  match find (overlaps start_datetime end_datetime) existing_conflicts with
  | Some existing =>
      Raise (HTTPException HTTP_400_BAD_REQUEST
               ("Time slot conflicts with existing availability: "
                ++ strftime_HM (start_time existing) ++ "-"
                ++ strftime_HM (end_time existing))%string)
  | None =>
  match dates_to_create_of availability_data with
  | Raise e => Raise e
  | Ok dates_to_create =>
  match create_for_dates db provider_id availability_data dates_to_create
          [] 0 with
  | Raise e => Raise e
  | Ok (created_availabilities, total_slots_created, db') =>
      match created_availabilities with
      | [] => Raise IndexError
      | first :: _ =>
          Ok ({| ac_availability_id := availability_pk first;
                 ac_slots_created := total_slots_created;
                 ac_date_range_start :=
                   fold_right Z.min (hd 0 dates_to_create) dates_to_create;
                 ac_date_range_end :=
                   fold_right Z.max (hd 0 dates_to_create) dates_to_create;
                 ac_total_appointments_available := total_slots_created |},
              db')
      end
  end end end end.

End ExternalLibraries.

(** ** Search engine *)









(** [dict.get(key, '')] on the clinic address. *)
Definition get_or_empty (s : option string) : string :=
  match s with Some s => s | None => "" end.







Section Search.

Variable pytz_timezone : string -> option tzinfo.



End Search.

(** ** The two libraries, as far as the examples below use them *)

(** Civil calendar: the ordinal of a year, month and day, and back. *)
Definition ordinal_of_civil (y m d : Z) : date :=
  let y' := if m <=? 2 then y - 1 else y in
  let era := y' / 400 in
  let yoe := y' - era * 400 in
  let mp := if m >? 2 then m - 3 else m + 9 in
  let doy := (153 * mp + 2) / 5 + d - 1 in
  let doe := yoe * 365 + yoe / 4 - yoe / 100 + doy in
  era * 146097 + doe - 305.

Definition civil_of_ordinal (n : date) : Z * Z * Z :=
  let z := n + 305 in
  let era := z / 146097 in
  let doe := z - era * 146097 in
  let yoe := (doe - doe / 1460 + doe / 36524 - doe / 146096) / 365 in
  let doy := doe - (365 * yoe + yoe / 4 - yoe / 100) in
  let mp := (5 * doy + 2) / 153 in
  let d := doy - (153 * mp + 2) / 5 + 1 in
  let m := if mp <? 10 then mp + 3 else mp - 9 in
  let y := yoe + era * 400 in
  ((if m <=? 2 then y + 1 else y), m, d).

Definition days_in_month (y m : Z) : Z :=
  let next := if m =? 12 then ordinal_of_civil (y + 1) 1 1
              else ordinal_of_civil y (m + 1) 1 in
  next - ordinal_of_civil y m 1.

(** Dates [first], [first + step], ... up to [until], at most [fuel] of them. *)
Fixpoint every (step : Z) (fuel : nat) (current until : date) : list date :=
  match fuel with
  | O => []
  | S fuel' =>
      if current <=? until
      then current :: every step fuel' (current + step) until
      else []
  end.

(** The day [d] of each of [fuel] months from month [m] of year [y] on, where
    the month has such a day, up to [until]. *)
Fixpoint every_month (fuel : nat) (y m d : Z) (until : date) : list date :=
  match fuel with
  | O => []
  | S fuel' =>
      let y' := if m =? 12 then y + 1 else y in
      let m' := if m =? 12 then 1 else m + 1 in
      if d <=? days_in_month y m then
        if ordinal_of_civil y m d <=? until
        then ordinal_of_civil y m d :: every_month fuel' y' m' d until
        else []
      else every_month fuel' y' m' d until
  end.

(** [rrule.rrule(freq, dtstart=..., until=...)] with its default interval:
    every day, every seventh day, or the same day of every month that has
    it, from [dtstart] to [until] inclusive. *)
Definition dateutil_rrule (freq : Frequency) (dtstart until : date)
  : list date :=
  let span := Z.to_nat (until - dtstart + 1) in
  match freq with
  | DAILY => every 1 span dtstart until
  | WEEKLY => every 7 span dtstart until
  | MONTHLY =>
      let '(y, m, d) := civil_of_ordinal dtstart in
      every_month span y m d until
  end.

(** A few zones of the tz database that keep one offset all year. *)
Definition pytz_zones (name : string) : option tzinfo :=
  if String.eqb name "UTC" then Some UTC
  else if String.eqb name "Asia/Tokyo" then Some (fixed_offset 540)
  else if String.eqb name "Asia/Kolkata" then Some (fixed_offset 330)
  else if String.eqb name "America/Phoenix" then Some (fixed_offset (-420))
  else None.

(** ** What a request leaves in the store *)

(** The database after a request: the committed one when the call returned,
    the one before the call when it raised. *)
Definition committed {A} (db : Session) (r : Result (A * Session)) : Session :=
  match r with
  | Ok (_, db') => db'
  | Raise _ => db
  end.

Definition rejected {A} (r : Result A) : Prop := exists e, r = Raise e.

(** ** Example stores

    One provider, two patients; the windows, slots and appointments are
    produced by the operations themselves. *)

Definition example_provider : Provider :=
  {| provider_pk := 1%nat; first_name := "Ada"; last_name := "Byron";
     specialization := "Cardiology"; years_of_experience := Some 12;
     clinic_address :=
       {| street := Some "1 Main St"; city := Some "Boston";
          state := Some "MA" |};
     is_active := true |}.

Definition empty_store : Session :=
  {| providers := [example_provider];
     patients := [ {| patient_pk := 2%nat; patient_email := "p2@example.org" |};
                   {| patient_pk := 3%nat; patient_email := "p3@example.org" |} ];
     provider_availability := [];
     appointment_slots := [];
     appointments := [];
     next_uuid := 100%nat |}.

Definition clinic : LocationInfo :=
  {| location_type := "clinic"; address := Some "1 Main St";
     room_number := None |}.

(** 2024-02-15, 09:00 to 10:00 UTC, slots of 30 minutes, no break, not
    recurring, fee 100 USD. *)
Definition morning_window : AvailabilityData :=
  {| avd_date := 738931;
     avd_start_time := mk_time 9 0;
     avd_end_time := mk_time 10 0;
     avd_timezone := "UTC";
     avd_slot_duration := 30;
     avd_break_duration := 0;
     avd_is_recurring := false;
     avd_recurrence_pattern := None;
     avd_recurrence_end_date := None;
     avd_max_appointments_per_slot := None;
     avd_appointment_type := CONSULTATION;
     avd_location := clinic;
     avd_pricing :=
       Some {| base_fee := Some (100 # 1)%Q; insurance_accepted := Some true;
               currency := Some "USD" |};
     avd_notes := None;
     avd_special_requirements := None |}.

Definition on_date (d : date) (data : AvailabilityData) : AvailabilityData :=
  {| avd_date := d;
     avd_start_time := avd_start_time data;
     avd_end_time := avd_end_time data;
     avd_timezone := avd_timezone data;
     avd_slot_duration := avd_slot_duration data;
     avd_break_duration := avd_break_duration data;
     avd_is_recurring := avd_is_recurring data;
     avd_recurrence_pattern := avd_recurrence_pattern data;
     avd_recurrence_end_date := avd_recurrence_end_date data;
     avd_max_appointments_per_slot := avd_max_appointments_per_slot data;
     avd_appointment_type := avd_appointment_type data;
     avd_location := avd_location data;
     avd_pricing := avd_pricing data;
     avd_notes := avd_notes data;
     avd_special_requirements := avd_special_requirements data |}.

Definition recurring (pattern : option string) (until : option date)
  (data : AvailabilityData) : AvailabilityData :=
  {| avd_date := avd_date data;
     avd_start_time := avd_start_time data;
     avd_end_time := avd_end_time data;
     avd_timezone := avd_timezone data;
     avd_slot_duration := avd_slot_duration data;
     avd_break_duration := avd_break_duration data;
     avd_is_recurring := true;
     avd_recurrence_pattern := pattern;
     avd_recurrence_end_date := until;
     avd_max_appointments_per_slot := avd_max_appointments_per_slot data;
     avd_appointment_type := avd_appointment_type data;
     avd_location := avd_location data;
     avd_pricing := avd_pricing data;
     avd_notes := avd_notes data;
     avd_special_requirements := avd_special_requirements data |}.

(** Window 100 on 2024-02-15 with slots 101 and 102. *)
Definition store_one_window : Session :=
  committed empty_store
    (create_provider_availability pytz_zones dateutil_rrule empty_store 1%nat
       morning_window).


(** The window row 100 of [store_one_window]. *)
Definition morning_row : ProviderAvailability :=
  new_availability 100%nat 1%nat morning_window 738931.

(** Window 100 on 2024-02-16 only. *)
Definition store_next_day : Session :=
  committed empty_store
    (create_provider_availability pytz_zones dateutil_rrule empty_store 1%nat
       (on_date 738932 morning_window)).

(** And window 103 on 2024-02-16 with slots 104 and 105. *)
Definition store_two_windows : Session :=
  committed store_one_window
    (create_provider_availability pytz_zones dateutil_rrule store_one_window
       1%nat (on_date 738932 morning_window)).

Definition booking_of (slot : UUID) : AppointmentData :=
  {| ad_slot_id := slot; ad_appointment_type := CONSULTATION;
     ad_contact_phone := None; ad_contact_email := None;
     ad_symptoms := None; ad_insurance_coverage := None;
     ad_patient_payment := None |}.

(** Patient 2 holds slot 101 through appointment 106. *)
Definition store_booked : Session :=
  committed store_two_windows
    (create_appointment store_two_windows 2%nat (booking_of 101%nat)
       "A1B2C3D4").

(** Appointment 106 cancelled: its slot 101 is AVAILABLE again. *)
Definition store_cancelled : Session :=
  committed store_booked
    (cancel_appointment store_booked 106%nat "ill" "patient" 1064061000).

(** Appointment 106 cancelled, then slot 101 booked by patient 3 through
    appointment 107. *)
Definition store_rebooked : Session :=
  committed store_cancelled
    (create_appointment store_cancelled 3%nat (booking_of 101%nat)
       "E5F6A7B8").

(** The two patients of the example stores, and a second provider who owns
    none of their windows. *)
Definition patient_two : Patient :=
  {| patient_pk := 2%nat; patient_email := "p2@example.org" |}.

Definition patient_three : Patient :=
  {| patient_pk := 3%nat; patient_email := "p3@example.org" |}.

Definition other_provider : Provider :=
  {| provider_pk := 9%nat; first_name := "Grace"; last_name := "Hopper";
     specialization := "Dermatology"; years_of_experience := None;
     clinic_address :=
       {| street := None; city := Some "Salem"; state := Some "MA" |};
     is_active := true |}.

(** ** The slot grid of a window *)

(** Wall-clock minute at which slot [i] of the window starts. *)
Definition slot_start_minutes (w : ProviderAvailability) (i : Z) : Z :=
  hour (start_time w) * 60 + minute (start_time w)
  + i * (slot_duration w + break_duration w).

(** The wall-clock time [time(m // 60, m % 60)]. *)
Definition wall_clock (m : Z) : time := mk_time (m / 60) (m mod 60).

(** The slot row the generator builds for index [i] with primary key [pk]. *)
Definition generated_slot (tz : tzinfo) (w : ProviderAvailability)
  (pk : UUID) (i : Z) : AppointmentSlot :=
  {| slot_pk := pk;
     availability_id := availability_pk w;
     slot_provider_id := pa_provider_id w;
     slot_start_time :=
       localize tz
         (datetime_combine (pa_date w) (wall_clock (slot_start_minutes w i)));
     slot_end_time :=
       localize tz
         (datetime_combine (pa_date w)
            (wall_clock (slot_start_minutes w i + slot_duration w)));
     slot_status := AVAILABLE;
     slot_patient_id := None;
     slot_appointment_type := AppointmentType_value (pa_appointment_type w);
     slot_booking_reference := None |}.

(** The rows for [n] consecutive indices from [i] on, keys from [pk] on. *)
Fixpoint generated_slots (tz : tzinfo) (w : ProviderAvailability)
  (n : nat) (pk : UUID) (i : Z) : list AppointmentSlot :=
  match n with
  | O => []
  | S n' => generated_slot tz w pk i :: generated_slots tz w n' (S pk) (i + 1)
  end.

(** A zone gives back the wall-clock time it was given, at the time [t] of
    day [d]. *)
Definition round_trips_at (tz : tzinfo) (d : date) (t : time) : Prop :=
  fromutc tz (localize tz (datetime_combine d t)) = datetime_combine d t.

(** A window row of date [d] together with the [count] slot rows generated
    for it. *)
Definition window_of_date (count : Z) (d : date)
  (g : ProviderAvailability * list AppointmentSlot) : Prop :=
  pa_date (fst g) = d
  /\ Z.of_nat (List.length (snd g)) = count
  /\ forall s, In s (snd g) ->
       availability_id s = availability_pk (fst g)
       /\ slot_status s = AVAILABLE.

(** The zone [generate_appointment_slots] works in. *)
Definition zone_of (pytz_timezone : string -> option tzinfo)
  (timezone_str : string) : tzinfo :=
  match pytz_timezone timezone_str with
  | Some tz => tz
  | None => UTC
  end.

(** The window the conflict check of [create_provider_availability] stops
    at, if any: it looks at the date of the request only. *)
Definition conflicting_window (db : Session) (provider : UUID)
  (data : AvailabilityData) : option ProviderAvailability :=
  find
    (overlaps (datetime_combine (avd_date data) (avd_start_time data))
       (datetime_combine (avd_date data) (avd_end_time data)))
    (conflict_candidates db provider (avd_date data)).

(** The stored instants of slot [s], read on the clock of zone [tz], lie on
    the date of window [w]: the start within [[start_time, end_time)], the
    end not before the start and not after [end_time]. *)
Definition within_window (tz : tzinfo) (w : ProviderAvailability)
  (s : AppointmentSlot) : Prop :=
  let local_start := fromutc tz (slot_start_time s) in
  let local_end := fromutc tz (slot_end_time s) in
  nd_date local_start = pa_date w
  /\ nd_date local_end = pa_date w
  /\ minutes_of_day (start_time w) <= minutes_of_day (nd_time local_start)
     < minutes_of_day (end_time w)
  /\ minutes_of_day (nd_time local_start)
     <= minutes_of_day (nd_time local_end)
     <= minutes_of_day (end_time w).

(** ** States of the booking engine *)


(** A store on which nothing has been booked yet: slots with distinct
    primary keys, none of them BOOKED, and no appointment. *)
Definition unbooked (db : Session) : Prop :=
  NoDup (map slot_pk (appointment_slots db))
  /\ (forall s, In s (appointment_slots db) -> slot_status s <> BOOKED)
  /\ appointments db = [].


(** Every BOOKED slot has its appointment. *)
Definition booked_slots_have_appointment (db : Session) : Prop :=
  forall s, In s (appointment_slots db) -> slot_status s = BOOKED ->
    exists a, In a (appointments db)
      /\ slot_id a = slot_pk s
      /\ status a <> CANCELLED
      /\ slot_patient_id s = Some (patient_id a)
      /\ slot_booking_reference s = Some (booking_reference a).

(** Every appointment that is not cancelled has its slot, and it is BOOKED. *)
Definition live_appointments_have_booked_slot (db : Session) : Prop :=
  forall a, In a (appointments db) -> status a <> CANCELLED ->
    exists s, In s (appointment_slots db)
      /\ slot_pk s = slot_id a
      /\ slot_status s = BOOKED.

(** No slot is held by two appointments that are not cancelled. *)
Definition one_live_appointment_per_slot (db : Session) : Prop :=
  forall a a', In a (appointments db) -> In a' (appointments db) ->
    status a <> CANCELLED -> status a' <> CANCELLED ->
    slot_id a = slot_id a' -> a = a'.

Record booking_consistent (db : Session) : Prop := {
  bc_slot_keys : NoDup (map slot_pk (appointment_slots db));
  bc_appointment_keys : NoDup (map appointment_pk (appointments db));
  bc_fresh : forall a, In a (appointments db) ->
               (appointment_pk a < next_uuid db)%nat;
  bc_slots : booked_slots_have_appointment db;
  bc_appointments : live_appointments_have_booked_slot db;
  bc_one : one_live_appointment_per_slot db
}.

(** ** Appointment queries and updates (the rest of [app/crud.py]) *)


(** [query.offset(skip).limit(limit).all()]; the routers declare
    [skip >= 0] and [limit >= 1]. *)
Definition offset_limit {A} (skip limit : nat) (rows : list A) : list A :=
  firstn limit (skipn skip rows).

(** [if status: query = query.filter(Appointment.status == status)]: a
    member of [AppointmentStatus] is a non-empty string, hence true. *)
Definition filter_status (wanted : option AppointmentStatus)
  (rows : list Appointment) : list Appointment :=
  match wanted with
  | Some s => filter (fun a => AppointmentStatus_eqb (status a) s) rows
  | None => rows
  end.


(** [get_appointments_by_provider] *)
Definition get_appointments_by_provider (db : Session) (provider : UUID)
  (skip limit : nat) (wanted : option AppointmentStatus)
  : list Appointment :=
  offset_limit skip limit
    (filter_status wanted
       (filter (fun a => Nat.eqb (provider_id a) provider)
          (appointments db))).

(** One entry of [update_data.dict(exclude_unset=True)] for the schema
    [AppointmentUpdate]: the key is the constructor, the value is [None]
    when the field was sent as null. *)
Inductive AppointmentUpdateItem :=
| AU_status (v : option AppointmentStatus)
| AU_payment_status (v : option PaymentStatus)
| AU_symptoms (v : option string)
| AU_medical_notes (v : option string)
| AU_prescription (v : option string)
| AU_follow_up_required (v : option bool)
| AU_follow_up_date (v : option date)
| AU_actual_start_time (v : option datetime)
| AU_actual_end_time (v : option datetime)
| AU_cancellation_reason (v : option string).

Definition au_key (item : AppointmentUpdateItem) : string :=
  match item with
  | AU_status _ => "status"
  | AU_payment_status _ => "payment_status"
  | AU_symptoms _ => "symptoms"
  | AU_medical_notes _ => "medical_notes"
  | AU_prescription _ => "prescription"
  | AU_follow_up_required _ => "follow_up_required"
  | AU_follow_up_date _ => "follow_up_date"
  | AU_actual_start_time _ => "actual_start_time"
  | AU_actual_end_time _ => "actual_end_time"
  | AU_cancellation_reason _ => "cancellation_reason"
  end.

(** [value is not None] *)
Definition au_is_not_none (item : AppointmentUpdateItem) : bool :=
  match item with
  | AU_status (Some _) | AU_payment_status (Some _) | AU_symptoms (Some _)
  | AU_medical_notes (Some _) | AU_prescription (Some _)
  | AU_follow_up_required (Some _) | AU_follow_up_date (Some _)
  | AU_actual_start_time (Some _) | AU_actual_end_time (Some _)
  | AU_cancellation_reason (Some _) => true
  | _ => false
  end.

(** The attributes of the class [Appointment] in [app/models.py]: its
    columns and its relationships. *)
Definition appointment_attributes : list string :=
  ["id"; "slot_id"; "provider_id"; "patient_id"; "appointment_type";
   "status"; "payment_status"; "scheduled_start_time";
   "scheduled_end_time"; "actual_start_time"; "actual_end_time";
   "location"; "contact_phone"; "contact_email"; "symptoms";
   "medical_notes"; "prescription"; "follow_up_required";
   "follow_up_date"; "base_fee"; "insurance_coverage"; "patient_payment";
   "currency"; "booking_reference"; "cancellation_reason"; "cancelled_by";
   "cancelled_at"; "reminder_sent"; "reminder_sent_at";
   "confirmation_sent"; "confirmation_sent_at"; "created_at";
   "updated_at"; "slot"; "provider"; "patient"].

(** [hasattr(obj, field)] against a list of attribute names. *)
Definition hasattr (attributes : list string) (field : string) : bool :=
  existsb (String.eqb field) attributes.

(** The four columns of [AppointmentUpdate] that the row record carries. *)
Definition set_updatable (st : AppointmentStatus) (pay : PaymentStatus)
  (sym reason : option string) (a : Appointment) : Appointment :=
  {| appointment_pk := appointment_pk a; slot_id := slot_id a;
     provider_id := provider_id a; patient_id := patient_id a;
     appointment_type := appointment_type a;
     status := st;
     payment_status := pay;
     scheduled_start_time := scheduled_start_time a;
     scheduled_end_time := scheduled_end_time a;
     location := location a; contact_phone := contact_phone a;
     contact_email := contact_email a;
     symptoms := sym;
     appt_base_fee := appt_base_fee a;
     insurance_coverage := insurance_coverage a;
     patient_payment := patient_payment a;
     appt_currency := appt_currency a;
     booking_reference := booking_reference a;
     cancellation_reason := reason;
     cancelled_by := cancelled_by a;
     cancelled_at := cancelled_at a |}.

(** [setattr(appointment, field, value)] for a value that is not [None].
    The columns [medical_notes], [prescription], [follow_up_required],
    [follow_up_date], [actual_start_time] and [actual_end_time] are not
    part of the row record: writing them leaves the record as it is. *)
Definition setattr_appointment (item : AppointmentUpdateItem)
  (a : Appointment) : Appointment :=
  match item with
  | AU_status (Some v) =>
      set_updatable v (payment_status a) (symptoms a)
        (cancellation_reason a) a
  | AU_payment_status (Some v) =>
      set_updatable (status a) v (symptoms a) (cancellation_reason a) a
  | AU_symptoms (Some v) =>
      set_updatable (status a) (payment_status a) (Some v)
        (cancellation_reason a) a
  | AU_cancellation_reason (Some v) =>
      set_updatable (status a) (payment_status a) (symptoms a) (Some v) a
  | _ => a
  end.

(** The loop [for field, value in update_data.items()] of
    [update_appointment]. *)
Definition apply_appointment_update (update_data : list AppointmentUpdateItem)
  (a : Appointment) : Appointment :=
  fold_left
    (fun a item =>
       if hasattr appointment_attributes (au_key item)
          && au_is_not_none item
       then setattr_appointment item a else a)
    update_data a.

(** [update_appointment] *)
Definition update_appointment (db : Session) (appointment_id : UUID)
  (update_data : list AppointmentUpdateItem)
  : Result (option Appointment * Session) :=
  match get_appointment_by_id db appointment_id with
  | None => Ok (None, db)
  | Some appointment =>
      let db' :=
        with_appointments db
          (update_row appointment_pk (appointment_pk appointment)
             (apply_appointment_update update_data) (appointments db)) in
      Ok (get_appointment_by_id db' appointment_id, db')
  end.

(** ** Availability store: slot update *)

(** One entry of [update_data.dict(exclude_unset=True)] for the schema
    [ProviderAvailabilityUpdate]. *)
Inductive SlotUpdateItem :=
| SU_start_time (v : option string)
| SU_end_time (v : option string)
| SU_status (v : option AvailabilityStatus)
| SU_notes (v : option string)
| SU_pricing (v : option PricingInfo)
| SU_special_requirements (v : option (list string)).

Definition su_key (item : SlotUpdateItem) : string :=
  match item with
  | SU_start_time _ => "start_time"
  | SU_end_time _ => "end_time"
  | SU_status _ => "status"
  | SU_notes _ => "notes"
  | SU_pricing _ => "pricing"
  | SU_special_requirements _ => "special_requirements"
  end.

Definition su_is_not_none (item : SlotUpdateItem) : bool :=
  match item with
  | SU_start_time (Some _) | SU_end_time (Some _) | SU_status (Some _)
  | SU_notes (Some _) | SU_pricing (Some _)
  | SU_special_requirements (Some _) => true
  | _ => false
  end.

(** The attributes of the class [AppointmentSlot] in [app/models.py]. *)
Definition slot_attributes : list string :=
  ["id"; "availability_id"; "provider_id"; "slot_start_time";
   "slot_end_time"; "status"; "patient_id"; "appointment_type";
   "booking_reference"; "created_at"; "updated_at"; "availability";
   "provider"; "patient"; "appointments"].

Definition set_slot_status (st : AvailabilityStatus) (s : AppointmentSlot)
  : AppointmentSlot :=
  {| slot_pk := slot_pk s; availability_id := availability_id s;
     slot_provider_id := slot_provider_id s;
     slot_start_time := slot_start_time s;
     slot_end_time := slot_end_time s;
     slot_status := st;
     slot_patient_id := slot_patient_id s;
     slot_appointment_type := slot_appointment_type s;
     slot_booking_reference := slot_booking_reference s |}.

(** [setattr(slot, field, value)]: of the keys of
    [ProviderAvailabilityUpdate] only [status] names an attribute of the
    slot, so only that assignment is ever carried out. *)
Definition setattr_slot (item : SlotUpdateItem) (s : AppointmentSlot)
  : AppointmentSlot :=
  match item with
  | SU_status (Some v) => set_slot_status v s
  | _ => s
  end.

Definition apply_slot_update (update_data : list SlotUpdateItem)
  (s : AppointmentSlot) : AppointmentSlot :=
  fold_left
    (fun s item =>
       if hasattr slot_attributes (su_key item) && su_is_not_none item
       then setattr_slot item s else s)
    update_data s.

(** [update_availability_slot] *)
Definition update_availability_slot (db : Session) (slot_id : UUID)
  (update_data : list SlotUpdateItem)
  : Result (option AppointmentSlot * Session) :=
  match get_slot db slot_id with
  | None => Ok (None, db)
  | Some slot =>
      let db' :=
        with_slots db
          (update_row slot_pk (slot_pk slot)
             (apply_slot_update update_data) (appointment_slots db)) in
      Ok (get_slot db' slot_id, db')
  end.

(** ** Endpoints of [app/routers/appointments.py]

    [current_patient] and [current_provider] are the rows the dependencies
    [get_current_active_patient] and [get_current_active_provider] hand to
    the endpoint.  An endpoint returns the [data] it hands to its response
    model; the conversion of that data by the response model is not part of
    the model. *)

Definition HTTP_403_FORBIDDEN : Z := 403.
Definition HTTP_500_INTERNAL_SERVER_ERROR : Z := 500.

(** [except HTTPException: raise] followed by
    [except Exception: raise HTTPException(500, detail)]. *)
Definition except_exception {A} (detail : string) (r : Result A) : Result A :=
  match r with
  | Ok a => Ok a
  | Raise (HTTPException status_code d) => Raise (HTTPException status_code d)
  | Raise _ => Raise (HTTPException HTTP_500_INTERNAL_SERVER_ERROR detail)
  end.

(** [book_appointment] *)
Definition book_appointment (db : Session) (current_patient : Patient)
  (appointment_data : AppointmentData) (uuid_hex : string)
  : Result (Appointment * Session) :=
  except_exception "Failed to book appointment"
    (create_appointment db (patient_pk current_patient) appointment_data
       uuid_hex).


(** The lookup and the ownership check the patient endpoints start with. *)
Definition own_appointment (db : Session) (current_patient : Patient)
  (appointment_id : UUID) : Result Appointment :=
  match get_appointment_by_id db appointment_id with
  | None =>
      Raise (HTTPException HTTP_404_NOT_FOUND "Appointment not found")
  | Some appointment =>
      if negb (Nat.eqb (patient_id appointment) (patient_pk current_patient))
      then Raise (HTTPException HTTP_403_FORBIDDEN "Access denied")
      else Ok appointment
  end.

(** The same for the provider endpoints. *)
Definition provider_appointment (db : Session) (current_provider : Provider)
  (appointment_id : UUID) : Result Appointment :=
  match get_appointment_by_id db appointment_id with
  | None =>
      Raise (HTTPException HTTP_404_NOT_FOUND "Appointment not found")
  | Some appointment =>
      if negb (Nat.eqb (provider_id appointment)
                 (provider_pk current_provider))
      then Raise (HTTPException HTTP_403_FORBIDDEN "Access denied")
      else Ok appointment
  end.

(** [get_appointment_details] *)
Definition get_appointment_details (db : Session) (current_patient : Patient)
  (appointment_id : UUID) : Result Appointment :=
  own_appointment db current_patient appointment_id.

(** [get_provider_appointment_details] *)
Definition get_provider_appointment_details (db : Session)
  (current_provider : Provider) (appointment_id : UUID)
  : Result Appointment :=
  provider_appointment db current_provider appointment_id.

(** An update that found no appointment answers 404. *)
Definition found_or_404 (r : Result (option Appointment * Session))
  : Result (Appointment * Session) :=
  match r with
  | Raise e => Raise e
  | Ok (None, _) =>
      Raise (HTTPException HTTP_404_NOT_FOUND "Appointment not found")
  | Ok (Some a, db') => Ok (a, db')
  end.

(** [allowed_fields] of [update_appointment_details]. *)
Definition allowed_fields : list string :=
  ["symptoms"; "contact_phone"; "contact_email"].

(** [update_appointment_details]; [update_data] is
    [update_data.dict(exclude_unset=True)]. *)
Definition update_appointment_details (db : Session)
  (current_patient : Patient) (appointment_id : UUID)
  (update_data : list AppointmentUpdateItem)
  : Result (Appointment * Session) :=
  match own_appointment db current_patient appointment_id with
  | Raise e => Raise e
  | Ok appointment =>
      let filtered_data :=
        filter (fun item => existsb (String.eqb (au_key item)) allowed_fields)
          update_data in
      match filtered_data with
      | [] =>
          Raise (HTTPException HTTP_400_BAD_REQUEST
                   "No valid fields to update")
      | _ => found_or_404 (update_appointment db appointment_id filtered_data)
      end
  end.

(** [update_provider_appointment_details] *)
Definition update_provider_appointment_details (db : Session)
  (current_provider : Provider) (appointment_id : UUID)
  (update_data : list AppointmentUpdateItem)
  : Result (Appointment * Session) :=
  match provider_appointment db current_provider appointment_id with
  | Raise e => Raise e
  | Ok appointment =>
      found_or_404 (update_appointment db appointment_id update_data)
  end.

(** The [data] of [AppointmentCancelResponse]. *)
Record CancelData := {
  cd_appointment_id : UUID;
  cd_booking_reference : string;
  cd_cancelled_at : option datetime;
  cd_refund_amount : Q
}.

Definition cancel_data (appointment_id : UUID)
  (r : Result (Appointment * Session)) : Result (CancelData * Session) :=
  match r with
  | Raise e => Raise e
  | Ok (cancelled_appointment, db') =>
      Ok ({| cd_appointment_id := appointment_id;
             cd_booking_reference := booking_reference cancelled_appointment;
             cd_cancelled_at := cancelled_at cancelled_appointment;
             cd_refund_amount := patient_payment cancelled_appointment |},
          db')
  end.

(** [cancel_appointment_patient] *)
Definition cancel_appointment_patient (db : Session)
  (current_patient : Patient) (appointment_id : UUID) (reason : string)
  (now : datetime) : Result (CancelData * Session) :=
  match own_appointment db current_patient appointment_id with
  | Raise e => Raise e
  | Ok appointment =>
      cancel_data appointment_id
        (found_or_404
           (cancel_appointment db appointment_id reason "patient" now))
  end.

(** [cancel_appointment_provider] *)
Definition cancel_appointment_provider (db : Session)
  (current_provider : Provider) (appointment_id : UUID) (reason : string)
  (now : datetime) : Result (CancelData * Session) :=
  match provider_appointment db current_provider appointment_id with
  | Raise e => Raise e
  | Ok appointment =>
      cancel_data appointment_id
        (found_or_404
           (cancel_appointment db appointment_id reason "provider" now))
  end.

(** [reschedule_appointment_patient] *)
Definition reschedule_appointment_patient (db : Session)
  (current_patient : Patient) (appointment_id new_slot_id : UUID)
  (reason : option string) : Result (Appointment * Session) :=
  match own_appointment db current_patient appointment_id with
  | Raise e => Raise e
  | Ok appointment =>
      found_or_404
        (reschedule_appointment db appointment_id new_slot_id reason)
  end.

(** [reschedule_appointment_provider] *)
Definition reschedule_appointment_provider (db : Session)
  (current_provider : Provider) (appointment_id new_slot_id : UUID)
  (reason : option string) : Result (Appointment * Session) :=
  match provider_appointment db current_provider appointment_id with
  | Raise e => Raise e
  | Ok appointment =>
      found_or_404
        (reschedule_appointment db appointment_id new_slot_id reason)
  end.

(** [get_provider_appointments]: the patient filter runs on the page the
    query returned. *)
Definition get_provider_appointments (db : Session)
  (current_provider : Provider) (wanted : option AppointmentStatus)
  (patient : option UUID) (skip limit : nat) : list Appointment :=
  let appointments :=
    get_appointments_by_provider db (provider_pk current_provider) skip limit
      wanted in
  match patient with
  | Some p => filter (fun apt => Nat.eqb (patient_id apt) p) appointments
  | None => appointments
  end.


(** ** Availability store: retrieval *)

(** [AvailabilityStatus.value] *)
Definition AvailabilityStatus_value (s : AvailabilityStatus) : string :=
  match s with
  | AVAILABLE => "available"
  | BOOKED => "booked"
  | SLOT_CANCELLED => "cancelled"
  | BLOCKED => "blocked"
  | MAINTENANCE => "maintenance"
  end.

(** One slot of a day in the answer of [get_provider_availability]. *)
Record SlotData := {
  sd_slot_id : UUID;
  sd_start_time : string;
  sd_end_time : string;
  sd_status : string;
  sd_appointment_type : string;
  sd_location : LocationInfo;
  sd_pricing : option PricingInfo;
  sd_special_requirements : option (list string)
}.

(** One value of the dictionary [availability_by_date]; the key is the
    local date of the slots. *)
Record DayAvailability := {
  da_date : date;
  da_slots : list SlotData
}.

Record AvailabilitySummary := {
  total_slots : Z;
  available_slots : Z;
  booked_slots : Z;
  cancelled_slots : Z
}.

Record ProviderAvailabilityReport := {
  report_provider_id : UUID;
  availability_summary : AvailabilitySummary;
  availability : list DayAvailability
}.

(** [date_key in availability_by_date] *)
Definition has_date (date_key : date) (days : list DayAvailability) : bool :=
  existsb (fun d => Z.eqb (da_date d) date_key) days.

(** [availability_by_date[date_key]["slots"].append(slot_data)] *)
Fixpoint append_to_date (date_key : date) (slot_data : SlotData)
  (days : list DayAvailability) : list DayAvailability :=
  match days with
  | [] => []
  | d :: rest =>
      if Z.eqb (da_date d) date_key then
        {| da_date := da_date d; da_slots := da_slots d ++ [slot_data] |}
        :: rest
      else d :: append_to_date date_key slot_data rest
  end.

(** [timezone or "UTC"] *)
Definition or_utc (timezone : option string) : string :=
  if truthy_string timezone then get_or_empty timezone else "UTC".

Section Retrieval.

Variable pytz_timezone : string -> option tzinfo.

(** How the store compares the [status] column with the text of the
    [status] query parameter. *)
Variable status_equals : AvailabilityStatus -> string -> bool.

(** The query of [get_provider_availability]. *)
Definition availability_query (db : Session) (provider : UUID)
  (start_date end_date : date) (status_filter : option string)
  (wanted_type : option string) : list AppointmentSlot :=
  let in_range :=
    filter
      (fun s =>
         Nat.eqb (slot_provider_id s) provider
         && (slot_start_time s >=? date_as_datetime start_date)
         && (slot_start_time s <? date_as_datetime (end_date + 1)))
      (appointment_slots db) in
  let by_status :=
    if truthy_string status_filter then
      filter
        (fun s => status_equals (slot_status s) (get_or_empty status_filter))
        in_range
    else in_range in
  if truthy_string wanted_type then
    filter
      (fun s =>
         String.eqb (slot_appointment_type s) (get_or_empty wanted_type))
      by_status
  else by_status.

(** The loop [for slot in slots] of [get_provider_availability], with the
    dictionary and the three counters. *)
Fixpoint availability_loop (db : Session) (timezone : option string)
  (slots : list AppointmentSlot) (availability_by_date : list DayAvailability)
  (available booked cancelled : Z)
  : Result (list DayAvailability * Z * Z * Z) :=
  match slots with
  | [] => Ok (availability_by_date, available, booked, cancelled)
  | slot :: rest =>
      match pytz_timezone (or_utc timezone) with
      | None => Raise UnknownTimeZoneError
      | Some local_tz =>
      let slot_start_local := fromutc local_tz (slot_start_time slot) in
      let slot_end_local := fromutc local_tz (slot_end_time slot) in
      let date_key := nd_date slot_start_local in
      let time_key := strftime_HM (nd_time slot_start_local) in
      let days :=
        if has_date date_key availability_by_date then availability_by_date
        else availability_by_date
             ++ [{| da_date := date_key; da_slots := [] |}] in
      let available' :=
        if AvailabilityStatus_eqb (slot_status slot) AVAILABLE
        then available + 1 else available in
      let booked' :=
        if AvailabilityStatus_eqb (slot_status slot) AVAILABLE then booked
        else if AvailabilityStatus_eqb (slot_status slot) BOOKED
        then booked + 1 else booked in
      let cancelled' :=
        if AvailabilityStatus_eqb (slot_status slot) AVAILABLE then cancelled
        else if AvailabilityStatus_eqb (slot_status slot) BOOKED
        then cancelled
        else if AvailabilityStatus_eqb (slot_status slot) SLOT_CANCELLED
        then cancelled + 1 else cancelled in
      match slot_availability db slot with
      | None => Raise AttributeError
      | Some w =>
          let slot_data :=
            {| sd_slot_id := slot_pk slot;
               sd_start_time := time_key;
               sd_end_time := strftime_HM (nd_time slot_end_local);
               sd_status := AvailabilityStatus_value (slot_status slot);
               sd_appointment_type := slot_appointment_type slot;
               sd_location := pa_location w;
               sd_pricing := pricing w;
               sd_special_requirements := special_requirements w |} in
          availability_loop db timezone rest
            (append_to_date date_key slot_data days)
            available' booked' cancelled'
      end
      end
  end.

(** [get_provider_availability] *)
Definition get_provider_availability (db : Session) (provider : UUID)
  (start_date end_date : date) (status_filter : option string)
  (wanted_type : option string) (timezone : option string)
  : Result ProviderAvailabilityReport :=
  match get_provider_by_id db provider with
  | None => Raise (HTTPException HTTP_404_NOT_FOUND "Provider not found")
  | Some _ =>
      let slots :=
        availability_query db provider start_date end_date status_filter
          wanted_type in
      match availability_loop db timezone slots [] 0 0 0 with
      | Raise e => Raise e
      | Ok (availability_by_date, available, booked, cancelled) =>
          Ok {| report_provider_id := provider;
                availability_summary :=
                  {| total_slots := Z.of_nat (List.length slots);
                     available_slots := available;
                     booked_slots := booked;
                     cancelled_slots := cancelled |};
                availability := availability_by_date |}
      end
  end.


End Retrieval.

(** The slot entries of a report, day after day, and the number of slots of
    a list that have a given status: what the statements about the report
    are phrased with. *)
Definition day_entries (days : list DayAvailability) : list SlotData :=
  List.concat (map da_slots days).

Definition count_status (st : AvailabilityStatus)
  (slots : list AppointmentSlot) : Z :=
  Z.of_nat
    (List.length
       (filter (fun s => AvailabilityStatus_eqb (slot_status s) st) slots)).

(** ** The other endpoints of [app/routers/availability.py] *)

(** The endpoint [create_availability_slots] takes the body of the request
    as an untyped [dict] and hands it to [create_provider_availability]
    unchanged; how the values of that dictionary are typed is outside the
    store, and the endpoint is left out here.  Creation is stated on
    [create_provider_availability]. *)

(** The [data] of the answer of [update_availability_slot_endpoint] (less
    the time of the update). *)
Record SlotUpdated := {
  upd_slot_id : UUID;
  upd_status : string
}.

(** [update_availability_slot_endpoint] *)
Definition update_availability_slot_endpoint (db : Session)
  (slot : UUID) (update_dict : list SlotUpdateItem)
  : Result (SlotUpdated * Session) :=
  except_exception "Failed to update availability slot"
    (match update_availability_slot db slot update_dict with
     | Raise e => Raise e
     | Ok (None, _) =>
         Raise (HTTPException HTTP_404_NOT_FOUND
                  "Availability slot not found")
     | Ok (Some s, db') =>
         Ok ({| upd_slot_id := slot_pk s;
                upd_status := AvailabilityStatus_value (slot_status s) |},
             db')
     end).

(** The [data] of the answer of [delete_availability_slot_endpoint]. *)
Record SlotDeleted := {
  del_slot_id : UUID;
  del_deleted_recurring : bool;
  del_reason : option string
}.

(** [delete_availability_slot_endpoint] *)
Definition delete_availability_slot_endpoint (db : Session) (slot : UUID)
  (delete_recurring : bool) (reason : option string)
  : Result (SlotDeleted * Session) :=
  except_exception "Failed to delete availability slot"
    (match delete_availability_slot db slot delete_recurring reason with
     | Raise e => Raise e
     | Ok (false, _) =>
         Raise (HTTPException HTTP_404_NOT_FOUND
                  "Availability slot not found")
     | Ok (true, db') =>
         Ok ({| del_slot_id := slot;
                del_deleted_recurring := delete_recurring;
                del_reason := reason |},
             db')
     end).

(** The endpoint [search_availability_endpoint] hands the result of
    [search_availability] as the keyword [data] to a response model that
    has no such field; what it answers depends on that construction, which
    is outside the store, and it is left out here.  The search is stated on
    [search_availability]. *)

(** * Properties *)

(** ** Rows and queries *)

Section Rows.

Context {A : Type} (pk : A -> UUID).

Lemma query_first_some id rows r :
  query_first pk id rows = Some r -> pk r = id /\ In r rows.
Proof.
  unfold query_first. intros H. apply find_some in H.
  destruct H as [Hin Heq]. apply Nat.eqb_eq in Heq. auto.
Qed.

Lemma query_first_none id rows :
  query_first pk id rows = None -> forall r, In r rows -> pk r <> id.
Proof.
  unfold query_first. intros H r Hin Heq.
  apply (find_none _ _ H) in Hin. apply Nat.eqb_neq in Hin. auto.
Qed.

Lemma query_first_update_same id f rows :
  (forall r, pk (f r) = pk r) ->
  query_first pk id (update_row pk id f rows)
  = option_map f (query_first pk id rows).
Proof.
  intros Hpk. unfold query_first.
  induction rows as [|r rest IH]; simpl; [reflexivity|].
  destruct (Nat.eqb (pk r) id) eqn:E; simpl.
  - rewrite Hpk, E. reflexivity.
  - rewrite E. exact IH.
Qed.

Lemma query_first_update_other id id' f rows :
  (forall r, pk (f r) = pk r) -> id <> id' ->
  query_first pk id' (update_row pk id f rows) = query_first pk id' rows.
Proof.
  intros Hpk Hne. unfold query_first.
  induction rows as [|r rest IH]; simpl; [reflexivity|].
  destruct (Nat.eqb (pk r) id) eqn:E; simpl.
  - rewrite Hpk. apply Nat.eqb_eq in E.
    destruct (Nat.eqb (pk r) id') eqn:E'; [|reflexivity].
    apply Nat.eqb_eq in E'. congruence.
  - destruct (Nat.eqb (pk r) id'); [reflexivity | exact IH].
Qed.

Lemma update_row_pks id f rows :
  (forall r, pk (f r) = pk r) ->
  map pk (update_row pk id f rows) = map pk rows.
Proof.
  intros Hpk. induction rows as [|r rest IH]; simpl; [reflexivity|].
  destruct (Nat.eqb (pk r) id); simpl; [rewrite Hpk | rewrite IH];
    reflexivity.
Qed.

Lemma in_update_row id f rows r' :
  NoDup (map pk rows) ->
  In r' (update_row pk id f rows) ->
  (In r' rows /\ pk r' <> id)
  \/ (exists r, In r rows /\ pk r = id /\ r' = f r).
Proof.
  induction rows as [|r rest IH]; simpl; [tauto|].
  intros Hnd. inversion Hnd as [|? ? Hnotin Hnd']; subst.
  destruct (Nat.eqb (pk r) id) eqn:E.
  - apply Nat.eqb_eq in E. intros [<-|Hin].
    + right. exists r. auto.
    + left. split; [auto|]. intros Heq. apply Hnotin.
      rewrite E, <- Heq. apply in_map. exact Hin.
  - apply Nat.eqb_neq in E. intros [<-|Hin].
    + left. auto.
    + destruct (IH Hnd' Hin) as [[H1 H2]|[r0 [H1 [H2 H3]]]].
      * left. auto.
      * right. exists r0. auto.
Qed.

Lemma update_row_in id f rows r :
  NoDup (map pk rows) -> In r rows ->
  In (if Nat.eqb (pk r) id then f r else r) (update_row pk id f rows).
Proof.
  induction rows as [|r0 rest IH]; simpl; [tauto|].
  intros Hnd. inversion Hnd as [|? ? Hnotin Hnd']; subst.
  intros [->|Hin].
  - destruct (Nat.eqb (pk r) id); left; reflexivity.
  - destruct (Nat.eqb (pk r0) id) eqn:E0.
    + apply Nat.eqb_eq in E0.
      destruct (Nat.eqb (pk r) id) eqn:E.
      * apply Nat.eqb_eq in E. exfalso. apply Hnotin.
        rewrite E0, <- E. apply in_map. exact Hin.
      * right. exact Hin.
    + right. apply IH; assumption.
Qed.

Lemma query_first_in id rows r :
  NoDup (map pk rows) -> In r rows -> pk r = id ->
  query_first pk id rows = Some r.
Proof.
  unfold query_first.
  induction rows as [|r0 rest IH]; simpl; [tauto|].
  intros Hnd. inversion Hnd as [|? ? Hnotin Hnd']; subst.
  intros [->|Hin] Heq.
  - rewrite (proj2 (Nat.eqb_eq _ _) Heq). reflexivity.
  - destruct (Nat.eqb (pk r0) id) eqn:E0.
    + apply Nat.eqb_eq in E0. exfalso. apply Hnotin.
      rewrite E0, <- Heq. apply in_map. exact Hin.
    + apply IH; assumption.
Qed.

End Rows.

(** ** Booking engine *)

Lemma is_terminal_spec s :
  is_terminal s = true <-> s = CANCELLED \/ s = COMPLETED.
Proof. destruct s; simpl; split; intros H; try discriminate; auto;
  destruct H; discriminate. Qed.

Lemma is_terminal_false s :
  is_terminal s = false <-> s <> CANCELLED /\ s <> COMPLETED.
Proof.
  destruct s; simpl; split; intros H; try discriminate; try tauto;
    split; discriminate.
Qed.

Lemma AvailabilityStatus_eqb_eq a b :
  AvailabilityStatus_eqb a b = true <-> a = b.
Proof. destruct a, b; simpl; split; intros H; try discriminate; auto. Qed.

Lemma release_slot_pk s : slot_pk (release_slot s) = slot_pk s.
Proof. reflexivity. Qed.

Lemma book_slot_pk p r s : slot_pk (book_slot p r s) = slot_pk s.
Proof. reflexivity. Qed.

Lemma set_current_appointments_pk n w :
  availability_pk (set_current_appointments n w) = availability_pk w.
Proof. reflexivity. Qed.

Lemma cancel_fields_pk r c n a :
  appointment_pk (cancel_fields r c n a) = appointment_pk a.
Proof. reflexivity. Qed.

Lemma reschedule_fields_pk i s a :
  appointment_pk (reschedule_fields i s a) = appointment_pk a.
Proof. reflexivity. Qed.

(** C2. A cancellation of an existing appointment (whose slot and window
    rows exist, as the foreign keys require) is rejected exactly when the
    appointment is already CANCELLED or COMPLETED; otherwise the appointment
    becomes CANCELLED with reason, actor and time recorded, its slot becomes
    AVAILABLE with patient and booking reference cleared, the window's
    [current_appointments] becomes [max 0 (n - 1)] (one less, never below
    zero), and cancelling again is rejected. *)
Theorem cancel_appointment_spec
  (db : Session) (appointment_id : UUID) (reason actor : string)
  (now : datetime) (a : Appointment) (slot : AppointmentSlot)
  (w : ProviderAvailability) :
  get_appointment_by_id db appointment_id = Some a ->
  get_slot db (slot_id a) = Some slot ->
  slot_availability db slot = Some w ->
  let r := cancel_appointment db appointment_id reason actor now in
  (rejected r <-> status a = CANCELLED \/ status a = COMPLETED)
  /\ (status a = CANCELLED \/ status a = COMPLETED ->
      r = Raise (HTTPException HTTP_400_BAD_REQUEST
                   "Appointment cannot be cancelled")
      /\ committed db r = db)
  /\ (status a <> CANCELLED -> status a <> COMPLETED ->
      exists a' db',
        r = Ok (Some a', db')
        /\ get_appointment_by_id db' appointment_id = Some a'
        /\ status a' = CANCELLED
        /\ cancellation_reason a' = Some reason
        /\ cancelled_by a' = Some actor
        /\ cancelled_at a' = Some now
        /\ slot_id a' = slot_id a
        /\ (exists slot',
              get_slot db' (slot_id a) = Some slot'
              /\ slot_status slot' = AVAILABLE
              /\ slot_patient_id slot' = None
              /\ slot_booking_reference slot' = None
              /\ exists w',
                   slot_availability db' slot' = Some w'
                   /\ current_appointments w'
                      = Z.max 0 (current_appointments w - 1)
                   /\ 0 <= current_appointments w'
                   /\ (1 <= current_appointments w ->
                       current_appointments w' = current_appointments w - 1))
        /\ forall reason2 actor2 now2,
             cancel_appointment db' appointment_id reason2 actor2 now2
             = Raise (HTTPException HTTP_400_BAD_REQUEST
                        "Appointment cannot be cancelled")).
Proof.
  intros Ha Hs Hw r.
  assert (Hpk : appointment_pk a = appointment_id)
    by (apply (query_first_some appointment_pk) in Ha; tauto).
  assert (Hspk : slot_pk slot = slot_id a)
    by (apply (query_first_some slot_pk) in Hs; tauto).
  assert (Hwpk : availability_pk w = availability_id slot)
    by (apply (query_first_some availability_pk) in Hw; tauto).
  destruct (is_terminal (status a)) eqn:Ht.
  - (* already cancelled or completed *)
    assert (Hr : r = Raise (HTTPException HTTP_400_BAD_REQUEST
                              "Appointment cannot be cancelled")).
    { unfold r, cancel_appointment. rewrite Ha, Ht. reflexivity. }
    apply is_terminal_spec in Ht.
    split; [split; [auto | intros _; eexists; exact Hr]|].
    split; [intros _; rewrite Hr; auto|].
    intros H1 H2. destruct Ht; contradiction.
  - assert (Hnt := proj1 (is_terminal_false _) Ht).
    set (a' := cancel_fields reason actor now a).
    set (slot' := release_slot slot).
    set (w' := decrement_appointments w).
    set (db1 := with_appointments db
                  (update_row appointment_pk (appointment_pk a)
                     (cancel_fields reason actor now)
                     (appointments db))).
    set (db2 := with_slots db1
                  (update_row slot_pk (slot_pk slot) release_slot
                     (appointment_slots db1))).
    set (db3 := with_availability db2
                  (update_row availability_pk (availability_pk w)
                     decrement_appointments (provider_availability db2))).
    assert (Ha3 : get_appointment_by_id db3 appointment_id = Some a').
    { unfold get_appointment_by_id, db3, db2, db1; simpl.
      rewrite Hpk, query_first_update_same by apply cancel_fields_pk.
      unfold get_appointment_by_id in Ha. rewrite Ha. reflexivity. }
    assert (Hr : r = Ok (Some a', db3)).
    { unfold r, cancel_appointment. rewrite Ha, Ht.
      change (get_slot (with_appointments db _) (slot_id a))
        with (get_slot db (slot_id a)).
      rewrite Hs.
      change (slot_availability (with_slots _ _) slot)
        with (slot_availability db slot).
      rewrite Hw. fold db1 db2 db3. rewrite Ha3. reflexivity. }
    split.
    { split; [intros [e He]; rewrite Hr in He; discriminate|].
      intros [H|H]; [destruct Hnt as [Hn _] | destruct Hnt as [_ Hn]];
        contradiction. }
    split; [intros [H|H]; destruct Hnt; contradiction|].
    intros _ _. exists a', db3.
    split; [exact Hr|]. split; [exact Ha3|].
    do 5 (split; [reflexivity|]).
    split.
    + exists slot'. split.
      { unfold get_slot, db3, db2, db1; simpl.
        rewrite Hspk, query_first_update_same by apply release_slot_pk.
        unfold get_slot in Hs. rewrite Hs. reflexivity. }
      do 3 (split; [reflexivity|]).
      exists w'. split.
      { unfold slot_availability, db3, db2, db1; simpl.
        rewrite Hwpk, query_first_update_same by (intros; reflexivity).
        unfold slot_availability in Hw. rewrite Hw. reflexivity. }
      simpl. split; [reflexivity|]. split; lia.
    + intros reason2 actor2 now2.
      unfold cancel_appointment. rewrite Ha3. reflexivity.
Qed.

(** Rescheduling never writes to the window table. *)
Lemma reschedule_keeps_windows db appointment_id new_slot_id reason :
  provider_availability
    (committed db
       (reschedule_appointment db appointment_id new_slot_id reason))
  = provider_availability db.
Proof.
  unfold reschedule_appointment.
  destruct (get_appointment_by_id db appointment_id) as [a|]; [|reflexivity].
  destruct (is_terminal (status a)); [reflexivity|].
  destruct (get_slot db new_slot_id) as [ns|]; [|reflexivity].
  destruct (negb _); [reflexivity|].
  destruct (get_slot db (slot_id a)); reflexivity.
Qed.

(** C3. Appointment 106 holds slot 101 of window 100, whose
    [current_appointments] is 1 after the booking; rescheduling it to slot
    104 of window 103 succeeds, frees slot 101 (AVAILABLE, patient and
    reference cleared), books slot 104 with the same patient and the same
    reference, moves the appointment (slot, start, end, RESCHEDULED), and
    leaves the counter of window 100 at 1: it is not decremented. *)
Theorem reschedule_occupancy_not_decremented :
  exists a' db' old_slot new_slot old_window new_window,
    reschedule_appointment store_booked 106%nat 104%nat None
    = Ok (Some a', db')
    /\ get_slot db' 101%nat = Some old_slot
    /\ slot_status old_slot = AVAILABLE
    /\ slot_patient_id old_slot = None
    /\ slot_booking_reference old_slot = None
    /\ get_slot db' 104%nat = Some new_slot
    /\ slot_status new_slot = BOOKED
    /\ slot_patient_id new_slot = Some 2%nat
    /\ slot_booking_reference new_slot = Some "APT-A1B2C3D4"
    /\ booking_reference a' = "APT-A1B2C3D4"
    /\ slot_id a' = 104%nat
    /\ scheduled_start_time a' = slot_start_time new_slot
    /\ scheduled_end_time a' = slot_end_time new_slot
    /\ status a' = RESCHEDULED
    /\ query_first availability_pk 100%nat (provider_availability store_booked)
       = Some old_window
    /\ current_appointments old_window = 1
    /\ query_first availability_pk 100%nat (provider_availability db')
       = Some new_window
    /\ current_appointments new_window = 1.
Proof.
  do 6 eexists. vm_compute.
  repeat (split; [reflexivity|]). reflexivity.
Qed.

(** C10, as worded, fails: appointment 106 was cancelled and its slot 101
    was booked again by another patient, so the slot bound to 106 is BOOKED,
    yet asking to reschedule 106 to slot 101 is answered with
    "Appointment cannot be rescheduled", not with "not available". *)
Lemma reschedule_same_slot_counterexample :
  ~ (forall db appointment_id a s reason,
       get_appointment_by_id db appointment_id = Some a ->
       get_slot db (slot_id a) = Some s ->
       slot_status s = BOOKED ->
       reschedule_appointment db appointment_id (slot_id a) reason
       = Raise (HTTPException HTTP_400_BAD_REQUEST
                  "New appointment slot is not available")).
Proof.
  intros H.
  destruct (get_appointment_by_id store_rebooked 106%nat) as [a|] eqn:Ha;
    [|vm_compute in Ha; discriminate].
  destruct (get_slot store_rebooked (slot_id a)) as [s|] eqn:Hs;
    [|vm_compute in Ha; injection Ha as <-; vm_compute in Hs; discriminate].
  specialize (H store_rebooked 106%nat a s None Ha Hs).
  vm_compute in Ha. injection Ha as <-.
  vm_compute in Hs. injection Hs as <-.
  specialize (H eq_refl). vm_compute in H. discriminate.
Qed.

(** C10, amended. When the slot bound to an appointment is BOOKED, a
    request to reschedule the appointment to that same slot is rejected and
    the store is left as it was: with "New appointment slot is not
    available" when the appointment is neither CANCELLED nor COMPLETED, with
    "Appointment cannot be rescheduled" when it is.  Hence a reschedule that
    succeeds names a slot other than the one the appointment held. *)
Theorem reschedule_same_slot_rejected
  (db : Session) (appointment_id : UUID) (a : Appointment)
  (s : AppointmentSlot) (reason : option string) :
  get_appointment_by_id db appointment_id = Some a ->
  get_slot db (slot_id a) = Some s ->
  slot_status s = BOOKED ->
  let r := reschedule_appointment db appointment_id (slot_id a) reason in
  r = Raise (HTTPException HTTP_400_BAD_REQUEST
               (if is_terminal (status a)
                then "Appointment cannot be rescheduled"
                else "New appointment slot is not available"))
  /\ committed db r = db
  /\ forall new_slot_id res db',
       reschedule_appointment db appointment_id new_slot_id reason
       = Ok (res, db') ->
       new_slot_id <> slot_id a.
Proof.
  intros Ha Hs Hb r.
  assert (Hr : r = Raise (HTTPException HTTP_400_BAD_REQUEST
               (if is_terminal (status a)
                then "Appointment cannot be rescheduled"
                else "New appointment slot is not available"))).
  { unfold r, reschedule_appointment. rewrite Ha.
    destruct (is_terminal (status a)); [reflexivity|].
    rewrite Hs, Hb. reflexivity. }
  split; [exact Hr|]. split; [rewrite Hr; reflexivity|].
  intros new_slot_id res db' Hok ->.
  fold r in Hok. rewrite Hr in Hok. discriminate.
Qed.

(** What a successful booking did. *)
Lemma create_appointment_ok db patient appointment_data uuid_hex a db' :
  create_appointment db patient appointment_data uuid_hex = Ok (a, db') ->
  exists slot w,
    get_patient_by_id db patient <> None
    /\ get_slot db (ad_slot_id appointment_data) = Some slot
    /\ slot_status slot = AVAILABLE
    /\ slot_availability db slot = Some w
    /\ appointment_pk a = next_uuid db
    /\ slot_id a = ad_slot_id appointment_data
    /\ patient_id a = patient
    /\ status a = SCHEDULED
    /\ appt_base_fee a = pricing_base_fee w
    /\ appt_currency a = pricing_currency w
    /\ booking_reference a = ("APT-" ++ uuid_hex)%string
    /\ scheduled_start_time a = slot_start_time slot
    /\ scheduled_end_time a = slot_end_time slot
    /\ appointments db' = appointments db ++ [a]
    /\ appointment_slots db'
       = update_row slot_pk (slot_pk slot)
           (book_slot patient (booking_reference a)) (appointment_slots db)
    /\ provider_availability db'
       = update_row availability_pk (availability_pk w)
           increment_appointments (provider_availability db)
    /\ next_uuid db' = S (next_uuid db).
Proof.
  unfold create_appointment.
  destruct (get_patient_by_id db patient) as [p|] eqn:Hp; [|discriminate].
  destruct (get_slot db (ad_slot_id appointment_data)) as [slot|] eqn:Hs;
    [|discriminate].
  destruct (AvailabilityStatus_eqb (slot_status slot) AVAILABLE) eqn:Hst;
    simpl; [|discriminate].
  destruct (get_provider_by_id db (slot_provider_id slot)); [|discriminate].
  destruct (slot_availability db slot) as [w|] eqn:Hw; [|discriminate].
  destruct (booking_reference_taken db (slot_pk slot) _); [discriminate|].
  intros H. injection H as <- <-.
  exists slot, w. apply AvailabilityStatus_eqb_eq in Hst.
  split; [discriminate|].
  repeat (split; [first [reflexivity | assumption]|]). reflexivity.
Qed.

(** What a successful cancellation of an existing appointment did. *)
Lemma cancel_appointment_ok db appointment_id reason actor now res db' :
  cancel_appointment db appointment_id reason actor now = Ok (res, db') ->
  (get_appointment_by_id db appointment_id = None /\ db' = db)
  \/ exists a slot w,
       get_appointment_by_id db appointment_id = Some a
       /\ is_terminal (status a) = false
       /\ get_slot db (slot_id a) = Some slot
       /\ slot_availability db slot = Some w
       /\ appointments db'
          = update_row appointment_pk (appointment_pk a)
              (cancel_fields reason actor now) (appointments db)
       /\ appointment_slots db'
          = update_row slot_pk (slot_pk slot) release_slot
              (appointment_slots db)
       /\ provider_availability db'
          = update_row availability_pk (availability_pk w)
              decrement_appointments (provider_availability db)
       /\ next_uuid db' = next_uuid db.
Proof.
  unfold cancel_appointment.
  destruct (get_appointment_by_id db appointment_id) as [a|] eqn:Ha.
  2:{ intros H. injection H as <- <-. left. auto. }
  destruct (is_terminal (status a)) eqn:Ht; [discriminate|].
  change (get_slot (with_appointments db _) (slot_id a))
    with (get_slot db (slot_id a)).
  destruct (get_slot db (slot_id a)) as [slot|] eqn:Hs; [|discriminate].
  change (slot_availability (with_slots _ _) slot)
    with (slot_availability db slot).
  destruct (slot_availability db slot) as [w|] eqn:Hw; [|discriminate].
  intros H. injection H as <- <-. right. exists a, slot, w.
  repeat (split; [first [reflexivity | assumption]|]). reflexivity.
Qed.

(** What a successful reschedule of an existing appointment did. *)
Lemma reschedule_appointment_ok db appointment_id new_slot_id reason res db' :
  reschedule_appointment db appointment_id new_slot_id reason
  = Ok (res, db') ->
  (get_appointment_by_id db appointment_id = None /\ db' = db)
  \/ exists a new_slot old_slot,
       get_appointment_by_id db appointment_id = Some a
       /\ is_terminal (status a) = false
       /\ get_slot db new_slot_id = Some new_slot
       /\ slot_status new_slot = AVAILABLE
       /\ get_slot db (slot_id a) = Some old_slot
       /\ appointments db'
          = update_row appointment_pk (appointment_pk a)
              (reschedule_fields new_slot_id new_slot) (appointments db)
       /\ appointment_slots db'
          = update_row slot_pk (slot_pk new_slot)
              (book_slot (patient_id a) (booking_reference a))
              (update_row slot_pk (slot_pk old_slot) release_slot
                 (appointment_slots db))
       /\ provider_availability db' = provider_availability db
       /\ next_uuid db' = next_uuid db.
Proof.
  unfold reschedule_appointment.
  destruct (get_appointment_by_id db appointment_id) as [a|] eqn:Ha.
  2:{ intros H. injection H as <- <-. left. auto. }
  destruct (is_terminal (status a)) eqn:Ht; [discriminate|].
  destruct (get_slot db new_slot_id) as [ns|] eqn:Hn; [|discriminate].
  destruct (AvailabilityStatus_eqb (slot_status ns) AVAILABLE) eqn:Hst;
    simpl; [|discriminate].
  destruct (get_slot db (slot_id a)) as [os|] eqn:Ho; [|discriminate].
  intros H. injection H as <- <-. right. exists a, ns, os.
  apply AvailabilityStatus_eqb_eq in Hst.
  repeat (split; [first [reflexivity | assumption]|]). reflexivity.
Qed.

Lemma same_key_same_row {A} (pk : A -> UUID) rows x y :
  NoDup (map pk rows) -> In x rows -> In y rows -> pk x = pk y -> x = y.
Proof.
  intros Hnd Hx Hy Heq.
  pose proof (query_first_in pk (pk y) rows x Hnd Hx Heq) as H1.
  pose proof (query_first_in pk (pk y) rows y Hnd Hy eq_refl) as H2.
  congruence.
Qed.

Lemma NoDup_snoc {A} (l : list A) x :
  NoDup l -> ~ In x l -> NoDup (l ++ [x]).
Proof.
  induction l as [|y l IH]; simpl; intros Hnd Hx.
  - constructor; [tauto | constructor].
  - inversion Hnd as [|? ? Hy Hnd']; subst. constructor.
    + intros Hin. apply in_app_or in Hin. simpl in Hin.
      destruct Hin as [Hin|[Heq|[]]]; [tauto | subst; tauto].
    + apply IH; tauto.
Qed.

Lemma unbooked_consistent db : unbooked db -> booking_consistent db.
Proof.
  intros (Hnd & Hnone & Hnil). constructor; try rewrite Hnil; simpl.
  - exact Hnd.
  - constructor.
  - tauto.
  - intros s Hin Hb. exfalso. exact (Hnone s Hin Hb).
  - intros a Hin. rewrite Hnil in Hin. destruct Hin.
  - intros a a' Hin. rewrite Hnil in Hin. destruct Hin.
Qed.

Lemma book_consistent db patient appointment_data uuid_hex a db' :
  booking_consistent db ->
  create_appointment db patient appointment_data uuid_hex = Ok (a, db') ->
  booking_consistent db'.
Proof.
  intros [Hsk Hak Hfr Hs Ha H1] Hok.
  apply create_appointment_ok in Hok.
  destruct Hok as (slot & w & _ & Hslot & Hav & _ & Hpk & Hsid & Hpat & Hst
                   & _ & _ & _ & _ & _ & Happ & Hsl & _ & Hnext).
  destruct (query_first_some slot_pk _ _ _ Hslot) as [Hspk Hsin].
  assert (Hfree : forall a0, In a0 (appointments db) ->
                    status a0 <> CANCELLED -> slot_id a0 <> slot_pk slot).
  { intros a0 Hin Hlive Heq. destruct (Ha a0 Hin Hlive) as (s0 & Hs0 & Hk & Hb).
    assert (s0 = slot)
      by (apply (same_key_same_row slot_pk (appointment_slots db));
          auto; congruence).
    subst s0. rewrite Hav in Hb. discriminate. }
  constructor.
  - rewrite Hsl, update_row_pks by apply book_slot_pk. exact Hsk.
  - rewrite Happ, map_app. simpl. apply NoDup_snoc; [exact Hak|].
    intros Hin. apply in_map_iff in Hin.
    destruct Hin as (a0 & Heq & Hin). apply Hfr in Hin. lia.
  - intros a0. rewrite Happ, Hnext. intros Hin. apply in_app_or in Hin.
    destruct Hin as [Hin|[<-|[]]]; [apply Hfr in Hin|]; lia.
  - intros s. rewrite Hsl, Happ. intros Hin Hb.
    apply in_update_row in Hin; [|exact Hsk].
    destruct Hin as [[Hin Hne]|(s0 & Hin & Hk & ->)].
    + destruct (Hs s Hin Hb) as (a0 & Ha0 & Hrest).
      exists a0. split; [apply in_or_app; auto | exact Hrest].
    + exists a. split; [apply in_or_app; simpl; auto|].
      simpl. rewrite Hsid, Hst, Hpat, Hk, Hspk.
      repeat split; try reflexivity. discriminate.
  - intros a0. rewrite Hsl, Happ. intros Hin Hlive.
    apply in_app_or in Hin. destruct Hin as [Hin|[<-|[]]].
    + destruct (Ha a0 Hin Hlive) as (s0 & Hs0 & Hk & Hb).
      pose proof (update_row_in slot_pk (slot_pk slot)
                    (book_slot patient (booking_reference a))
                    _ s0 Hsk Hs0) as Hnew.
      destruct (Nat.eqb (slot_pk s0) (slot_pk slot)).
      * eexists. split; [exact Hnew|]. simpl. auto.
      * exists s0. auto.
    + pose proof (update_row_in slot_pk (slot_pk slot)
                    (book_slot patient (booking_reference a))
                    _ slot Hsk Hsin) as Hnew.
      rewrite Nat.eqb_refl in Hnew.
      eexists. split; [exact Hnew|]. simpl. split; congruence.
  - intros a1 a2. rewrite Happ. intros Hi1 Hi2 Hl1 Hl2 Heq.
    apply in_app_or in Hi1. apply in_app_or in Hi2.
    destruct Hi1 as [Hi1|[<-|[]]]; destruct Hi2 as [Hi2|[<-|[]]].
    + apply H1; assumption.
    + exfalso. apply (Hfree a1 Hi1 Hl1). congruence.
    + exfalso. apply (Hfree a2 Hi2 Hl2). congruence.
    + reflexivity.
Qed.




Lemma store_two_windows_unbooked : unbooked store_two_windows.
Proof.
  split; [|split].
  - vm_compute. repeat constructor; simpl; intuition discriminate.
  - intros s Hin. vm_compute in Hin.
    repeat (destruct Hin as [<-|Hin]; [discriminate|]). destruct Hin.
  - reflexivity.
Qed.




(** ** Availability store: deletion *)





(** ** Slot generation *)

Lemma time_of_in_day x :
  0 <= x < 1440 -> time_of (x / 60) (x mod 60) = Ok (wall_clock x).
Proof.
  intros Hx. unfold time_of.
  assert (0 <= x / 60 <= 23)
    by (split; [apply Z.div_pos; lia | apply Z.lt_succ_r;
        apply Z.div_lt_upper_bound; lia]).
  assert (0 <= x mod 60 < 60) by (apply Z.mod_pos_bound; lia).
  replace (0 <=? x / 60) with true by (symmetry; apply Z.leb_le; lia).
  replace (x / 60 <=? 23) with true by (symmetry; apply Z.leb_le; lia).
  replace (0 <=? x mod 60) with true by (symmetry; apply Z.leb_le; lia).
  replace (x mod 60 <=? 59) with true by (symmetry; apply Z.leb_le; lia).
  reflexivity.
Qed.

Lemma time_of_inv h m t : time_of h m = Ok t -> t = mk_time h m.
Proof.
  unfold time_of. destruct (_ && _); [|discriminate]. congruence.
Qed.

Lemma time_of_raises h m e : time_of h m = Raise e -> e = ValueError.
Proof.
  unfold time_of. destruct (_ && _); [discriminate|]. congruence.
Qed.

(** A loop that returns has added exactly the rows of the grid. *)
Lemma generate_slots_from_inv tz w n : forall i db c r db',
  generate_slots_from tz w n i db c = Ok (r, db') ->
  r = c + Z.of_nat n
  /\ appointment_slots db'
     = appointment_slots db ++ generated_slots tz w n (next_uuid db) i
  /\ provider_availability db' = provider_availability db
  /\ appointments db' = appointments db
  /\ providers db' = providers db
  /\ patients db' = patients db
  /\ next_uuid db' = (next_uuid db + n)%nat.
Proof.
  induction n as [|n IH]; intros i db c r db'; simpl.
  - intros H. injection H as <- <-. rewrite app_nil_r, Nat.add_0_r.
    repeat split; lia.
  - destruct (time_of _ _) as [ts|] eqn:Ets; [|discriminate].
    destruct (time_of _ _) as [te|] eqn:Ete in |- *; [|discriminate].
    apply time_of_inv in Ets, Ete. subst ts te.
    intros H. apply IH in H. simpl in H.
    destruct H as (-> & Hs & Hw & Ha & Hp & Hq & Hn).
    rewrite Hs, <- app_assoc. simpl.
    repeat split; try assumption; lia.
Qed.

(** The loop returns when every slot starts and ends within the day. *)
Lemma generate_slots_from_ok tz w n : forall i db c,
  (forall j, 0 <= j < Z.of_nat n ->
     0 <= slot_start_minutes w (i + j) < 1440
     /\ 0 <= slot_start_minutes w (i + j) + slot_duration w < 1440) ->
  exists db', generate_slots_from tz w n i db c = Ok (c + Z.of_nat n, db').
Proof.
  induction n as [|n IH]; intros i db c Hday.
  - simpl. exists db. rewrite Z.add_0_r. reflexivity.
  - cbn [generate_slots_from].
    destruct (Hday 0 ltac:(lia)) as [H1 H2]. rewrite Z.add_0_r in H1, H2.
    unfold slot_start_minutes in H1, H2.
    rewrite (time_of_in_day _ H1), (time_of_in_day _ H2).
    match goal with
    | |- exists db', generate_slots_from _ _ _ _ ?d _ = _ =>
        destruct (IH (i + 1) d (c + 1)) as [db' Hdb']
    end.
    + intros j Hj. replace (i + 1 + j) with (i + (1 + j)) by lia.
      apply Hday. lia.
    + exists db'. rewrite Hdb'. f_equal. f_equal. lia.
Qed.

Lemma generated_slots_length tz w n : forall pk i,
  List.length (generated_slots tz w n pk i) = n.
Proof. induction n; intros; simpl; auto. Qed.

Lemma in_generated_slots tz w n : forall pk i s,
  In s (generated_slots tz w n pk i) ->
  exists k j, (k < n)%nat /\ j = i + Z.of_nat k
              /\ s = generated_slot tz w (pk + k)%nat j.
Proof.
  induction n as [|n IH]; intros pk i s; simpl; [tauto|].
  intros [<-|Hin].
  - exists 0%nat, i. rewrite Nat.add_0_r. repeat split; lia.
  - destruct (IH _ _ _ Hin) as (k & j & Hk & -> & ->).
    exists (S k), (i + Z.of_nat (S k)).
    replace (S pk + k)%nat with (pk + S k)%nat by lia.
    replace (i + 1 + Z.of_nat k) with (i + Z.of_nat (S k)) by lia.
    repeat split; lia.
Qed.

(** With durations that are not negative, the grid of
    [floor(window / (slot + break))] slots stays within the window. *)
Lemma grid_within_window w j :
  0 <= slot_duration w -> 0 <= break_duration w ->
  0 < slot_duration w + break_duration w ->
  0 <= j <
    (minutes_of_day (end_time w) - minutes_of_day (start_time w))
    / (slot_duration w + break_duration w) ->
  minutes_of_day (start_time w) <= slot_start_minutes w j
  /\ slot_start_minutes w j < minutes_of_day (end_time w)
  /\ slot_start_minutes w j <= slot_start_minutes w j + slot_duration w
  /\ slot_start_minutes w j + slot_duration w <= minutes_of_day (end_time w).
Proof.
  intros Hs Hb He Hj. unfold slot_start_minutes, minutes_of_day in *.
  set (eff := slot_duration w + break_duration w) in *.
  set (total := hour (end_time w) * 60 + minute (end_time w)
                - (hour (start_time w) * 60 + minute (start_time w))) in *.
  assert (Hmul : eff * (total / eff) <= total)
    by (apply Z.mul_div_le; lia).
  assert (Hj1 : eff * (j + 1) <= eff * (total / eff))
    by (apply Z.mul_le_mono_nonneg_l; lia).
  assert (0 <= j * eff) by (apply Z.mul_nonneg_nonneg; lia).
  nia.
Qed.

(** ** Availability creation *)

Section Creation.

Variable pytz_timezone : string -> option tzinfo.
Variable rrule : Frequency -> date -> date -> list date.

Lemma generate_appointment_slots_zone db w n timezone_str :
  generate_appointment_slots pytz_timezone db w n timezone_str
  = generate_slots_from (zone_of pytz_timezone timezone_str) w
      (Z.to_nat n) 0 db 0.
Proof. reflexivity. Qed.

(** One turn of the creation loop that returns. *)
Lemma create_for_date_inv db provider data d w n db' :
  create_for_date pytz_timezone db provider data d = Ok (w, n, db') ->
  0 < avd_slot_duration data + avd_break_duration data
  /\ w = new_availability (next_uuid db) provider data d
  /\ n = Z.of_nat (Z.to_nat (slots_count_of data))
  /\ provider_availability db' = provider_availability db ++ [w]
  /\ appointment_slots db'
     = appointment_slots db
       ++ generated_slots (zone_of pytz_timezone (avd_timezone data)) w
            (Z.to_nat (slots_count_of data)) (S (next_uuid db)) 0
  /\ appointments db' = appointments db
  /\ providers db' = providers db
  /\ patients db' = patients db.
Proof.
  unfold create_for_date.
  destruct (_ <=? 0) eqn:E; [discriminate|]. apply Z.leb_gt in E.
  rewrite generate_appointment_slots_zone.
  destruct (generate_slots_from _ _ _ _ _ _) as [[c db2]|] eqn:G;
    [|discriminate].
  intros H. injection H as <- <- <-.
  apply generate_slots_from_inv in G. simpl in G.
  destruct G as (-> & Hs & Hw & Ha & Hp & Hq & _).
  repeat split; assumption.
Qed.

(** The creation loop, when it returns: one window per date, each with
    its own slots. *)
Lemma create_for_dates_inv provider data dates :
  forall db acc tot created total db',
  create_for_dates pytz_timezone db provider data dates acc tot
  = Ok (created, total, db') ->
  exists groups,
    Forall2 (window_of_date (Z.of_nat (Z.to_nat (slots_count_of data))))
      dates groups
    /\ created = acc ++ map fst groups
    /\ total = tot + Z.of_nat (List.length dates)
                     * Z.of_nat (Z.to_nat (slots_count_of data))
    /\ provider_availability db'
       = provider_availability db ++ map fst groups
    /\ appointment_slots db'
       = appointment_slots db ++ List.concat (map snd groups)
    /\ appointments db' = appointments db
    /\ providers db' = providers db
    /\ patients db' = patients db
    /\ (dates <> [] ->
        0 < avd_slot_duration data + avd_break_duration data).
Proof.
  induction dates as [|d rest IH]; intros db acc tot created total db'.
  - simpl. intros H. injection H as <- <- <-. exists [].
    rewrite !app_nil_r. simpl.
    repeat split; try reflexivity; try lia; [constructor | congruence].
  - cbn [create_for_dates].
    destruct (create_for_date _ _ _ _ _) as [[[w n] db1]|] eqn:C;
      [|discriminate].
    intros H. apply IH in H.
    destruct H as (groups & HF & -> & -> & Hw & Hs & Ha & Hp & Hq & _).
    apply create_for_date_inv in C.
    destruct C as (Heff & Hwd & -> & Hw1 & Hs1 & Ha1 & Hp1 & Hq1).
    exists ((w, generated_slots
                  (zone_of pytz_timezone (avd_timezone data)) w
                  (Z.to_nat (slots_count_of data)) (S (next_uuid db)) 0)
            :: groups).
    split.
    { constructor; [|exact HF]. split; [subst w; reflexivity|]. split.
      - simpl. rewrite generated_slots_length. reflexivity.
      - simpl. intros s Hin. apply in_generated_slots in Hin.
        destruct Hin as (k & j & _ & _ & ->). auto. }
    change (List.length (d :: rest)) with (S (List.length rest)).
    rewrite Nat2Z.inj_succ.
    cbn [map fst snd List.concat].
    rewrite <- app_assoc, Hw, Hw1, Hs, Hs1, <- !app_assoc.
    cbn [app].
    repeat split; try congruence; try lia.
Qed.


End Creation.

Lemma create_provider_availability_unfold pytz_timezone rrule db provider
  data :
  create_provider_availability pytz_timezone rrule db provider data
  = match get_provider_by_id db provider with
    | None => Raise (HTTPException HTTP_404_NOT_FOUND "Provider not found")
    | Some _ =>
    match conflicting_window db provider data with
    | Some existing =>
        Raise (HTTPException HTTP_400_BAD_REQUEST
                 ("Time slot conflicts with existing availability: "
                  ++ strftime_HM (start_time existing) ++ "-"
                  ++ strftime_HM (end_time existing))%string)
    | None =>
    match dates_to_create_of rrule data with
    | Raise e => Raise e
    | Ok dates =>
    match create_for_dates pytz_timezone db provider data dates [] 0 with
    | Raise e => Raise e
    | Ok (created, total, db') =>
        match created with
        | [] => Raise IndexError
        | first :: _ =>
            Ok ({| ac_availability_id := availability_pk first;
                   ac_slots_created := total;
                   ac_date_range_start :=
                     fold_right Z.min (hd 0 dates) dates;
                   ac_date_range_end :=
                     fold_right Z.max (hd 0 dates) dates;
                   ac_total_appointments_available := total |},
                db')
        end
    end end end end.
Proof. reflexivity. Qed.




(** C5.  The provider has a window on 2024-02-16 from 09:00 to 10:00.  A
    request for that date and those times alone is rejected as a conflict;
    the same times requested daily from 2024-02-15 to 2024-02-16 are
    accepted, because only 2024-02-15 is checked, and the store then holds
    two overlapping AVAILABLE windows of the provider on 2024-02-16. *)
Theorem recurring_dates_not_conflict_checked :
  create_provider_availability pytz_zones dateutil_rrule store_next_day 1%nat
    (on_date 738932 morning_window)
  = Raise (HTTPException HTTP_400_BAD_REQUEST
             "Time slot conflicts with existing availability: 09:00-10:00")
  /\ exists res db' w1 w2,
       create_provider_availability pytz_zones dateutil_rrule store_next_day
         1%nat
         (recurring (Some "daily") (Some 738932)
            (on_date 738931 morning_window))
       = Ok (res, db')
       /\ In w1 (provider_availability store_next_day)
       /\ In w1 (provider_availability db')
       /\ In w2 (provider_availability db')
       /\ availability_pk w1 <> availability_pk w2
       /\ pa_provider_id w1 = 1%nat /\ pa_provider_id w2 = 1%nat
       /\ pa_date w1 = 738932 /\ pa_date w2 = 738932
       /\ pa_status w1 = AVAILABLE /\ pa_status w2 = AVAILABLE
       /\ overlaps (datetime_combine (pa_date w2) (start_time w2))
            (datetime_combine (pa_date w2) (end_time w2)) w1 = true.
Proof.
  split; [vm_compute; reflexivity|].
  do 4 eexists. split; [vm_compute; reflexivity|].
  split; [left; reflexivity|].
  split; [left; reflexivity|].
  split; [right; right; left; reflexivity|].
  vm_compute. repeat split; try reflexivity. discriminate.
Qed.

(** ** Time zones of generated slots *)

Lemma wall_clock_minutes x :
  0 <= x < 1440 ->
  time_ok (wall_clock x) /\ minutes_of_day (wall_clock x) = x.
Proof.
  intros Hx. unfold time_ok, minutes_of_day, wall_clock. simpl.
  pose proof (Z.div_mod x 60 ltac:(lia)).
  pose proof (Z.mod_pos_bound x 60 ltac:(lia)).
  assert (0 <= x / 60) by (apply Z.div_pos; lia).
  assert (x / 60 < 24) by (apply Z.div_lt_upper_bound; lia).
  lia.
Qed.

(** A zone with one offset gives every wall-clock time back. *)
Lemma fixed_offset_round_trips offset d t :
  time_ok t -> round_trips_at (fixed_offset offset) d t.
Proof.
  intros [Hh Hm]. unfold round_trips_at, fixed_offset, naive_minutes,
    minutes_of_day. simpl.
  replace (d * 1440 + (hour t * 60 + minute t) - offset + offset)
    with (hour t * 60 + minute t + d * 1440) by lia.
  rewrite Z.div_add, Z.mod_add by lia.
  rewrite (Z.div_small (hour t * 60 + minute t) 1440),
    (Z.mod_small (hour t * 60 + minute t) 1440) by lia.
  replace (hour t * 60 + minute t) with (minute t + hour t * 60) by lia.
  rewrite Z.div_add, Z.mod_add by lia.
  rewrite Z.div_small, Z.mod_small by lia.
  destruct t; simpl. f_equal.
Qed.

(** C6, as worded, fails on the end of the last slot: the window 09:00 to
    10:00 in UTC with slots of 30 minutes has a slot from 09:30 to 10:00,
    and 10:00 is not before the window's end. *)
Lemma slot_end_half_open_counterexample :
  ~ (forall pytz_timezone db w timezone_str res db' s,
       time_ok (start_time w) -> time_ok (end_time w) ->
       0 < slot_duration w -> 0 <= break_duration w ->
       generate_appointment_slots pytz_timezone db w
         ((minutes_of_day (end_time w) - minutes_of_day (start_time w))
          / (slot_duration w + break_duration w)) timezone_str
       = Ok (res, db') ->
       In s (appointment_slots db') -> ~ In s (appointment_slots db) ->
       let tz := zone_of pytz_timezone timezone_str in
       let local_end := fromutc tz (slot_end_time s) in
       nd_date local_end = pa_date w
       /\ minutes_of_day (start_time w)
          <= minutes_of_day (nd_time local_end)
          < minutes_of_day (end_time w)).
Proof.
  intros H.
  assert (Hts : time_ok (start_time morning_row))
    by (vm_compute; repeat split; discriminate).
  assert (Hte : time_ok (end_time morning_row))
    by (vm_compute; repeat split; discriminate).
  assert (Hgen : generate_appointment_slots pytz_zones empty_store morning_row
                   ((minutes_of_day (end_time morning_row)
                     - minutes_of_day (start_time morning_row))
                    / (slot_duration morning_row
                       + break_duration morning_row)) "UTC"
                 = Ok (2, with_next_uuid
                            (with_slots empty_store
                               (generated_slots UTC morning_row 2 100%nat 0))
                            102%nat))
    by (vm_compute; reflexivity).
  destruct (H pytz_zones empty_store morning_row "UTC" _ _
              (generated_slot UTC morning_row 101%nat 1)
              Hts Hte eq_refl ltac:(discriminate) Hgen
              ltac:(right; left; reflexivity) ltac:(intros []))
    as [_ [_ Hlt]].
  vm_compute in Hlt. discriminate.
Qed.

(** C6, amended.  For a window with valid times and durations that are not
    negative (with a positive sum), slot generation returns, and every slot
    it adds stores the UTC instants of two wall-clock times of the window's
    date, the start within [[start_time, end_time)] and the end between
    the start and [end_time] inclusive.  Read back in the window's zone, the
    instants show those times whenever the zone gives the two wall-clock
    times back (no clock change skips them), which every zone with one
    offset does.  A zone name that pytz does not know makes the generation
    work in UTC instead of failing. *)
Theorem generated_slots_within_window
  (pytz_timezone : string -> option tzinfo) (db : Session)
  (w : ProviderAvailability) (timezone_str : string) :
  let tz := zone_of pytz_timezone timezone_str in
  let window_start := minutes_of_day (start_time w) in
  let window_end := minutes_of_day (end_time w) in
  time_ok (start_time w) -> time_ok (end_time w) ->
  0 <= slot_duration w -> 0 <= break_duration w ->
  0 < slot_duration w + break_duration w ->
  exists res db' new,
    generate_appointment_slots pytz_timezone db w
      ((window_end - window_start) / (slot_duration w + break_duration w))
      timezone_str
    = Ok (res, db')
    /\ appointment_slots db' = appointment_slots db ++ new
    /\ (forall s, In s new ->
          exists t_start t_end,
            time_ok t_start /\ time_ok t_end
            /\ slot_start_time s
               = localize tz (datetime_combine (pa_date w) t_start)
            /\ slot_end_time s
               = localize tz (datetime_combine (pa_date w) t_end)
            /\ window_start <= minutes_of_day t_start < window_end
            /\ minutes_of_day t_start <= minutes_of_day t_end <= window_end
            /\ (round_trips_at tz (pa_date w) t_start ->
                round_trips_at tz (pa_date w) t_end ->
                within_window tz w s))
    /\ (forall offset, tz = fixed_offset offset ->
          forall s, In s new -> within_window tz w s)
    /\ (pytz_timezone timezone_str = None ->
          tz = UTC /\ forall s, In s new -> within_window UTC w s).
Proof.
  intros tz window_start window_end Hts Hte Hs Hb He.
  set (n := (window_end - window_start)
            / (slot_duration w + break_duration w)).
  assert (Hgrid : forall j, 0 <= j < Z.of_nat (Z.to_nat n) ->
            window_start <= slot_start_minutes w j < window_end
            /\ slot_start_minutes w j
               <= slot_start_minutes w j + slot_duration w <= window_end).
  { intros j Hj. pose proof (grid_within_window w j Hs Hb He) as Hg.
    fold window_start window_end n in Hg. specialize (Hg ltac:(lia)). lia. }
  assert (Hday : window_start >= 0 /\ window_end < 1440).
  { unfold window_start, window_end, minutes_of_day, time_ok in *. lia. }
  destruct (generate_slots_from_ok tz w (Z.to_nat n) 0 db 0) as [db' Hok].
  { intros j Hj. rewrite Z.add_0_l. specialize (Hgrid j Hj). lia. }
  pose proof Hok as Hinv. apply generate_slots_from_inv in Hinv.
  destruct Hinv as (_ & Hnew & _).
  assert (Hall : forall s,
            In s (generated_slots tz w (Z.to_nat n) (next_uuid db) 0) ->
            exists t_start t_end,
              time_ok t_start /\ time_ok t_end
              /\ slot_start_time s
                 = localize tz (datetime_combine (pa_date w) t_start)
              /\ slot_end_time s
                 = localize tz (datetime_combine (pa_date w) t_end)
              /\ window_start <= minutes_of_day t_start < window_end
              /\ minutes_of_day t_start <= minutes_of_day t_end <= window_end
              /\ (round_trips_at tz (pa_date w) t_start ->
                  round_trips_at tz (pa_date w) t_end ->
                  within_window tz w s)).
  { intros s Hin. apply in_generated_slots in Hin.
    destruct Hin as (k & j & Hk & -> & ->). rewrite Z.add_0_l.
    destruct (Hgrid (Z.of_nat k) ltac:(lia)) as [H1 H2].
    destruct (wall_clock_minutes (slot_start_minutes w (Z.of_nat k))
                ltac:(lia)) as [Hok1 Hm1].
    destruct (wall_clock_minutes
                (slot_start_minutes w (Z.of_nat k) + slot_duration w)
                ltac:(lia)) as [Hok2 Hm2].
    eexists _, _. split; [exact Hok1|]. split; [exact Hok2|].
    split; [reflexivity|]. split; [reflexivity|].
    rewrite Hm1, Hm2. split; [lia|]. split; [lia|].
    intros R1 R2. unfold within_window. cbn [generated_slot slot_start_time
      slot_end_time]. rewrite R1, R2. cbn [nd_date nd_time].
    rewrite Hm1, Hm2. fold window_start window_end. repeat split; lia. }
  assert (Hfix : forall offset, tz = fixed_offset offset ->
            forall s,
              In s (generated_slots tz w (Z.to_nat n) (next_uuid db) 0) ->
              within_window tz w s).
  { intros offset Htz s Hin.
    destruct (Hall s Hin) as (t1 & t2 & Hok1 & Hok2 & _ & _ & _ & _ & Hrt).
    apply Hrt; rewrite Htz; apply fixed_offset_round_trips; assumption. }
  exists (0 + Z.of_nat (Z.to_nat n)), db',
    (generated_slots tz w (Z.to_nat n) (next_uuid db) 0).
  split; [exact Hok|]. split; [exact Hnew|]. split; [exact Hall|].
  split; [exact Hfix|].
  intros Hnone.
  assert (Htz : tz = UTC) by (unfold tz, zone_of; rewrite Hnone; reflexivity).
  split; [exact Htz|]. intros s Hin. rewrite <- Htz.
  apply (Hfix 0); [exact Htz | exact Hin].
Qed.

(** ** Search engine *)












(** ** The theorems at work on the example stores *)


Lemma cancel_appointment_spec_witness :
  exists a slot w,
    get_appointment_by_id store_booked 106%nat = Some a
    /\ get_slot store_booked (slot_id a) = Some slot
    /\ slot_availability store_booked slot = Some w
    /\ current_appointments w = 1
    /\ exists a' db' slot' w',
         cancel_appointment store_booked 106%nat "ill" "patient" 1064061000
         = Ok (Some a', db')
         /\ status a' = CANCELLED
         /\ get_slot db' (slot_id a) = Some slot'
         /\ slot_status slot' = AVAILABLE
         /\ slot_availability db' slot' = Some w'
         /\ current_appointments w' = 0.
Proof.
  destruct (get_appointment_by_id store_booked 106%nat) as [a|] eqn:Ha;
    [|vm_compute in Ha; discriminate].
  destruct (get_slot store_booked (slot_id a)) as [slot|] eqn:Hs;
    [|vm_compute in Ha; injection Ha as <-; vm_compute in Hs; discriminate].
  destruct (slot_availability store_booked slot) as [w|] eqn:Hw;
    [|vm_compute in Ha; injection Ha as <-; vm_compute in Hs;
      injection Hs as <-; vm_compute in Hw; discriminate].
  exists a, slot, w.
  destruct (cancel_appointment_spec store_booked 106%nat "ill" "patient"
              1064061000 a slot w Ha Hs Hw) as (_ & _ & Hok).
  assert (Hc : current_appointments w = 1).
  { vm_compute in Ha. injection Ha as <-. vm_compute in Hs.
    injection Hs as <-. vm_compute in Hw. injection Hw as <-. reflexivity. }
  assert (H1 : status a <> CANCELLED)
    by (vm_compute in Ha; injection Ha as <-; discriminate).
  assert (H2 : status a <> COMPLETED)
    by (vm_compute in Ha; injection Ha as <-; discriminate).
  destruct (Hok H1 H2)
    as (a' & db' & Hr & _ & Hst & _ & _ & _ & _
        & (slot' & Hs' & Hav & _ & _ & w' & Hw' & Hcnt & _) & _).
  split; [reflexivity|]. split; [exact Hs|]. split; [exact Hw|].
  split; [exact Hc|].
  exists a', db', slot', w'. rewrite Hc in Hcnt.
  repeat split; assumption.
Defined.

Lemma reschedule_same_slot_rejected_witness :
  exists a s,
    get_appointment_by_id store_booked 106%nat = Some a
    /\ get_slot store_booked (slot_id a) = Some s
    /\ slot_status s = BOOKED
    /\ reschedule_appointment store_booked 106%nat (slot_id a) None
       = Raise (HTTPException HTTP_400_BAD_REQUEST
                  "New appointment slot is not available").
Proof.
  destruct (get_appointment_by_id store_booked 106%nat) as [a|] eqn:Ha;
    [|vm_compute in Ha; discriminate].
  destruct (get_slot store_booked (slot_id a)) as [s|] eqn:Hs;
    [|vm_compute in Ha; injection Ha as <-; vm_compute in Hs; discriminate].
  assert (Hb : slot_status s = BOOKED).
  { vm_compute in Ha. injection Ha as <-. vm_compute in Hs.
    injection Hs as <-. reflexivity. }
  exists a, s. repeat split; try reflexivity; try assumption.
  destruct (reschedule_same_slot_rejected store_booked 106%nat a s None
              Ha Hs Hb) as [Hr _].
  rewrite Hr. vm_compute in Ha. injection Ha as <-. reflexivity.
Defined.




Lemma generated_slots_within_window_witness :
  time_ok (start_time morning_row) /\ time_ok (end_time morning_row)
  /\ 0 <= slot_duration morning_row /\ 0 <= break_duration morning_row
  /\ 0 < slot_duration morning_row + break_duration morning_row
  /\ exists res db' new,
       generate_appointment_slots pytz_zones empty_store morning_row 2
         "Asia/Tokyo"
       = Ok (res, db')
       /\ appointment_slots db' = appointment_slots empty_store ++ new
       /\ forall s, In s new ->
            within_window (fixed_offset 540) morning_row s.
Proof.
  assert (Hts : time_ok (start_time morning_row))
    by (vm_compute; repeat split; discriminate).
  assert (Hte : time_ok (end_time morning_row))
    by (vm_compute; repeat split; discriminate).
  assert (Hs : 0 <= slot_duration morning_row) by discriminate.
  assert (Hb : 0 <= break_duration morning_row) by discriminate.
  assert (He : 0 < slot_duration morning_row + break_duration morning_row)
    by reflexivity.
  repeat (split; [assumption|]).
  destruct (generated_slots_within_window pytz_zones empty_store morning_row
              "Asia/Tokyo" Hts Hte Hs Hb He)
    as (res & db' & new & Hr & Hnew & _ & Hfix & _).
  exists res, db', new. split; [exact Hr|]. split; [exact Hnew|].
  exact (Hfix 540 eq_refl).
Defined.

(** * Further properties *)

(** ** The conflict check *)

Lemma overlaps_same_date start_t end_t w d :
  pa_date w = d ->
  overlaps (datetime_combine d start_t) (datetime_combine d end_t) w = true
  <-> minutes_of_day start_t < minutes_of_day (end_time w)
      /\ minutes_of_day (start_time w) < minutes_of_day end_t.
Proof.
  intros Hd. unfold overlaps, naive_minutes. simpl. rewrite Hd.
  rewrite andb_true_iff, Z.ltb_lt, Z.gtb_lt. lia.
Qed.

Lemma in_conflict_candidates db provider d w :
  In w (conflict_candidates db provider d)
  <-> In w (provider_availability db)
      /\ pa_provider_id w = provider /\ pa_date w = d
      /\ (pa_status w = AVAILABLE \/ pa_status w = BOOKED).
Proof.
  unfold conflict_candidates.
  rewrite filter_In, !andb_true_iff, orb_true_iff, Nat.eqb_eq, Z.eqb_eq,
    !AvailabilityStatus_eqb_eq.
  tauto.
Qed.

Lemma conflicting_window_none_iff db provider data :
  conflicting_window db provider data = None <->
  forall w, In w (provider_availability db) ->
    pa_provider_id w = provider -> pa_date w = avd_date data ->
    pa_status w = AVAILABLE \/ pa_status w = BOOKED ->
    minutes_of_day (avd_end_time data) <= minutes_of_day (start_time w)
    \/ minutes_of_day (end_time w) <= minutes_of_day (avd_start_time data).
Proof.
  unfold conflicting_window. split.
  - intros Hnone w Hin Hp Hd Hst.
    assert (Hc : In w (conflict_candidates db provider (avd_date data)))
      by (apply in_conflict_candidates; auto).
    pose proof (find_none _ _ Hnone w Hc) as Hf.
    destruct (Z_lt_le_dec (minutes_of_day (avd_start_time data))
                (minutes_of_day (end_time w))) as [H1|H1]; [|auto].
    destruct (Z_lt_le_dec (minutes_of_day (start_time w))
                (minutes_of_day (avd_end_time data))) as [H2|H2]; [|auto].
    assert (Ht : overlaps
                   (datetime_combine (avd_date data) (avd_start_time data))
                   (datetime_combine (avd_date data) (avd_end_time data)) w
                 = true)
      by (apply overlaps_same_date; auto).
    congruence.
  - intros Hall.
    destruct (find _ _) as [w|] eqn:Hf; [|reflexivity].
    apply find_some in Hf. destruct Hf as [Hc Ho].
    apply in_conflict_candidates in Hc.
    destruct Hc as (Hin & Hp & Hd & Hst).
    apply overlaps_same_date in Ho; [|exact Hd].
    specialize (Hall w Hin Hp Hd Hst). lia.
Qed.

Lemma conflicting_window_rejects pytz_timezone rrule db provider data w :
  conflicting_window db provider data = Some w ->
  get_provider_by_id db provider <> None ->
  create_provider_availability pytz_timezone rrule db provider data
  = Raise (HTTPException HTTP_400_BAD_REQUEST
             ("Time slot conflicts with existing availability: "
              ++ strftime_HM (start_time w) ++ "-"
              ++ strftime_HM (end_time w))%string).
Proof.
  intros Hw Hp. rewrite create_provider_availability_unfold.
  destruct (get_provider_by_id db provider); [|contradiction].
  rewrite Hw. reflexivity.
Qed.

(** X1.  A request passes the conflict check exactly when its wall-clock
    interval is disjoint from every window of the same provider on the same
    date whose status is AVAILABLE or BOOKED; an interval that begins where
    another ends (or ends where it begins) is disjoint.  Windows of other
    providers, of other dates or in another status are never looked at.
    When the check finds a window, the provider existing, the request is
    rejected with 400 and the store stays as it was. *)
Theorem conflict_check_spec
  (pytz_timezone : string -> option tzinfo)
  (rrule : Frequency -> date -> date -> list date)
  (db : Session) (provider : UUID) (data : AvailabilityData) :
  (conflicting_window db provider data = None <->
   forall w, In w (provider_availability db) ->
     pa_provider_id w = provider -> pa_date w = avd_date data ->
     pa_status w = AVAILABLE \/ pa_status w = BOOKED ->
     minutes_of_day (avd_end_time data) <= minutes_of_day (start_time w)
     \/ minutes_of_day (end_time w) <= minutes_of_day (avd_start_time data))
  /\ (forall w, conflicting_window db provider data = Some w ->
        get_provider_by_id db provider <> None ->
        let r :=
          create_provider_availability pytz_timezone rrule db provider data in
        r = Raise (HTTPException HTTP_400_BAD_REQUEST
                     ("Time slot conflicts with existing availability: "
                      ++ strftime_HM (start_time w) ++ "-"
                      ++ strftime_HM (end_time w))%string)
        /\ committed db r = db).
Proof.
  split; [apply conflicting_window_none_iff|].
  intros w Hw Hp r. unfold r.
  rewrite (conflicting_window_rejects _ _ _ _ _ _ Hw Hp). auto.
Qed.

(** ** Creating the same availability twice *)

(** The windows the creation loop adds are the rows built from the
    request, one per date. *)
Lemma create_for_dates_windows pytz_timezone provider data dates :
  forall db acc tot created total db',
  create_for_dates pytz_timezone db provider data dates acc tot
  = Ok (created, total, db') ->
  exists ws,
    provider_availability db' = provider_availability db ++ ws
    /\ Forall2 (fun d w => exists id, w = new_availability id provider data d)
         dates ws
    /\ providers db' = providers db.
Proof.
  induction dates as [|d rest IH]; intros db acc tot created total db'.
  - simpl. intros H. injection H as <- <- <-. exists [].
    rewrite app_nil_r. repeat split. constructor.
  - cbn [create_for_dates].
    destruct (create_for_date _ _ _ _ _) as [[[w n] db1]|] eqn:C;
      [|discriminate].
    intros H. apply IH in H. destruct H as (ws & Hw & HF & Hp).
    apply create_for_date_inv in C.
    destruct C as (_ & Hwd & _ & Hw1 & _ & _ & Hp1 & _).
    exists (w :: ws). rewrite Hw, Hw1, <- app_assoc. simpl.
    repeat split; [|congruence].
    constructor; [eauto | exact HF].
Qed.

(** X2.  Once a request for a window that is not empty (end after start)
    has been carried out and its own date is among the dates it created,
    the same request made again is rejected by the conflict check, and
    nothing is added. *)
Theorem repeated_creation_rejected
  (pytz_timezone : string -> option tzinfo)
  (rrule : Frequency -> date -> date -> list date)
  (db : Session) (provider : UUID) (data : AvailabilityData)
  (dates : list date) (res : AvailabilityCreated) (db' : Session) :
  minutes_of_day (avd_start_time data) < minutes_of_day (avd_end_time data) ->
  dates_to_create_of rrule data = Ok dates ->
  In (avd_date data) dates ->
  create_provider_availability pytz_timezone rrule db provider data
  = Ok (res, db') ->
  let again :=
    create_provider_availability pytz_timezone rrule db' provider data in
  (exists w,
     conflicting_window db' provider data = Some w
     /\ again = Raise (HTTPException HTTP_400_BAD_REQUEST
                         ("Time slot conflicts with existing availability: "
                          ++ strftime_HM (start_time w) ++ "-"
                          ++ strftime_HM (end_time w))%string))
  /\ committed db' again = db'.
Proof.
  intros Hlt Hdates Hin Hok again.
  rewrite create_provider_availability_unfold in Hok.
  destruct (get_provider_by_id db provider) as [p|] eqn:Hp; [|discriminate].
  destruct (conflicting_window db provider data); [discriminate|].
  rewrite Hdates in Hok.
  destruct (create_for_dates _ _ _ _ _ _ _) as [[[created total] db1]|]
    eqn:C; [|discriminate].
  destruct created as [|first created]; [discriminate|].
  injection Hok as _ <-.
  apply create_for_dates_windows in C. destruct C as (ws & Hw & HF & Hprov).
  assert (Hex : exists id,
            In (new_availability id provider data (avd_date data)) ws).
  { clear - HF Hin. induction HF as [|d w ds ws' Hdw HF IH]; [destruct Hin|].
    destruct Hin as [->|Hin].
    - destruct Hdw as [id ->]. exists id. left. reflexivity.
    - destruct (IH Hin) as [id Hid]. exists id. right. exact Hid. }
  destruct Hex as [id Hid].
  destruct (conflicting_window db1 provider data) as [w|] eqn:Hc.
  - assert (Hp1 : get_provider_by_id db1 provider <> None)
      by (unfold get_provider_by_id; rewrite Hprov;
          unfold get_provider_by_id in Hp; rewrite Hp; discriminate).
    pose proof (conflicting_window_rejects pytz_timezone rrule _ _ _ _
                  Hc Hp1) as Hr.
    split; [exists w; split; [reflexivity | exact Hr]|].
    unfold again. rewrite Hr. reflexivity.
  - exfalso.
    pose proof (proj1 (conflicting_window_none_iff db1 provider data) Hc
                  (new_availability id provider data (avd_date data)))
      as Hnone.
    simpl in Hnone.
    assert (In (new_availability id provider data (avd_date data))
              (provider_availability db1))
      by (rewrite Hw; apply in_or_app; right; exact Hid).
    specialize (Hnone H eq_refl eq_refl (or_introl eq_refl)). lia.
Qed.

(** ** Order of the generated slots *)

Lemma time_of_ok_in_day x t :
  time_of (x / 60) (x mod 60) = Ok t -> 0 <= x < 1440.
Proof.
  unfold time_of.
  destruct ((0 <=? x / 60) && (x / 60 <=? 23) && (0 <=? x mod 60)
            && (x mod 60 <=? 59)) eqn:E; [|discriminate].
  intros _. rewrite !andb_true_iff, !Z.leb_le in E.
  pose proof (Z.div_mod x 60 ltac:(lia)). lia.
Qed.

(** A loop that returns met only wall-clock times within the day. *)
Lemma generate_slots_from_in_day tz w n : forall i db c r db',
  generate_slots_from tz w n i db c = Ok (r, db') ->
  forall j, 0 <= j < Z.of_nat n ->
    0 <= slot_start_minutes w (i + j) < 1440
    /\ 0 <= slot_start_minutes w (i + j) + slot_duration w < 1440.
Proof.
  induction n as [|n IH]; intros i db c r db' H j Hj; [lia|].
  cbn [generate_slots_from] in H.
  destruct (time_of _ _) as [ts|] eqn:Ets; [|discriminate].
  destruct (time_of _ _) as [te|] eqn:Ete in H; [|discriminate].
  destruct (Z.eq_dec j 0) as [->|Hne].
  - rewrite Z.add_0_r. unfold slot_start_minutes.
    apply time_of_ok_in_day in Ets, Ete. auto.
  - replace (i + j) with (i + 1 + (j - 1)) by lia.
    eapply IH; [exact H | lia].
Qed.

Lemma nth_error_generated_slots tz w n : forall pk i k s,
  nth_error (generated_slots tz w n pk i) k = Some s ->
  s = generated_slot tz w (pk + k)%nat (i + Z.of_nat k) /\ (k < n)%nat.
Proof.
  induction n as [|n IH]; intros pk i k s; simpl.
  - destruct k; discriminate.
  - destruct k as [|k]; simpl.
    + intros H. injection H as <-. rewrite Nat.add_0_r, Z.add_0_r.
      split; [reflexivity | lia].
    + intros H. apply IH in H. destruct H as [-> Hk].
      replace (S pk + k)%nat with (pk + S k)%nat by lia.
      replace (i + 1 + Z.of_nat k) with (i + Z.of_nat (S k)) by lia.
      split; [reflexivity | lia].
Qed.

Lemma localize_fixed_offset offset d x :
  0 <= x < 1440 ->
  localize (fixed_offset offset) (datetime_combine d (wall_clock x))
  = d * 1440 + x - offset.
Proof.
  intros Hx. unfold fixed_offset, naive_minutes. simpl.
  destruct (wall_clock_minutes x Hx) as [_ ->]. reflexivity.
Qed.

(** X3.  In a zone with one offset (UTC included, hence also the fallback
    for an unknown zone name) and with a break that is not negative, the
    slots a generation adds come in order and never overlap: each slot
    lasts [slot_duration] minutes, the starts of slot [i] and of a later
    slot [j] are [(j - i) * (slot_duration + break_duration)] minutes apart,
    and slot [i] ends no later than slot [j] starts. *)
Theorem generated_slots_ordered
  (pytz_timezone : string -> option tzinfo) (db : Session)
  (w : ProviderAvailability) (slots_count : Z) (timezone_str : string)
  (offset : Z) (res : Z) (db' : Session) :
  zone_of pytz_timezone timezone_str = fixed_offset offset ->
  0 <= break_duration w ->
  0 < slot_duration w + break_duration w ->
  generate_appointment_slots pytz_timezone db w slots_count timezone_str
  = Ok (res, db') ->
  exists new,
    appointment_slots db' = appointment_slots db ++ new
    /\ Z.of_nat (List.length new) = res
    /\ (forall i s, nth_error new i = Some s ->
          slot_end_time s - slot_start_time s = slot_duration w)
    /\ (forall i j s1 s2, (i < j)%nat ->
          nth_error new i = Some s1 -> nth_error new j = Some s2 ->
          slot_start_time s2 - slot_start_time s1
          = Z.of_nat (j - i) * (slot_duration w + break_duration w)
          /\ slot_end_time s1 <= slot_start_time s2).
Proof.
  intros Htz Hb He Hok.
  rewrite generate_appointment_slots_zone, Htz in Hok.
  pose proof (generate_slots_from_in_day _ _ _ _ _ _ _ _ Hok) as Hday.
  apply generate_slots_from_inv in Hok.
  destruct Hok as (Hres & Hnew & _).
  set (n := Z.to_nat slots_count) in *.
  assert (Hslot : forall k s,
            nth_error (generated_slots (fixed_offset offset) w n
                         (next_uuid db) 0) k = Some s ->
            slot_start_time s
            = pa_date w * 1440 + slot_start_minutes w (Z.of_nat k) - offset
            /\ slot_end_time s
               = pa_date w * 1440
                 + (slot_start_minutes w (Z.of_nat k) + slot_duration w)
                 - offset).
  { intros k s Hk. apply nth_error_generated_slots in Hk.
    destruct Hk as [-> Hk]. rewrite Z.add_0_l.
    destruct (Hday (Z.of_nat k) ltac:(lia)) as [H1 H2].
    rewrite Z.add_0_l in H1, H2.
    cbn [generated_slot slot_start_time slot_end_time].
    rewrite !localize_fixed_offset by assumption. auto. }
  exists (generated_slots (fixed_offset offset) w n (next_uuid db) 0).
  split; [exact Hnew|].
  split; [rewrite generated_slots_length; lia|].
  split.
  - intros i s Hi. destruct (Hslot i s Hi) as [-> ->]. lia.
  - intros i j s1 s2 Hij H1 H2.
    destruct (Hslot i s1 H1) as [Hs1 He1].
    destruct (Hslot j s2 H2) as [Hs2 _].
    rewrite Hs1, He1, Hs2. unfold slot_start_minutes.
    rewrite Nat2Z.inj_sub by lia.
    set (eff := slot_duration w + break_duration w) in *.
    assert (Hmul : eff * 1 <= eff * (Z.of_nat j - Z.of_nat i))
      by (apply Z.mul_le_mono_nonneg_l; lia).
    split; nia.
Qed.

(** ** Bookings and the operations around them *)

Lemma find_app_none {A} (f : A -> bool) l l' :
  find f l = None -> find f (l ++ l') = find f l'.
Proof.
  induction l as [|x l IH]; simpl; [reflexivity|].
  destruct (f x); [discriminate | exact IH].
Qed.


(** A booking that returned found the reference unused, and left the
    providers and the patients alone. *)
Lemma create_appointment_frame db patient appointment_data uuid_hex a db' :
  create_appointment db patient appointment_data uuid_hex = Ok (a, db') ->
  booking_reference_taken db (ad_slot_id appointment_data)
    (booking_reference a) = false
  /\ providers db' = providers db
  /\ patients db' = patients db.
Proof.
  unfold create_appointment.
  destruct (get_patient_by_id db patient); [|discriminate].
  destruct (get_slot db (ad_slot_id appointment_data)) as [slot|] eqn:Hs;
    [|discriminate].
  destruct (negb _); [discriminate|].
  destruct (get_provider_by_id db (slot_provider_id slot)); [|discriminate].
  destruct (slot_availability db slot); [|discriminate].
  destruct (booking_reference_taken db (slot_pk slot) _) eqn:Ht;
    [discriminate|].
  intros H. injection H as <- <-. simpl.
  apply (query_first_some slot_pk) in Hs. destruct Hs as [<- _].
  auto.
Qed.

Lemma query_first_app_fresh {A} (pk : A -> UUID) id l x :
  (forall r, In r l -> pk r <> id) -> pk x = id ->
  query_first pk id (l ++ [x]) = Some x.
Proof.
  intros Hl Hx. unfold query_first. rewrite find_app_none.
  - simpl. rewrite Hx, Nat.eqb_refl. reflexivity.
  - destruct (find _ l) as [r|] eqn:Hf; [|reflexivity].
    apply find_some in Hf. destruct Hf as [Hin He].
    apply Nat.eqb_eq in He. exfalso. exact (Hl r Hin He).
Qed.


(** X5.  A slot cannot be booked twice: once a booking has succeeded, every
    further booking request for the same slot by an existing patient is
    rejected with "Appointment slot is not available" and adds nothing. *)
Theorem second_booking_rejected
  (db : Session) (patient : UUID) (appointment_data : AppointmentData)
  (uuid_hex : string) (a : Appointment) (db' : Session)
  (patient2 : UUID) (appointment_data2 : AppointmentData)
  (uuid_hex2 : string) :
  create_appointment db patient appointment_data uuid_hex = Ok (a, db') ->
  ad_slot_id appointment_data2 = ad_slot_id appointment_data ->
  get_patient_by_id db patient2 <> None ->
  let r := create_appointment db' patient2 appointment_data2 uuid_hex2 in
  r = Raise (HTTPException HTTP_400_BAD_REQUEST
               "Appointment slot is not available")
  /\ committed db' r = db'.
Proof.
  intros Hok Hsame Hp r.
  destruct (create_appointment_frame _ _ _ _ _ _ Hok) as (_ & _ & Hpat).
  apply create_appointment_ok in Hok.
  destruct Hok as (slot & w & _ & Hslot & _ & _ & _ & _ & _ & _ & _ & _ & _
                   & _ & _ & _ & Hsl & _ & _).
  destruct (query_first_some slot_pk _ _ _ Hslot) as [Hspk _].
  assert (Hr : r = Raise (HTTPException HTTP_400_BAD_REQUEST
                            "Appointment slot is not available")).
  { unfold r, create_appointment.
    unfold get_patient_by_id in *. rewrite Hpat.
    destruct (query_first patient_pk patient2 (patients db));
      [|contradiction].
    unfold get_slot. rewrite Hsame, Hsl, <- Hspk.
    rewrite query_first_update_same by apply book_slot_pk.
    unfold get_slot in Hslot. rewrite Hspk, Hslot. reflexivity. }
  rewrite Hr. auto.
Qed.

Lemma update_row_twice {A} (pk : A -> UUID) id f g rows :
  (forall r, pk (f r) = pk r) ->
  update_row pk id g (update_row pk id f rows)
  = update_row pk id (fun r => g (f r)) rows.
Proof.
  intros Hpk. induction rows as [|r rest IH]; simpl; [reflexivity|].
  destruct (Nat.eqb (pk r) id) eqn:E; simpl.
  - rewrite Hpk, E. reflexivity.
  - rewrite E, IH. reflexivity.
Qed.

Lemma update_row_fixed {A} (pk : A -> UUID) id f rows r :
  query_first pk id rows = Some r -> f r = r ->
  update_row pk id f rows = rows.
Proof.
  unfold query_first. induction rows as [|r0 rest IH]; simpl; [reflexivity|].
  destruct (Nat.eqb (pk r0) id).
  - intros H Hf. injection H as ->. rewrite Hf. reflexivity.
  - intros H Hf. rewrite IH by assumption. reflexivity.
Qed.

Lemma update_row_app_fresh {A} (pk : A -> UUID) id f l x :
  (forall r, In r l -> pk r <> id) -> pk x = id ->
  update_row pk id f (l ++ [x]) = l ++ [f x].
Proof.
  intros Hl Hx. induction l as [|r l IH]; simpl.
  - rewrite Hx, Nat.eqb_refl. reflexivity.
  - assert (E : Nat.eqb (pk r) id = false)
      by (apply Nat.eqb_neq; apply Hl; left; reflexivity).
    rewrite E, IH; [reflexivity|]. intros r0 Hin. apply Hl. right. exact Hin.
Qed.

(** What a cancellation returns. *)
Lemma cancel_appointment_result db appointment_id reason actor now res db' a :
  cancel_appointment db appointment_id reason actor now = Ok (res, db') ->
  get_appointment_by_id db appointment_id = Some a ->
  res = Some (cancel_fields reason actor now a)
  /\ get_appointment_by_id db' appointment_id = res
  /\ providers db' = providers db
  /\ patients db' = patients db.
Proof.
  intros Hok Ha. unfold cancel_appointment in Hok. rewrite Ha in Hok.
  destruct (is_terminal (status a)); [discriminate|].
  change (get_slot (with_appointments db _) (slot_id a))
    with (get_slot db (slot_id a)) in Hok.
  destruct (get_slot db (slot_id a)) as [slot|]; [|discriminate].
  change (slot_availability (with_slots _ _) slot)
    with (slot_availability db slot) in Hok.
  destruct (slot_availability db slot) as [w|]; [|discriminate].
  injection Hok as <- <-.
  destruct (query_first_some appointment_pk _ _ _ Ha) as [Hpk _].
  unfold get_appointment_by_id in *. simpl.
  rewrite Hpk, query_first_update_same by apply cancel_fields_pk.
  rewrite Ha. simpl. auto.
Qed.

(** X6.  Booking a slot and then cancelling the appointment gives the
    availability back as it was: when the slot carried no patient and no
    reference and the window's counter was not negative, the slot table and
    the window table after the cancellation are those before the booking;
    what remains is the appointment row, CANCELLED. *)
Theorem book_then_cancel_restores
  (db : Session) (patient : UUID) (appointment_data : AppointmentData)
  (uuid_hex : string) (a : Appointment) (db1 : Session)
  (slot : AppointmentSlot) (w : ProviderAvailability)
  (reason actor : string) (now : datetime) :
  create_appointment db patient appointment_data uuid_hex = Ok (a, db1) ->
  get_slot db (ad_slot_id appointment_data) = Some slot ->
  slot_patient_id slot = None -> slot_booking_reference slot = None ->
  slot_availability db slot = Some w -> 0 <= current_appointments w ->
  (forall a0, In a0 (appointments db) ->
     (appointment_pk a0 < next_uuid db)%nat) ->
  exists db2,
    cancel_appointment db1 (appointment_pk a) reason actor now
    = Ok (Some (cancel_fields reason actor now a), db2)
    /\ appointment_slots db2 = appointment_slots db
    /\ provider_availability db2 = provider_availability db
    /\ appointments db2
       = appointments db ++ [cancel_fields reason actor now a].
Proof.
  intros Hok Hslot Hnp Hnr Hw Hcount Hlt.
  apply create_appointment_ok in Hok.
  destruct Hok as (slot0 & w0 & _ & Hslot0 & Hav & Hw0 & Hpk & Hsid & _ & Hst
                   & _ & _ & _ & _ & _ & Happ & Hsl & Hwl & _).
  rewrite Hslot in Hslot0. injection Hslot0 as <-.
  rewrite Hw in Hw0. injection Hw0 as <-.
  destruct (query_first_some slot_pk _ _ _ Hslot) as [Hspk _].
  destruct (query_first_some availability_pk _ _ _ Hw) as [Hwpk _].
  assert (Hfresh : forall r, In r (appointments db) ->
                     appointment_pk r <> appointment_pk a).
  { intros r Hin. apply Hlt in Hin. lia. }
  assert (Ha1 : get_appointment_by_id db1 (appointment_pk a) = Some a).
  { unfold get_appointment_by_id. rewrite Happ.
    apply query_first_app_fresh; auto. }
  assert (Hs1 : get_slot db1 (slot_id a)
                = Some (book_slot patient (booking_reference a) slot)).
  { unfold get_slot. rewrite Hsl, Hsid, <- Hspk.
    rewrite query_first_update_same by apply book_slot_pk.
    unfold get_slot in Hslot. rewrite Hspk, Hslot. reflexivity. }
  assert (Hw1 : slot_availability db1
                  (book_slot patient (booking_reference a) slot)
                = Some (increment_appointments w)).
  { unfold slot_availability. rewrite Hwl. simpl. rewrite <- Hwpk.
    rewrite query_first_update_same by (intros; reflexivity).
    unfold slot_availability in Hw. rewrite Hwpk, Hw. reflexivity. }
  eexists. split.
  { unfold cancel_appointment. rewrite Ha1, Hst. simpl.
    change (get_slot (with_appointments db1 _) (slot_id a))
      with (get_slot db1 (slot_id a)).
    rewrite Hs1.
    change (slot_availability (with_slots _ _) ?s)
      with (slot_availability db1 s).
    rewrite Hw1.
    unfold get_appointment_by_id. simpl.
    rewrite query_first_update_same by apply cancel_fields_pk.
    unfold get_appointment_by_id in Ha1. rewrite Ha1. reflexivity. }
  simpl. split; [|split].
  - rewrite Hsl, update_row_twice by apply book_slot_pk.
    apply update_row_fixed with (r := slot);
      [rewrite Hspk; exact Hslot|].
    clear - Hav Hnp Hnr. destruct slot; simpl in *. subst. reflexivity.
  - rewrite Hwl, update_row_twice by (intros; reflexivity).
    apply update_row_fixed with (r := w); [rewrite Hwpk; exact Hw|].
    clear - Hcount.
    destruct w; unfold decrement_appointments, increment_appointments,
      set_current_appointments; simpl in *.
    f_equal. lia.
  - rewrite Happ. apply update_row_app_fresh; auto.
Qed.

(** X7.  A cancellation frees the slot for the next booking: after an
    appointment has been cancelled, a request for its slot by an existing
    patient succeeds, provided the slot's provider exists and the new
    reference is not in use. *)
Theorem cancelled_slot_can_be_booked_again
  (db : Session) (appointment_id : UUID) (reason actor : string)
  (now : datetime) (a' : Appointment) (db' : Session)
  (patient : UUID) (appointment_data : AppointmentData) (uuid_hex : string) :
  cancel_appointment db appointment_id reason actor now = Ok (Some a', db') ->
  ad_slot_id appointment_data = slot_id a' ->
  get_patient_by_id db patient <> None ->
  (forall s, get_slot db (slot_id a') = Some s ->
             get_provider_by_id db (slot_provider_id s) <> None) ->
  booking_reference_taken db' (slot_id a') ("APT-" ++ uuid_hex)%string
  = false ->
  exists a2 db2,
    create_appointment db' patient appointment_data uuid_hex = Ok (a2, db2)
    /\ slot_id a2 = slot_id a'
    /\ patient_id a2 = patient
    /\ status a2 = SCHEDULED
    /\ appointments db2 = appointments db' ++ [a2].
Proof.
  intros Hok Hsid Hp Hprov Hfree. pose proof Hok as Hinv.
  apply cancel_appointment_ok in Hinv.
  destruct Hinv as [[Hnone _]|(a & slot & w & Ha & _ & Hslot & Hw & _ & Hsl
                               & Hwl & _)].
  { unfold cancel_appointment in Hok. rewrite Hnone in Hok. discriminate. }
  destruct (cancel_appointment_result _ _ _ _ _ _ _ _ Hok Ha)
    as (Hres & _ & Hpr & Hpa).
  injection Hres as ->. simpl in *.
  destruct (query_first_some slot_pk _ _ _ Hslot) as [Hspk _].
  destruct (query_first_some availability_pk _ _ _ Hw) as [Hwpk _].
  assert (Hs' : get_slot db' (slot_id a) = Some (release_slot slot)).
  { unfold get_slot. rewrite Hsl, <- Hspk.
    rewrite query_first_update_same by apply release_slot_pk.
    unfold get_slot in Hslot. rewrite Hspk, Hslot. reflexivity. }
  assert (Hw' : slot_availability db' (release_slot slot)
                = Some (decrement_appointments w)).
  { unfold slot_availability. rewrite Hwl. simpl. rewrite <- Hwpk.
    rewrite query_first_update_same by (intros; reflexivity).
    unfold slot_availability in Hw. rewrite Hwpk, Hw. reflexivity. }
  specialize (Hprov slot Hslot).
  unfold create_appointment.
  unfold get_patient_by_id in *. rewrite Hpa.
  destruct (query_first patient_pk patient (patients db)); [|contradiction].
  rewrite Hsid, Hs'. simpl.
  unfold get_provider_by_id in *. rewrite Hpr.
  destruct (query_first provider_pk (slot_provider_id slot) (providers db));
    [|contradiction].
  rewrite Hw'. rewrite Hspk, Hfree.
  eexists _, _. split; [reflexivity|]. simpl. auto.
Qed.

(** ** Deleting a slot under live bookings *)

Lemma in_delete_row {A} (pk : A -> UUID) id rows r :
  In r (delete_row pk id rows) -> In r rows.
Proof.
  induction rows as [|r0 rest IH]; simpl; [tauto|].
  destruct (Nat.eqb (pk r0) id); simpl; [tauto|].
  intros [H|H]; auto.
Qed.

Lemma delete_row_keeps {A} (pk : A -> UUID) id rows r :
  In r rows -> pk r <> id -> In r (delete_row pk id rows).
Proof.
  induction rows as [|r0 rest IH]; simpl; [tauto|].
  intros [->|Hin] Hne.
  - apply Nat.eqb_neq in Hne. rewrite Hne. left. reflexivity.
  - destruct (Nat.eqb (pk r0) id); [exact Hin | right; auto].
Qed.

Lemma delete_row_NoDup {A} (pk : A -> UUID) id rows :
  NoDup (map pk rows) -> NoDup (map pk (delete_row pk id rows)).
Proof.
  induction rows as [|r0 rest IH]; simpl; [auto|].
  intros Hnd. inversion Hnd as [|? ? Hnot Hnd']; subst.
  destruct (Nat.eqb (pk r0) id); [exact Hnd'|].
  simpl. constructor; [|auto].
  intros Hin. apply Hnot. apply in_map_iff in Hin.
  destruct Hin as (r & Hr & Hin). apply in_delete_row in Hin.
  rewrite <- Hr. apply in_map. exact Hin.
Qed.

(** X8.  Deleting a single slot keeps the bookings consistent: in a store
    where every appointment that is not cancelled holds a BOOKED slot and
    every BOOKED slot has such an appointment, a deletion without
    [delete_recurring] that returns leaves a store with the same property,
    with every appointment as it was (a slot held by a live appointment is
    BOOKED and so is never the one removed). *)
Theorem single_delete_keeps_bookings
  (db : Session) (slot : UUID) (reason : option string) (ok : bool)
  (db' : Session) :
  booking_consistent db ->
  delete_availability_slot db slot false reason = Ok (ok, db') ->
  booking_consistent db'
  /\ appointments db' = appointments db
  /\ provider_availability db' = provider_availability db
  /\ (forall s, In s (appointment_slots db) -> slot_status s = BOOKED ->
        In s (appointment_slots db')).
Proof.
  intros [Hsk Hak Hfr Hs Ha H1] Hok.
  unfold delete_availability_slot in Hok.
  destruct (get_slot db slot) as [s|] eqn:Hslot.
  2:{ injection Hok as <- <-. repeat split; auto. }
  destruct (AvailabilityStatus_eqb (slot_status s) BOOKED) eqn:Hb;
    [discriminate|].
  injection Hok as <- <-. simpl.
  destruct (query_first_some slot_pk _ _ _ Hslot) as [Hpk Hin].
  assert (Hkeep : forall s0, In s0 (appointment_slots db) ->
                    slot_status s0 = BOOKED ->
                    In s0 (delete_row slot_pk (slot_pk s)
                             (appointment_slots db))).
  { intros s0 Hin0 Hb0. apply delete_row_keeps; [exact Hin0|].
    intros Heq.
    assert (s0 = s)
      by (apply (same_key_same_row slot_pk (appointment_slots db)); auto).
    subst s0. rewrite Hb0 in Hb. discriminate. }
  split; [|repeat split; auto].
  constructor; simpl.
  - apply delete_row_NoDup. exact Hsk.
  - exact Hak.
  - exact Hfr.
  - intros s0 Hin0 Hb0. apply in_delete_row in Hin0. exact (Hs s0 Hin0 Hb0).
  - intros a0 Hin0 Hl. destruct (Ha a0 Hin0 Hl) as (s0 & Hs0 & Hk & Hb0).
    exists s0. auto.
  - exact H1.
Qed.

(** ** What a reschedule needs and what it copies *)


(** ** The endpoints of the appointments router *)

Lemma own_appointment_ok db current_patient appointment_id a :
  own_appointment db current_patient appointment_id = Ok a <->
  get_appointment_by_id db appointment_id = Some a
  /\ patient_id a = patient_pk current_patient.
Proof.
  unfold own_appointment.
  destruct (get_appointment_by_id db appointment_id) as [a0|].
  2:{ split; [discriminate | intros [H _]; discriminate]. }
  destruct (Nat.eqb (patient_id a0) (patient_pk current_patient)) eqn:E;
    simpl.
  - apply Nat.eqb_eq in E. split.
    + intros H. injection H as <-. auto.
    + intros [H _]. injection H as <-. reflexivity.
  - apply Nat.eqb_neq in E. split; [discriminate|].
    intros [H Hp]. injection H as <-. contradiction.
Qed.

Lemma provider_appointment_ok db current_provider appointment_id a :
  provider_appointment db current_provider appointment_id = Ok a <->
  get_appointment_by_id db appointment_id = Some a
  /\ provider_id a = provider_pk current_provider.
Proof.
  unfold provider_appointment.
  destruct (get_appointment_by_id db appointment_id) as [a0|].
  2:{ split; [discriminate | intros [H _]; discriminate]. }
  destruct (Nat.eqb (provider_id a0) (provider_pk current_provider)) eqn:E;
    simpl.
  - apply Nat.eqb_eq in E. split.
    + intros H. injection H as <-. auto.
    + intros [H _]. injection H as <-. reflexivity.
  - apply Nat.eqb_neq in E. split; [discriminate|].
    intros [H Hp]. injection H as <-. contradiction.
Qed.

Lemma own_appointment_denied db current_patient appointment_id a :
  get_appointment_by_id db appointment_id = Some a ->
  patient_id a <> patient_pk current_patient ->
  own_appointment db current_patient appointment_id
  = Raise (HTTPException HTTP_403_FORBIDDEN "Access denied").
Proof.
  intros Ha Hne. unfold own_appointment. rewrite Ha.
  apply Nat.eqb_neq in Hne. rewrite Hne. reflexivity.
Qed.

Lemma provider_appointment_denied db current_provider appointment_id a :
  get_appointment_by_id db appointment_id = Some a ->
  provider_id a <> provider_pk current_provider ->
  provider_appointment db current_provider appointment_id
  = Raise (HTTPException HTTP_403_FORBIDDEN "Access denied").
Proof.
  intros Ha Hne. unfold provider_appointment. rewrite Ha.
  apply Nat.eqb_neq in Hne. rewrite Hne. reflexivity.
Qed.

(** X10.  A patient reaches no appointment of another patient: reading,
    updating, cancelling and rescheduling an appointment that belongs to
    someone else are all answered 403 "Access denied", whatever the request
    carries and whatever state the appointment is in, and the store stays
    as it was. *)
Theorem patient_endpoints_deny_other_patients
  (db : Session) (current_patient : Patient)
  (appointment_id new_slot_id : UUID) (a : Appointment)
  (update_data : list AppointmentUpdateItem) (reason : string)
  (why : option string) (now : datetime) :
  get_appointment_by_id db appointment_id = Some a ->
  patient_id a <> patient_pk current_patient ->
  let denied := HTTPException HTTP_403_FORBIDDEN "Access denied" in
  get_appointment_details db current_patient appointment_id = Raise denied
  /\ update_appointment_details db current_patient appointment_id
       update_data = Raise denied
  /\ cancel_appointment_patient db current_patient appointment_id reason now
     = Raise denied
  /\ reschedule_appointment_patient db current_patient appointment_id
       new_slot_id why = Raise denied
  /\ committed db
       (update_appointment_details db current_patient appointment_id
          update_data) = db
  /\ committed db
       (cancel_appointment_patient db current_patient appointment_id reason
          now) = db
  /\ committed db
       (reschedule_appointment_patient db current_patient appointment_id
          new_slot_id why) = db.
Proof.
  intros Ha Hne denied.
  pose proof (own_appointment_denied _ _ _ _ Ha Hne) as Hd.
  unfold get_appointment_details, update_appointment_details,
    cancel_appointment_patient, reschedule_appointment_patient.
  rewrite Hd. repeat split; reflexivity.
Qed.

(** X11.  A provider reaches no appointment of another provider: reading,
    updating, cancelling and rescheduling it through the provider endpoints
    are all answered 403 "Access denied" and the store stays as it was. *)
Theorem provider_endpoints_deny_other_providers
  (db : Session) (current_provider : Provider)
  (appointment_id new_slot_id : UUID) (a : Appointment)
  (update_data : list AppointmentUpdateItem) (reason : string)
  (why : option string) (now : datetime) :
  get_appointment_by_id db appointment_id = Some a ->
  provider_id a <> provider_pk current_provider ->
  let denied := HTTPException HTTP_403_FORBIDDEN "Access denied" in
  get_provider_appointment_details db current_provider appointment_id
  = Raise denied
  /\ update_provider_appointment_details db current_provider appointment_id
       update_data = Raise denied
  /\ cancel_appointment_provider db current_provider appointment_id reason
       now = Raise denied
  /\ reschedule_appointment_provider db current_provider appointment_id
       new_slot_id why = Raise denied
  /\ committed db
       (update_provider_appointment_details db current_provider
          appointment_id update_data) = db
  /\ committed db
       (cancel_appointment_provider db current_provider appointment_id
          reason now) = db
  /\ committed db
       (reschedule_appointment_provider db current_provider appointment_id
          new_slot_id why) = db.
Proof.
  intros Ha Hne denied.
  pose proof (provider_appointment_denied _ _ _ _ Ha Hne) as Hd.
  unfold get_provider_appointment_details,
    update_provider_appointment_details, cancel_appointment_provider,
    reschedule_appointment_provider.
  rewrite Hd. repeat split; reflexivity.
Qed.

(** *** What a request leaves alone *)

Lemma setattr_appointment_shape item a :
  exists st pay sym reason,
    setattr_appointment item a = set_updatable st pay sym reason a.
Proof.
  assert (Hid : a = set_updatable (status a) (payment_status a) (symptoms a)
                      (cancellation_reason a) a) by (destruct a; reflexivity).
  destruct item as [[v|]|[v|]|[v|]|v|v|v|v|v|v|[v|]]; simpl;
    try (exists (status a), (payment_status a), (symptoms a),
           (cancellation_reason a); exact Hid);
    eexists _, _, _, _; reflexivity.
Qed.

Lemma set_updatable_twice st pay sym reason st' pay' sym' reason' a :
  set_updatable st' pay' sym' reason' (set_updatable st pay sym reason a)
  = set_updatable st' pay' sym' reason' a.
Proof. reflexivity. Qed.

Lemma apply_appointment_update_shape update_data : forall a,
  exists st pay sym reason,
    apply_appointment_update update_data a
    = set_updatable st pay sym reason a.
Proof.
  unfold apply_appointment_update.
  induction update_data as [|item rest IH]; intros a; cbn [fold_left].
  - exists (status a), (payment_status a), (symptoms a),
      (cancellation_reason a). destruct a; reflexivity.
  - destruct (hasattr appointment_attributes (au_key item)
              && au_is_not_none item).
    + destruct (setattr_appointment_shape item a)
        as (st & pay & sym & reason & ->).
      destruct (IH (set_updatable st pay sym reason a))
        as (st' & pay' & sym' & reason' & ->).
      exists st', pay', sym', reason'. reflexivity.
    + apply IH.
Qed.

Lemma apply_appointment_update_pk update_data a :
  appointment_pk (apply_appointment_update update_data a) = appointment_pk a.
Proof.
  destruct (apply_appointment_update_shape update_data a)
    as (st & pay & sym & reason & ->). reflexivity.
Qed.

Lemma update_appointment_ok db appointment_id update_data res db' :
  update_appointment db appointment_id update_data = Ok (res, db') ->
  (get_appointment_by_id db appointment_id = None /\ res = None /\ db' = db)
  \/ exists a,
       get_appointment_by_id db appointment_id = Some a
       /\ res = Some (apply_appointment_update update_data a)
       /\ get_appointment_by_id db' appointment_id = res
       /\ appointments db'
          = update_row appointment_pk appointment_id
              (apply_appointment_update update_data) (appointments db)
       /\ appointment_slots db' = appointment_slots db
       /\ provider_availability db' = provider_availability db
       /\ providers db' = providers db
       /\ patients db' = patients db
       /\ next_uuid db' = next_uuid db.
Proof.
  unfold update_appointment.
  destruct (get_appointment_by_id db appointment_id) as [a|] eqn:Ha.
  2:{ intros H. injection H as <- <-. left. auto. }
  intros H. injection H as <- <-. right. exists a.
  destruct (query_first_some appointment_pk _ _ _ Ha) as [Hpk _].
  unfold get_appointment_by_id in *. simpl. rewrite Hpk.
  rewrite query_first_update_same by apply apply_appointment_update_pk.
  rewrite Ha. simpl. repeat split; reflexivity.
Qed.

Lemma update_appointment_other db appointment_id update_data res db' other :
  update_appointment db appointment_id update_data = Ok (res, db') ->
  other <> appointment_id ->
  get_appointment_by_id db' other = get_appointment_by_id db other.
Proof.
  intros Hok Hne. apply update_appointment_ok in Hok.
  destruct Hok as [(_ & _ & ->)|(a & _ & _ & _ & Happ & _)]; [reflexivity|].
  unfold get_appointment_by_id. rewrite Happ.
  apply query_first_update_other; [apply apply_appointment_update_pk|].
  congruence.
Qed.

Lemma cancel_appointment_other db appointment_id reason actor now res db'
  other :
  cancel_appointment db appointment_id reason actor now = Ok (res, db') ->
  other <> appointment_id ->
  get_appointment_by_id db' other = get_appointment_by_id db other.
Proof.
  intros Hok Hne. apply cancel_appointment_ok in Hok.
  destruct Hok as [(_ & ->)|(a & slot & w & Ha & _ & _ & _ & Happ & _)];
    [reflexivity|].
  destruct (query_first_some appointment_pk _ _ _ Ha) as [Hpk _].
  unfold get_appointment_by_id. rewrite Happ.
  apply query_first_update_other; [apply cancel_fields_pk|]. congruence.
Qed.

Lemma reschedule_appointment_other db appointment_id new_slot_id reason res
  db' other :
  reschedule_appointment db appointment_id new_slot_id reason
  = Ok (res, db') ->
  other <> appointment_id ->
  get_appointment_by_id db' other = get_appointment_by_id db other.
Proof.
  intros Hok Hne. apply reschedule_appointment_ok in Hok.
  destruct Hok as [(_ & ->)|(a & ns & os & Ha & _ & _ & _ & _ & Happ & _)];
    [reflexivity|].
  destruct (query_first_some appointment_pk _ _ _ Ha) as [Hpk _].
  unfold get_appointment_by_id. rewrite Happ.
  apply query_first_update_other; [apply reschedule_fields_pk|]. congruence.
Qed.

Lemma find_app_some {A} (f : A -> bool) l l' x :
  find f l = Some x -> find f (l ++ l') = Some x.
Proof.
  induction l as [|r rest IH]; simpl; [discriminate|].
  destruct (f r); auto.
Qed.

Lemma create_appointment_other db patient appointment_data uuid_hex a db'
  other b :
  create_appointment db patient appointment_data uuid_hex = Ok (a, db') ->
  get_appointment_by_id db other = Some b ->
  get_appointment_by_id db' other = Some b.
Proof.
  intros Hok Hb. apply create_appointment_ok in Hok.
  destruct Hok as (slot & w & _ & _ & _ & _ & _ & _ & _ & _ & _ & _ & _ & _
                   & _ & Happ & _).
  unfold get_appointment_by_id, query_first in *. rewrite Happ.
  apply find_app_some. exact Hb.
Qed.

Lemma committed_found_or_404 db r other
  (Hother : forall res db', r = Ok (res, db') ->
              get_appointment_by_id db' other
              = get_appointment_by_id db other) :
  get_appointment_by_id (committed db (found_or_404 r)) other
  = get_appointment_by_id db other.
Proof.
  destruct r as [[[a|] db']|e]; simpl; try reflexivity.
  apply (Hother (Some a) db'). reflexivity.
Qed.

Lemma committed_cancel_data db appointment_id r :
  committed db (cancel_data appointment_id r) = committed db r.
Proof. destruct r as [[a db']|e]; reflexivity. Qed.

Lemma committed_except_exception {A} db detail (r : Result (A * Session)) :
  committed db (except_exception detail r) = committed db r.
Proof. destruct r as [[a db']|[]]; reflexivity. Qed.

(** X12.  Whatever a patient sends to the endpoints that write (booking,
    update, cancellation, reschedule), and whether the request succeeds or
    fails, every appointment of every other patient is afterwards found
    under its id exactly as it was. *)
Theorem patient_requests_keep_other_appointments
  (db : Session) (current_patient : Patient)
  (appointment_id new_slot_id : UUID)
  (update_data : list AppointmentUpdateItem) (reason : string)
  (why : option string) (now : datetime)
  (appointment_data : AppointmentData) (uuid_hex : string)
  (other : UUID) (b : Appointment) :
  get_appointment_by_id db other = Some b ->
  patient_id b <> patient_pk current_patient ->
  get_appointment_by_id
    (committed db
       (book_appointment db current_patient appointment_data uuid_hex))
    other = Some b
  /\ get_appointment_by_id
       (committed db
          (update_appointment_details db current_patient appointment_id
             update_data)) other = Some b
  /\ get_appointment_by_id
       (committed db
          (cancel_appointment_patient db current_patient appointment_id
             reason now)) other = Some b
  /\ get_appointment_by_id
       (committed db
          (reschedule_appointment_patient db current_patient appointment_id
             new_slot_id why)) other = Some b.
Proof.
  intros Hb Hne.
  assert (Hid : forall a, own_appointment db current_patient appointment_id
                          = Ok a -> other <> appointment_id).
  { intros a Ha. apply own_appointment_ok in Ha. destruct Ha as [Ha Hp].
    intros ->. congruence. }
  split.
  { unfold book_appointment. rewrite committed_except_exception.
    destruct (create_appointment db (patient_pk current_patient)
                appointment_data uuid_hex) as [[a db']|e] eqn:Hc;
      [|exact Hb].
    simpl. exact (create_appointment_other _ _ _ _ _ _ _ _ Hc Hb). }
  unfold update_appointment_details, cancel_appointment_patient,
    reschedule_appointment_patient.
  destruct (own_appointment db current_patient appointment_id) as [a|e]
    eqn:Hown; [|simpl; auto].
  specialize (Hid a eq_refl).
  split; [|split].
  - destruct (filter _ update_data) as [|item rest]; [exact Hb|].
    rewrite committed_found_or_404; [exact Hb|].
    intros res db' Hok. exact (update_appointment_other _ _ _ _ _ _ Hok Hid).
  - rewrite committed_cancel_data, committed_found_or_404; [exact Hb|].
    intros res db' Hok.
    exact (cancel_appointment_other _ _ _ _ _ _ _ _ Hok Hid).
  - rewrite committed_found_or_404; [exact Hb|].
    intros res db' Hok.
    exact (reschedule_appointment_other _ _ _ _ _ _ _ Hok Hid).
Qed.

(** X13.  Whatever a provider sends to the provider endpoints that write
    (update, cancellation, reschedule), every appointment of every other
    provider is afterwards found under its id exactly as it was. *)
Theorem provider_requests_keep_other_appointments
  (db : Session) (current_provider : Provider)
  (appointment_id new_slot_id : UUID)
  (update_data : list AppointmentUpdateItem) (reason : string)
  (why : option string) (now : datetime)
  (other : UUID) (b : Appointment) :
  get_appointment_by_id db other = Some b ->
  provider_id b <> provider_pk current_provider ->
  get_appointment_by_id
    (committed db
       (update_provider_appointment_details db current_provider
          appointment_id update_data)) other = Some b
  /\ get_appointment_by_id
       (committed db
          (cancel_appointment_provider db current_provider appointment_id
             reason now)) other = Some b
  /\ get_appointment_by_id
       (committed db
          (reschedule_appointment_provider db current_provider
             appointment_id new_slot_id why)) other = Some b.
Proof.
  intros Hb Hne.
  assert (Hid : forall a,
            provider_appointment db current_provider appointment_id = Ok a ->
            other <> appointment_id).
  { intros a Ha. apply provider_appointment_ok in Ha. destruct Ha as [Ha Hp].
    intros ->. congruence. }
  unfold update_provider_appointment_details, cancel_appointment_provider,
    reschedule_appointment_provider.
  destruct (provider_appointment db current_provider appointment_id)
    as [a|e] eqn:Hown; [|simpl; auto].
  specialize (Hid a eq_refl).
  split; [|split].
  - rewrite committed_found_or_404; [exact Hb|].
    intros res db' Hok. exact (update_appointment_other _ _ _ _ _ _ Hok Hid).
  - rewrite committed_cancel_data, committed_found_or_404; [exact Hb|].
    intros res db' Hok.
    exact (cancel_appointment_other _ _ _ _ _ _ _ _ Hok Hid).
  - rewrite committed_found_or_404; [exact Hb|].
    intros res db' Hok.
    exact (reschedule_appointment_other _ _ _ _ _ _ _ Hok Hid).
Qed.

(** *** What an update can change *)






(** *** Updating a slot *)

Lemma set_slot_status_same s : set_slot_status (slot_status s) s = s.
Proof. destruct s; reflexivity. Qed.

Lemma apply_slot_update_shape update_data : forall s,
  exists st,
    apply_slot_update update_data s = set_slot_status st s
    /\ (st = slot_status s \/ In (SU_status (Some st)) update_data).
Proof.
  unfold apply_slot_update.
  induction update_data as [|item rest IH]; intros s; cbn [fold_left].
  - exists (slot_status s). rewrite set_slot_status_same. auto.
  - destruct (hasattr slot_attributes (su_key item) && su_is_not_none item)
      eqn:Hc.
    + destruct item as [v|v|[v|]|v|v|v]; try discriminate Hc.
      cbn [setattr_slot].
      destruct (IH (set_slot_status v s)) as (st & -> & Hst).
      exists st. split; [reflexivity|]. simpl in Hst. simpl.
      destruct Hst as [->|Hin]; auto.
    + destruct (IH s) as (st & -> & Hst).
      exists st. split; [reflexivity|]. simpl.
      destruct Hst as [->|Hin]; auto.
Qed.

(** X16.  The slot update endpoint changes the status of the slot and
    nothing else.  An unknown slot is answered 404; for a known slot the
    request always succeeds, whoever the provider is and whether or not the
    slot is BOOKED: the stored slot is the old one with a status that is the
    old status or one the request sent (start time, end time, notes, pricing
    and special requirements in the request are dropped), every other slot,
    every window and every appointment stays as it was, and the answer
    reports the id and the new status. *)
Theorem slot_update_changes_status_only
  (db : Session) (slot : UUID) (update_dict : list SlotUpdateItem) :
  let r := update_availability_slot_endpoint db slot update_dict in
  match get_slot db slot with
  | None =>
      r = Raise (HTTPException HTTP_404_NOT_FOUND
                   "Availability slot not found")
  | Some s =>
      exists st db',
        r = Ok ({| upd_slot_id := slot;
                   upd_status := AvailabilityStatus_value st |}, db')
        /\ (st = slot_status s \/ In (SU_status (Some st)) update_dict)
        /\ get_slot db' slot = Some (set_slot_status st s)
        /\ (forall other, other <> slot ->
              get_slot db' other = get_slot db other)
        /\ provider_availability db' = provider_availability db
        /\ appointments db' = appointments db
  end.
Proof.
  intros r. unfold r, update_availability_slot_endpoint,
    update_availability_slot.
  destruct (get_slot db slot) as [s|] eqn:Hs; [|reflexivity].
  destruct (query_first_some slot_pk _ _ _ Hs) as [Hpk _]. subst slot.
  destruct (apply_slot_update_shape update_dict s) as (st & Hshape & Hst).
  assert (Hkeep : forall s0, slot_pk (apply_slot_update update_dict s0)
                             = slot_pk s0).
  { intros s0. destruct (apply_slot_update_shape update_dict s0)
      as (st0 & -> & _). reflexivity. }
  assert (Hget : get_slot
                   (with_slots db
                      (update_row slot_pk (slot_pk s)
                         (apply_slot_update update_dict)
                         (appointment_slots db))) (slot_pk s)
                 = Some (set_slot_status st s)).
  { unfold get_slot in *. simpl.
    rewrite query_first_update_same by exact Hkeep.
    rewrite Hs. simpl. rewrite Hshape. reflexivity. }
  rewrite Hget. simpl. eexists st, _. split; [reflexivity|].
  split; [exact Hst|]. split; [exact Hget|]. split; [|auto].
  intros other Hne. unfold get_slot. simpl.
  apply query_first_update_other; [exact Hkeep | congruence].
Qed.

(** *** What a cancellation answers *)

(** X17.  The answer of a cancellation.  For an appointment that is neither
    CANCELLED nor COMPLETED and whose slot and window rows exist, the
    patient's endpoint (for the patient of the appointment) and the
    provider's endpoint (for its provider) both succeed; the answer carries
    the id, the booking reference, the time of the call as [cancelled_at]
    and, as refund, the whole patient payment of the booking; the stored
    appointment is CANCELLED with the reason given and records "patient" or
    "provider" as the party that cancelled. *)
Theorem cancel_endpoints_answer
  (db : Session) (current_patient : Patient) (current_provider : Provider)
  (appointment_id : UUID) (reason : string) (now : datetime)
  (a : Appointment) (slot : AppointmentSlot) (w : ProviderAvailability) :
  get_appointment_by_id db appointment_id = Some a ->
  status a <> CANCELLED -> status a <> COMPLETED ->
  get_slot db (slot_id a) = Some slot ->
  slot_availability db slot = Some w ->
  let answer :=
    {| cd_appointment_id := appointment_id;
       cd_booking_reference := booking_reference a;
       cd_cancelled_at := Some now;
       cd_refund_amount := patient_payment a |} in
  (patient_id a = patient_pk current_patient ->
   exists db',
     cancel_appointment_patient db current_patient appointment_id reason now
     = Ok (answer, db')
     /\ get_appointment_by_id db' appointment_id
        = Some (cancel_fields reason "patient" now a))
  /\ (provider_id a = provider_pk current_provider ->
      exists db',
        cancel_appointment_provider db current_provider appointment_id
          reason now = Ok (answer, db')
        /\ get_appointment_by_id db' appointment_id
           = Some (cancel_fields reason "provider" now a)).
Proof.
  intros Ha Hc1 Hc2 Hs Hw answer.
  assert (Ht : is_terminal (status a) = false)
    by (apply is_terminal_false; auto).
  assert (Hrun : forall actor, exists db',
             cancel_appointment db appointment_id reason actor now
             = Ok (Some (cancel_fields reason actor now a), db')
             /\ get_appointment_by_id db' appointment_id
                = Some (cancel_fields reason actor now a)).
  { intros actor.
    destruct (cancel_appointment db appointment_id reason actor now)
      as [[res db']|e] eqn:Hc.
    - destruct (cancel_appointment_result _ _ _ _ _ _ _ _ Hc Ha)
        as (-> & Hget & _). exists db'. auto.
    - unfold cancel_appointment in Hc. rewrite Ha, Ht in Hc.
      change (get_slot (with_appointments db _) (slot_id a))
        with (get_slot db (slot_id a)) in Hc.
      rewrite Hs in Hc.
      change (slot_availability (with_slots _ _) slot)
        with (slot_availability db slot) in Hc.
      rewrite Hw in Hc. discriminate. }
  split.
  - intros Hp.
    assert (Hown : own_appointment db current_patient appointment_id = Ok a)
      by (apply own_appointment_ok; auto).
    destruct (Hrun "patient") as (db' & Hc & Hget).
    exists db'. unfold cancel_appointment_patient. rewrite Hown, Hc.
    split; [reflexivity | exact Hget].
  - intros Hp.
    assert (Hown : provider_appointment db current_provider appointment_id
                   = Ok a) by (apply provider_appointment_ok; auto).
    destruct (Hrun "provider") as (db' & Hc & Hget).
    exists db'. unfold cancel_appointment_provider. rewrite Hown, Hc.
    split; [reflexivity | exact Hget].
Qed.

(** ** The further properties on the example stores *)

Lemma store_booked_consistent : booking_consistent store_booked.
Proof.
  destruct (create_appointment store_two_windows 2%nat (booking_of 101%nat)
              "A1B2C3D4") as [[a db']|e] eqn:H;
    [|vm_compute in H; discriminate].
  assert (Hdb : store_booked = db')
    by (unfold store_booked; rewrite H; reflexivity).
  rewrite Hdb.
  exact (book_consistent _ _ _ _ _ _
           (unbooked_consistent _ store_two_windows_unbooked) H).
Qed.

Lemma repeated_creation_rejected_witness :
  exists res db',
    create_provider_availability pytz_zones dateutil_rrule empty_store 1%nat
      morning_window = Ok (res, db')
    /\ (exists w,
          conflicting_window db' 1%nat morning_window = Some w
          /\ create_provider_availability pytz_zones dateutil_rrule db' 1%nat
               morning_window
             = Raise (HTTPException HTTP_400_BAD_REQUEST
                        ("Time slot conflicts with existing availability: "
                         ++ strftime_HM (start_time w) ++ "-"
                         ++ strftime_HM (end_time w))%string))
    /\ committed db'
         (create_provider_availability pytz_zones dateutil_rrule db' 1%nat
            morning_window) = db'.
Proof.
  destruct (create_provider_availability pytz_zones dateutil_rrule
              empty_store 1%nat morning_window) as [[res db']|e] eqn:H;
    [|vm_compute in H; discriminate].
  exists res, db'. split; [reflexivity|].
  apply (repeated_creation_rejected pytz_zones dateutil_rrule empty_store
           1%nat morning_window [738931] res db');
    [reflexivity | reflexivity | simpl; auto | exact H].
Defined.

Lemma generated_slots_ordered_witness :
  exists res db' new,
    generate_appointment_slots pytz_zones empty_store morning_row 2
      "Asia/Tokyo" = Ok (res, db')
    /\ appointment_slots db' = appointment_slots empty_store ++ new
    /\ Z.of_nat (List.length new) = res
    /\ (forall i j s1 s2, (i < j)%nat ->
          nth_error new i = Some s1 -> nth_error new j = Some s2 ->
          slot_start_time s2 - slot_start_time s1
          = Z.of_nat (j - i)
            * (slot_duration morning_row + break_duration morning_row)
          /\ slot_end_time s1 <= slot_start_time s2).
Proof.
  destruct (generate_appointment_slots pytz_zones empty_store morning_row 2
              "Asia/Tokyo") as [[res db']|e] eqn:H;
    [|vm_compute in H; discriminate].
  destruct (generated_slots_ordered pytz_zones empty_store morning_row 2
              "Asia/Tokyo" 540 res db')
    as (new & Hnew & Hlen & _ & Hord);
    [reflexivity | vm_compute; discriminate | reflexivity | exact H |].
  exists res, db', new. auto.
Defined.


Lemma second_booking_rejected_witness :
  exists a db',
    create_appointment store_two_windows 2%nat (booking_of 101%nat)
      "A1B2C3D4" = Ok (a, db')
    /\ get_patient_by_id store_two_windows 3%nat <> None
    /\ create_appointment db' 3%nat (booking_of 101%nat) "E5F6A7B8"
       = Raise (HTTPException HTTP_400_BAD_REQUEST
                  "Appointment slot is not available").
Proof.
  destruct (create_appointment store_two_windows 2%nat (booking_of 101%nat)
              "A1B2C3D4") as [[a db']|e] eqn:H;
    [|vm_compute in H; discriminate].
  assert (Hp : get_patient_by_id store_two_windows 3%nat <> None)
    by (vm_compute; discriminate).
  exists a, db'. split; [reflexivity|]. split; [exact Hp|].
  exact (proj1 (second_booking_rejected store_two_windows 2%nat
                  (booking_of 101%nat) "A1B2C3D4" a db' 3%nat
                  (booking_of 101%nat) "E5F6A7B8" H eq_refl Hp)).
Defined.

Lemma book_then_cancel_restores_witness :
  exists a db1 slot w,
    create_appointment store_two_windows 2%nat (booking_of 101%nat)
      "A1B2C3D4" = Ok (a, db1)
    /\ get_slot store_two_windows 101%nat = Some slot
    /\ slot_availability store_two_windows slot = Some w
    /\ exists db2,
         cancel_appointment db1 (appointment_pk a) "ill" "patient"
           1064061000
         = Ok (Some (cancel_fields "ill" "patient" 1064061000 a), db2)
         /\ appointment_slots db2 = appointment_slots store_two_windows
         /\ provider_availability db2
            = provider_availability store_two_windows
         /\ appointments db2
            = appointments store_two_windows
              ++ [cancel_fields "ill" "patient" 1064061000 a].
Proof.
  destruct (create_appointment store_two_windows 2%nat (booking_of 101%nat)
              "A1B2C3D4") as [[a db1]|e] eqn:H;
    [|vm_compute in H; discriminate].
  destruct (get_slot store_two_windows 101%nat) as [slot|] eqn:Hs;
    [|vm_compute in Hs; discriminate].
  destruct (slot_availability store_two_windows slot) as [w|] eqn:Hw;
    [|vm_compute in Hs; injection Hs as <-; vm_compute in Hw; discriminate].
  assert (Hnp : slot_patient_id slot = None)
    by (vm_compute in Hs; injection Hs as <-; reflexivity).
  assert (Hnr : slot_booking_reference slot = None)
    by (vm_compute in Hs; injection Hs as <-; reflexivity).
  assert (Hc : 0 <= current_appointments w).
  { vm_compute in Hs. injection Hs as <-. vm_compute in Hw.
    injection Hw as <-. vm_compute. discriminate. }
  assert (Hlt : forall a0, In a0 (appointments store_two_windows) ->
                  (appointment_pk a0 < next_uuid store_two_windows)%nat)
    by (intros a0 Hin; vm_compute in Hin; contradiction).
  exists a, db1, slot, w. split; [reflexivity|]. split; [reflexivity|].
  split; [exact Hw|].
  exact (book_then_cancel_restores store_two_windows 2%nat
           (booking_of 101%nat) "A1B2C3D4" a db1 slot w "ill" "patient"
           1064061000 H Hs Hnp Hnr Hw Hc Hlt).
Defined.

Lemma cancelled_slot_can_be_booked_again_witness :
  exists a' db',
    cancel_appointment store_booked 106%nat "ill" "patient" 1064061000
    = Ok (Some a', db')
    /\ slot_id a' = 101%nat
    /\ exists a2 db2,
         create_appointment db' 3%nat (booking_of 101%nat) "E5F6A7B8"
         = Ok (a2, db2)
         /\ slot_id a2 = slot_id a'
         /\ patient_id a2 = 3%nat
         /\ status a2 = SCHEDULED
         /\ appointments db2 = appointments db' ++ [a2].
Proof.
  destruct (cancel_appointment store_booked 106%nat "ill" "patient"
              1064061000) as [[[a'|] db']|e] eqn:H;
    [|vm_compute in H; discriminate|vm_compute in H; discriminate].
  assert (Hsid : slot_id a' = 101%nat)
    by (vm_compute in H; injection H as <- <-; reflexivity).
  assert (Hp : get_patient_by_id store_booked 3%nat <> None)
    by (vm_compute; discriminate).
  assert (Hprov : forall s, get_slot store_booked (slot_id a') = Some s ->
                    get_provider_by_id store_booked (slot_provider_id s)
                    <> None).
  { intros s Hs. rewrite Hsid in Hs. vm_compute in Hs. injection Hs as <-.
    vm_compute. discriminate. }
  assert (Hfree : booking_reference_taken db' (slot_id a') "APT-E5F6A7B8"
                  = false).
  { rewrite Hsid. vm_compute in H. injection H as <- <-. reflexivity. }
  exists a', db'. split; [reflexivity|]. split; [exact Hsid|].
  exact (cancelled_slot_can_be_booked_again store_booked 106%nat "ill"
           "patient" 1064061000 a' db' 3%nat (booking_of 101%nat)
           "E5F6A7B8" H (eq_sym Hsid) Hp Hprov Hfree).
Defined.

Lemma single_delete_keeps_bookings_witness :
  exists ok db',
    delete_availability_slot store_booked 102%nat false None = Ok (ok, db')
    /\ ok = true
    /\ booking_consistent db'
    /\ appointments db' = appointments store_booked
    /\ provider_availability db' = provider_availability store_booked.
Proof.
  destruct (delete_availability_slot store_booked 102%nat false None)
    as [[ok db']|e] eqn:H; [|vm_compute in H; discriminate].
  assert (Hok : ok = true)
    by (vm_compute in H; injection H as <- <-; reflexivity).
  destruct (single_delete_keeps_bookings store_booked 102%nat None ok db'
              store_booked_consistent H) as (H1 & H2 & H3 & _).
  exists ok, db'. auto.
Defined.


Lemma patient_endpoints_deny_other_patients_witness :
  exists a,
    get_appointment_by_id store_booked 106%nat = Some a
    /\ patient_id a <> patient_pk patient_three
    /\ get_appointment_details store_booked patient_three 106%nat
       = Raise (HTTPException HTTP_403_FORBIDDEN "Access denied")
    /\ cancel_appointment_patient store_booked patient_three 106%nat "ill"
         1064061000
       = Raise (HTTPException HTTP_403_FORBIDDEN "Access denied").
Proof.
  destruct (get_appointment_by_id store_booked 106%nat) as [a|] eqn:Ha;
    [|vm_compute in Ha; discriminate].
  assert (Hne : patient_id a <> patient_pk patient_three)
    by (vm_compute in Ha; injection Ha as <-; discriminate).
  destruct (patient_endpoints_deny_other_patients store_booked patient_three
              106%nat 104%nat a [AU_symptoms (Some "cough")] "ill" None
              1064061000 Ha Hne) as (H1 & _ & H3 & _).
  exists a. auto.
Defined.

Lemma provider_endpoints_deny_other_providers_witness :
  exists a,
    get_appointment_by_id store_booked 106%nat = Some a
    /\ provider_id a <> provider_pk other_provider
    /\ update_provider_appointment_details store_booked other_provider
         106%nat [AU_status (Some COMPLETED)]
       = Raise (HTTPException HTTP_403_FORBIDDEN "Access denied")
    /\ cancel_appointment_provider store_booked other_provider 106%nat
         "closed" 1064061000
       = Raise (HTTPException HTTP_403_FORBIDDEN "Access denied").
Proof.
  destruct (get_appointment_by_id store_booked 106%nat) as [a|] eqn:Ha;
    [|vm_compute in Ha; discriminate].
  assert (Hne : provider_id a <> provider_pk other_provider)
    by (vm_compute in Ha; injection Ha as <-; discriminate).
  destruct (provider_endpoints_deny_other_providers store_booked
              other_provider 106%nat 104%nat a [AU_status (Some COMPLETED)]
              "closed" None 1064061000 Ha Hne) as (_ & H2 & H3 & _).
  exists a. auto.
Defined.

Lemma patient_requests_keep_other_appointments_witness :
  exists b,
    get_appointment_by_id store_booked 106%nat = Some b
    /\ patient_id b <> patient_pk patient_three
    /\ get_appointment_by_id
         (committed store_booked
            (book_appointment store_booked patient_three
               (booking_of 104%nat) "E5F6A7B8")) 106%nat = Some b
    /\ get_appointment_by_id
         (committed store_booked
            (cancel_appointment_patient store_booked patient_three 106%nat
               "ill" 1064061000)) 106%nat = Some b.
Proof.
  destruct (get_appointment_by_id store_booked 106%nat) as [b|] eqn:Hb;
    [|vm_compute in Hb; discriminate].
  assert (Hne : patient_id b <> patient_pk patient_three)
    by (vm_compute in Hb; injection Hb as <-; discriminate).
  destruct (patient_requests_keep_other_appointments store_booked
              patient_three 106%nat 104%nat [AU_symptoms (Some "cough")]
              "ill" None 1064061000 (booking_of 104%nat) "E5F6A7B8" 106%nat
              b Hb Hne) as (H1 & _ & H3 & _).
  exists b. auto.
Defined.

Lemma provider_requests_keep_other_appointments_witness :
  exists b,
    get_appointment_by_id store_booked 106%nat = Some b
    /\ provider_id b <> provider_pk other_provider
    /\ get_appointment_by_id
         (committed store_booked
            (update_provider_appointment_details store_booked
               other_provider 106%nat [AU_status (Some COMPLETED)]))
         106%nat = Some b.
Proof.
  destruct (get_appointment_by_id store_booked 106%nat) as [b|] eqn:Hb;
    [|vm_compute in Hb; discriminate].
  assert (Hne : provider_id b <> provider_pk other_provider)
    by (vm_compute in Hb; injection Hb as <-; discriminate).
  destruct (provider_requests_keep_other_appointments store_booked
              other_provider 106%nat 104%nat [AU_status (Some COMPLETED)]
              "closed" None 1064061000 106%nat b Hb Hne) as (H1 & _).
  exists b. auto.
Defined.



Lemma cancel_endpoints_answer_witness :
  exists a slot w db',
    get_appointment_by_id store_booked 106%nat = Some a
    /\ get_slot store_booked (slot_id a) = Some slot
    /\ slot_availability store_booked slot = Some w
    /\ cancel_appointment_patient store_booked patient_two 106%nat "ill"
         1064061000
       = Ok ({| cd_appointment_id := 106%nat;
                cd_booking_reference := booking_reference a;
                cd_cancelled_at := Some 1064061000;
                cd_refund_amount := patient_payment a |}, db')
    /\ get_appointment_by_id db' 106%nat
       = Some (cancel_fields "ill" "patient" 1064061000 a).
Proof.
  destruct (get_appointment_by_id store_booked 106%nat) as [a|] eqn:Ha;
    [|vm_compute in Ha; discriminate].
  destruct (get_slot store_booked (slot_id a)) as [slot|] eqn:Hs;
    [|vm_compute in Ha; injection Ha as <-; vm_compute in Hs; discriminate].
  destruct (slot_availability store_booked slot) as [w|] eqn:Hw;
    [|vm_compute in Ha; injection Ha as <-; vm_compute in Hs;
      injection Hs as <-; vm_compute in Hw; discriminate].
  assert (H1 : status a <> CANCELLED)
    by (vm_compute in Ha; injection Ha as <-; discriminate).
  assert (H2 : status a <> COMPLETED)
    by (vm_compute in Ha; injection Ha as <-; discriminate).
  assert (Hp : patient_id a = patient_pk patient_two)
    by (vm_compute in Ha; injection Ha as <-; reflexivity).
  destruct (proj1 (cancel_endpoints_answer store_booked patient_two
                     example_provider 106%nat "ill" 1064061000 a slot w
                     Ha H1 H2 Hs Hw) Hp) as (db' & Hr & Hget).
  exists a, slot, w, db'. rewrite Hr. auto.
Defined.

(** ** Listing appointments *)

Lemma AppointmentStatus_eqb_eq a b :
  AppointmentStatus_eqb a b = true <-> a = b.
Proof. destruct a, b; simpl; split; congruence. Qed.

Lemma in_offset_limit {A} skip limit (rows : list A) x :
  In x (offset_limit skip limit rows) -> In x rows.
Proof.
  unfold offset_limit. intros H.
  rewrite <- (firstn_skipn skip rows). apply in_or_app. right.
  rewrite <- (firstn_skipn limit (skipn skip rows)). apply in_or_app.
  left. exact H.
Qed.

Lemma offset_limit_length {A} skip limit (rows : list A) :
  (List.length (offset_limit skip limit rows) <= limit)%nat.
Proof. unfold offset_limit. apply firstn_le_length. Qed.


Lemma in_filter_status wanted rows a :
  In a (filter_status wanted rows) <->
  In a rows /\ forall s, wanted = Some s -> status a = s.
Proof.
  destruct wanted as [s|]; simpl.
  - rewrite filter_In, AppointmentStatus_eqb_eq. split.
    + intros [H1 H2]. split; [exact H1|]. intros s' Hs. congruence.
    + intros [H1 H2]. auto.
  - split; [intros H; split; [exact H|discriminate] | tauto].
Qed.

Lemma filter_length_le {A} (f : A -> bool) l :
  (List.length (filter f l) <= List.length l)%nat.
Proof.
  induction l as [|x l IH]; simpl; [lia|]. destruct (f x); simpl; lia.
Qed.



(** X19.  What a provider's listing holds.  Every appointment that
    [get_provider_appointments] returns is a stored appointment of the
    calling provider, with the requested status and of the requested
    patient when these are given; the patient filter is applied to the page
    the query returned, so the answer is a part of that page and never
    holds more than [limit] appointments. *)
Theorem provider_appointments_spec
  (db : Session) (current_provider : Provider)
  (wanted : option AppointmentStatus) (patient : option UUID)
  (skip limit : nat) :
  let page :=
    get_provider_appointments db current_provider wanted patient skip limit in
  (forall a, In a page ->
     In a (appointments db)
     /\ provider_id a = provider_pk current_provider
     /\ (forall s, wanted = Some s -> status a = s)
     /\ (forall p, patient = Some p -> patient_id a = p)
     /\ In a (get_provider_appointments db current_provider wanted None skip
                limit))
  /\ (List.length page <= limit)%nat.
Proof.
  intros page. unfold page, get_provider_appointments.
  assert (Hpage : forall a,
            In a (get_appointments_by_provider db
                    (provider_pk current_provider) skip limit wanted) ->
            In a (appointments db)
            /\ provider_id a = provider_pk current_provider
            /\ (forall s, wanted = Some s -> status a = s)).
  { intros a Hin. unfold get_appointments_by_provider in Hin.
    apply in_offset_limit, in_filter_status in Hin.
    destruct Hin as [Hin Hst]. apply filter_In in Hin.
    destruct Hin as [Hin Hp]. apply Nat.eqb_eq in Hp. auto. }
  assert (Hlen : (List.length
                    (get_appointments_by_provider db
                       (provider_pk current_provider) skip limit wanted)
                  <= limit)%nat)
    by apply offset_limit_length.
  destruct patient as [p|].
  - split.
    + intros a Hin. apply filter_In in Hin. destruct Hin as [Hin Hp].
      apply Nat.eqb_eq in Hp. destruct (Hpage a Hin) as (H1 & H2 & H3).
      repeat split; try assumption. intros p' Hp'. congruence.
    + eapply Nat.le_trans; [apply filter_length_le | exact Hlen].
  - split; [|exact Hlen].
    intros a Hin. destruct (Hpage a Hin) as (H1 & H2 & H3).
    repeat split; try assumption. discriminate.
Qed.

(** ** The availability report of a provider *)

Lemma has_date_in k days : has_date k days = true <-> In k (map da_date days).
Proof.
  unfold has_date. rewrite existsb_exists, in_map_iff. split.
  - intros (d & Hin & Hd). apply Z.eqb_eq in Hd. eauto.
  - intros (d & Hd & Hin). exists d. split; [exact Hin|].
    apply Z.eqb_eq. exact Hd.
Qed.

Lemma append_to_date_dates k sd days :
  map da_date (append_to_date k sd days) = map da_date days.
Proof.
  induction days as [|d rest IH]; simpl; [reflexivity|].
  destruct (Z.eqb (da_date d) k); simpl; [|rewrite IH]; reflexivity.
Qed.

Lemma append_to_date_count k sd days :
  has_date k days = true ->
  List.length (day_entries (append_to_date k sd days))
  = S (List.length (day_entries days)).
Proof.
  unfold has_date, day_entries.
  induction days as [|d rest IH]; simpl; [discriminate|].
  destruct (Z.eqb (da_date d) k); simpl.
  - intros _. rewrite !length_app. simpl. lia.
  - intros H. rewrite !length_app, (IH H). lia.
Qed.

Lemma in_append_to_date k sd days d x :
  In d (append_to_date k sd days) -> In x (da_slots d) ->
  (exists d0, In d0 days /\ da_date d0 = da_date d /\ In x (da_slots d0))
  \/ (x = sd /\ da_date d = k).
Proof.
  induction days as [|d0 rest IH]; simpl; [tauto|].
  destruct (Z.eqb (da_date d0) k) eqn:E.
  - apply Z.eqb_eq in E. intros [<-|Hin] Hx.
    + simpl in Hx. apply in_app_or in Hx. destruct Hx as [Hx|[<-|[]]].
      * left. exists d0. auto.
      * right. auto.
    + left. exists d. auto.
  - intros [<-|Hin] Hx.
    + left. exists d0. auto.
    + destruct (IH Hin Hx) as [(d1 & H1 & H2 & H3)|Hnew]; [|auto].
      left. exists d1. auto.
Qed.

Lemma append_to_date_keeps k sd days d0 x :
  In d0 days -> In x (da_slots d0) ->
  exists d, In d (append_to_date k sd days)
            /\ da_date d = da_date d0 /\ In x (da_slots d).
Proof.
  induction days as [|d1 rest IH]; simpl; [tauto|].
  intros [->|Hin] Hx.
  - destruct (Z.eqb (da_date d0) k).
    + eexists. split; [left; reflexivity|]. simpl.
      split; [reflexivity | apply in_or_app; auto].
    + exists d0. simpl. auto.
  - destruct (Z.eqb (da_date d1) k).
    + exists d0. simpl. auto.
    + destruct (IH Hin Hx) as (d & H1 & H2 & H3). exists d. simpl. auto.
Qed.

Lemma append_to_date_adds k sd days :
  has_date k days = true ->
  exists d, In d (append_to_date k sd days)
            /\ da_date d = k /\ In sd (da_slots d).
Proof.
  unfold has_date.
  induction days as [|d1 rest IH]; simpl; [discriminate|].
  destruct (Z.eqb (da_date d1) k) eqn:E; simpl.
  - intros _. apply Z.eqb_eq in E. eexists. split; [left; reflexivity|].
    simpl. split; [exact E | apply in_or_app; simpl; auto].
  - intros H. destruct (IH H) as (d & H1 & H2 & H3). exists d. auto.
Qed.

Lemma append_to_date_nonempty k sd days :
  NoDup (map da_date days) ->
  (forall d, In d days -> da_date d <> k -> da_slots d <> []) ->
  forall d, In d (append_to_date k sd days) -> da_slots d <> [].
Proof.
  induction days as [|d1 rest IH]; simpl; [tauto|].
  intros Hnd Hne. inversion Hnd as [|? ? Hnot Hnd']; subst.
  destruct (Z.eqb (da_date d1) k) eqn:E.
  - apply Z.eqb_eq in E. intros d [<-|Hin].
    + simpl. intros H. apply app_eq_nil in H. destruct H; discriminate.
    + apply Hne; [auto|]. intros Hk. apply Hnot. rewrite E, <- Hk.
      apply in_map. exact Hin.
  - apply Z.eqb_neq in E. intros d [<-|Hin]; [apply Hne; auto|].
    apply IH; auto.
Qed.

Lemma count_status_cons st slot rest :
  count_status st (slot :: rest)
  = (if AvailabilityStatus_eqb (slot_status slot) st then 1 else 0)
    + count_status st rest.
Proof.
  unfold count_status. cbn [filter].
  destruct (AvailabilityStatus_eqb (slot_status slot) st);
    [cbn [List.length]; rewrite Nat2Z.inj_succ|]; lia.
Qed.

(** What the loop of the report has done when it returns. *)
Lemma availability_loop_inv pytz_timezone db timezone slots :
  forall days av bk ca days' av' bk' ca',
  availability_loop pytz_timezone db timezone slots days av bk ca
  = Ok (days', av', bk', ca') ->
  av' = av + count_status AVAILABLE slots
  /\ bk' = bk + count_status BOOKED slots
  /\ ca' = ca + count_status SLOT_CANCELLED slots
  /\ List.length (day_entries days')
     = (List.length (day_entries days) + List.length slots)%nat
  /\ (NoDup (map da_date days) ->
      (forall d, In d days -> da_slots d <> []) ->
      NoDup (map da_date days')
      /\ forall d, In d days' -> da_slots d <> [])
  /\ (forall d x, In d days' -> In x (da_slots d) ->
        (exists d0, In d0 days /\ da_date d0 = da_date d
                    /\ In x (da_slots d0))
        \/ exists slot z w,
             In slot slots
             /\ pytz_timezone (or_utc timezone) = Some z
             /\ slot_availability db slot = Some w
             /\ da_date d = nd_date (fromutc z (slot_start_time slot))
             /\ sd_slot_id x = slot_pk slot
             /\ sd_start_time x
                = strftime_HM (nd_time (fromutc z (slot_start_time slot)))
             /\ sd_end_time x
                = strftime_HM (nd_time (fromutc z (slot_end_time slot)))
             /\ sd_status x = AvailabilityStatus_value (slot_status slot)
             /\ sd_location x = pa_location w
             /\ sd_pricing x = pricing w)
  /\ (forall d0 x, In d0 days -> In x (da_slots d0) ->
        exists d, In d days' /\ da_date d = da_date d0
                  /\ In x (da_slots d))
  /\ (forall slot, In slot slots ->
        exists d x, In d days' /\ In x (da_slots d)
                    /\ sd_slot_id x = slot_pk slot).
Proof.
  induction slots as [|slot rest IH];
    intros days av bk ca days' av' bk' ca' H.
  - simpl in H. injection H as <- <- <- <-.
    unfold count_status. simpl. rewrite !Z.add_0_r, Nat.add_0_r.
    repeat split; auto.
    + intros d x Hd Hx. left. exists d. auto.
    + intros d0 x Hd Hx. exists d0. auto.
    + intros slot [].
  - cbn [availability_loop] in H.
    destruct (pytz_timezone (or_utc timezone)) as [z|] eqn:Hz;
      [|discriminate].
    cbv zeta in H.
    destruct (slot_availability db slot) as [w|] eqn:Hw; [|discriminate].
    set (k := nd_date (fromutc z (slot_start_time slot))) in *.
    set (days1 := if has_date k days then days
                  else days ++ [{| da_date := k; da_slots := [] |}]) in *.
    assert (Hhas : has_date k days1 = true).
    { unfold days1. destruct (has_date k days) eqn:E; [exact E|].
      apply has_date_in. rewrite map_app. apply in_or_app. right.
      simpl. auto. }
    assert (Hcount1 : List.length (day_entries days1)
                      = List.length (day_entries days)).
    { unfold days1. destruct (has_date k days); [reflexivity|].
      unfold day_entries. rewrite map_app, concat_app, length_app.
      simpl. lia. }
    assert (Hin1 : forall d x, In d days1 -> In x (da_slots d) ->
                     In d days).
    { unfold days1. intros d x Hd Hx. destruct (has_date k days);
        [exact Hd|].
      apply in_app_or in Hd. destruct Hd as [Hd|[<-|[]]]; [exact Hd|].
      destruct Hx. }
    assert (Hsub : forall d, In d days -> In d days1).
    { unfold days1. intros d Hd. destruct (has_date k days); [exact Hd|].
      apply in_or_app. auto. }
    apply IH in H.
    destruct H as (Hav & Hbk & Hca & Hlen & Hnd & Hsound & Hmono & Hall).
    rewrite !count_status_cons.
    split; [|split; [|split]].
    { rewrite Hav.
      destruct (AvailabilityStatus_eqb (slot_status slot) AVAILABLE); lia. }
    { rewrite Hbk. generalize (count_status BOOKED rest). intros n.
      destruct (slot_status slot); cbn [AvailabilityStatus_eqb]; lia. }
    { rewrite Hca. generalize (count_status SLOT_CANCELLED rest). intros n.
      destruct (slot_status slot); cbn [AvailabilityStatus_eqb]; lia. }
    split.
    { rewrite Hlen, (append_to_date_count _ _ _ Hhas), Hcount1. simpl.
      lia. }
    split.
    { intros Hnd0 Hne0. apply Hnd.
      - rewrite append_to_date_dates. unfold days1.
        destruct (has_date k days) eqn:E; [exact Hnd0|].
        rewrite map_app. simpl. apply NoDup_snoc; [exact Hnd0|].
        intros Hin. apply has_date_in in Hin. congruence.
      - apply append_to_date_nonempty.
        + unfold days1. destruct (has_date k days) eqn:E; [exact Hnd0|].
          rewrite map_app. simpl. apply NoDup_snoc; [exact Hnd0|].
          intros Hin. apply has_date_in in Hin. congruence.
        + unfold days1. intros d Hd Hk.
          destruct (has_date k days); [apply Hne0; exact Hd|].
          apply in_app_or in Hd. destruct Hd as [Hd|[<-|[]]];
            [apply Hne0; exact Hd|]. simpl in Hk. congruence. }
    split.
    { intros d x Hd Hx.
      destruct (Hsound d x Hd Hx)
        as [(d0 & Hd0 & Hdate & Hx0)|(slot0 & z0 & w0 & Hin & Hrest)].
      - destruct (in_append_to_date _ _ _ _ _ Hd0 Hx0)
          as [(d1 & Hd1 & Hdate1 & Hx1)|[-> Hk]].
        + left. exists d1. split; [eapply Hin1; eauto|].
          split; [congruence | exact Hx1].
        + right. exists slot, z, w. simpl.
          split; [left; reflexivity|]. split; [reflexivity|].
          split; [exact Hw|]. split; [rewrite <- Hdate; exact Hk|].
          repeat split.
      - right. exists slot0, z0, w0. split; [right; exact Hin | exact Hrest]. }
    split.
    { intros d0 x Hd0 Hx.
      destruct (append_to_date_keeps k
                  {| sd_slot_id := slot_pk slot;
                     sd_start_time :=
                       strftime_HM
                         (nd_time (fromutc z (slot_start_time slot)));
                     sd_end_time :=
                       strftime_HM (nd_time (fromutc z (slot_end_time slot)));
                     sd_status := AvailabilityStatus_value (slot_status slot);
                     sd_appointment_type := slot_appointment_type slot;
                     sd_location := pa_location w;
                     sd_pricing := pricing w;
                     sd_special_requirements := special_requirements w |}
                  days1 d0 x (Hsub _ Hd0) Hx) as (d1 & Hd1 & Hdate1 & Hx1).
      destruct (Hmono d1 x Hd1 Hx1) as (d & Hd & Hdate & Hxd).
      exists d. split; [exact Hd|]. split; [congruence | exact Hxd]. }
    intros slot0 [<-|Hin0]; [|apply Hall; exact Hin0].
    destruct (append_to_date_adds k
                {| sd_slot_id := slot_pk slot;
                   sd_start_time :=
                     strftime_HM (nd_time (fromutc z (slot_start_time slot)));
                   sd_end_time :=
                     strftime_HM (nd_time (fromutc z (slot_end_time slot)));
                   sd_status := AvailabilityStatus_value (slot_status slot);
                   sd_appointment_type := slot_appointment_type slot;
                   sd_location := pa_location w;
                   sd_pricing := pricing w;
                   sd_special_requirements := special_requirements w |}
                days1 Hhas) as (d1 & Hd1 & _ & Hx1).
    destruct (Hmono d1 _ Hd1 Hx1) as (d & Hd & _ & Hxd).
    eexists d, _. split; [exact Hd|]. split; [exact Hxd | reflexivity].
Qed.

(** The loop returns when the zone is known and every slot has its window
    row. *)
Lemma availability_loop_ok pytz_timezone db timezone z slots :
  pytz_timezone (or_utc timezone) = Some z ->
  (forall s, In s slots -> slot_availability db s <> None) ->
  forall days av bk ca,
  exists r,
    availability_loop pytz_timezone db timezone slots days av bk ca = Ok r.
Proof.
  intros Hz. induction slots as [|slot rest IH]; intros Hw days av bk ca.
  - simpl. eauto.
  - cbn [availability_loop]. rewrite Hz. cbv zeta.
    destruct (slot_availability db slot) as [w|] eqn:E.
    + apply IH. intros s Hs. apply Hw. right. exact Hs.
    + exfalso. apply (Hw slot); [left; reflexivity | exact E].
Qed.

Lemma in_availability_query status_equals db provider start_date end_date
  status_filter wanted_type slot :
  In slot (availability_query status_equals db provider start_date end_date
             status_filter wanted_type) ->
  In slot (appointment_slots db)
  /\ slot_provider_id slot = provider
  /\ date_as_datetime start_date <= slot_start_time slot
     < date_as_datetime (end_date + 1).
Proof.
  unfold availability_query. intros H.
  assert (Hrange : In slot
            (filter
               (fun s =>
                  Nat.eqb (slot_provider_id s) provider
                  && (slot_start_time s >=? date_as_datetime start_date)
                  && (slot_start_time s <? date_as_datetime (end_date + 1)))
               (appointment_slots db))).
  { destruct (truthy_string wanted_type);
      [apply filter_In in H; destruct H as [H _]|];
      (destruct (truthy_string status_filter);
       [apply filter_In in H; destruct H as [H _]|]); exact H. }
  apply filter_In in Hrange. destruct Hrange as [Hin Hc].
  apply andb_prop in Hc. destruct Hc as [Hc H3].
  apply andb_prop in Hc. destruct Hc as [H1 H2].
  apply Nat.eqb_eq in H1. apply Z.geb_le in H2. apply Z.ltb_lt in H3.
  auto.
Qed.

(** X20.  The availability report.  For a stored provider, a known
    display zone and slots that all have their window row,
    [get_provider_availability] returns, and the report is this:
    [total_slots] is the number of slots the query selected (slots of this
    provider that start within the range, in UTC); [available_slots],
    [booked_slots] and [cancelled_slots] count the selected slots of these
    statuses, so BLOCKED and MAINTENANCE slots are in the total only; every
    selected slot has one entry, there are as many entries as selected
    slots, every entry stands under the local date of its slot, no date
    occurs twice and no date is empty. *)
Theorem provider_availability_report
  (pytz_timezone : string -> option tzinfo)
  (status_equals : AvailabilityStatus -> string -> bool)
  (db : Session) (provider : UUID)
  (start_date end_date : date) (status_filter wanted_type : option string)
  (timezone : option string) (z : tzinfo) :
  get_provider_by_id db provider <> None ->
  pytz_timezone (or_utc timezone) = Some z ->
  (forall s, In s (appointment_slots db) -> slot_availability db s <> None) ->
  let slots :=
    availability_query status_equals db provider start_date end_date
      status_filter wanted_type in
  exists report,
    get_provider_availability pytz_timezone status_equals db provider
      start_date end_date status_filter wanted_type timezone = Ok report
    /\ report_provider_id report = provider
    /\ total_slots (availability_summary report)
       = Z.of_nat (List.length slots)
    /\ available_slots (availability_summary report)
       = count_status AVAILABLE slots
    /\ booked_slots (availability_summary report)
       = count_status BOOKED slots
    /\ cancelled_slots (availability_summary report)
       = count_status SLOT_CANCELLED slots
    /\ (forall slot, In slot slots ->
          In slot (appointment_slots db)
          /\ slot_provider_id slot = provider
          /\ date_as_datetime start_date <= slot_start_time slot
             < date_as_datetime (end_date + 1))
    /\ List.length (day_entries (availability report)) = List.length slots
    /\ NoDup (map da_date (availability report))
    /\ (forall d, In d (availability report) -> da_slots d <> [])
    /\ (forall d x, In d (availability report) -> In x (da_slots d) ->
          exists slot,
            In slot slots
            /\ sd_slot_id x = slot_pk slot
            /\ da_date d = nd_date (fromutc z (slot_start_time slot))
            /\ sd_start_time x
               = strftime_HM (nd_time (fromutc z (slot_start_time slot)))
            /\ sd_status x = AvailabilityStatus_value (slot_status slot))
    /\ (forall slot, In slot slots ->
          exists d x, In d (availability report) /\ In x (da_slots d)
                      /\ sd_slot_id x = slot_pk slot).
Proof.
  intros Hprov Hz Hfk slots.
  unfold get_provider_availability.
  destruct (get_provider_by_id db provider) as [p|]; [|contradiction].
  fold slots.
  destruct (availability_loop_ok pytz_timezone db timezone z slots Hz)
    with (days := @nil DayAvailability) (av := 0) (bk := 0) (ca := 0)
    as ([[[days av] bk] ca] & Hloop).
  { intros s Hs. apply Hfk.
    apply (in_availability_query _ _ _ _ _ _ _ _ Hs). }
  rewrite Hloop.
  apply availability_loop_inv in Hloop.
  destruct Hloop as (Hav & Hbk & Hca & Hlen & Hnd & Hsound & _ & Hall).
  destruct (Hnd (NoDup_nil _)) as [Hnd' Hne']; [intros d []|].
  eexists. split; [reflexivity|]. simpl.
  split; [reflexivity|]. split; [reflexivity|].
  split; [lia|]. split; [lia|]. split; [lia|].
  split; [intros slot Hs; exact (in_availability_query _ _ _ _ _ _ _ _ Hs)|].
  split; [exact Hlen|]. split; [exact Hnd'|]. split; [exact Hne'|].
  split; [|exact Hall].
  intros d x Hd Hx.
  destruct (Hsound d x Hd Hx)
    as [(d0 & [] & _)|(slot & z0 & w & Hin & Hz0 & _ & Hdate & Hid & Hst
                      & _ & Hstatus & _)].
  assert (z0 = z) by congruence. subst z0.
  exists slot. auto.
Qed.


(** ** The search endpoint *)





(** ** What a creation leaves in the store *)

Lemma Forall2_in_right {A B} (P : A -> B -> Prop) l l' :
  Forall2 P l l' -> forall y, In y l' -> exists x, In x l /\ P x y.
Proof.
  induction 1 as [|x y l l' Hxy _ IH]; intros y0; simpl; [tauto|].
  intros [<-|Hin]; [eauto|].
  destruct (IH y0 Hin) as (x0 & Hx0 & HP). eauto.
Qed.

(** X24.  Creating availability never disturbs what is booked.  Whatever
    the request and whether it returns or raises, the store it leaves has
    the appointments it had, its windows and slots are the old ones followed
    by the new ones, and every new slot is AVAILABLE and belongs to one of
    the new windows.  Hence a store in which BOOKED slots and live
    appointments match each other still has that property afterwards. *)
Theorem creation_keeps_bookings
  (pytz_timezone : string -> option tzinfo)
  (rrule : Frequency -> date -> date -> list date)
  (db : Session) (provider : UUID) (availability_data : AvailabilityData) :
  let db' :=
    committed db
      (create_provider_availability pytz_timezone rrule db provider
         availability_data) in
  appointments db' = appointments db
  /\ (exists windows slots,
        provider_availability db' = provider_availability db ++ windows
        /\ appointment_slots db' = appointment_slots db ++ slots
        /\ forall s, In s slots ->
             slot_status s = AVAILABLE
             /\ exists w, In w windows
                          /\ availability_id s = availability_pk w)
  /\ (booked_slots_have_appointment db -> booked_slots_have_appointment db')
  /\ (live_appointments_have_booked_slot db ->
      live_appointments_have_booked_slot db')
  /\ (one_live_appointment_per_slot db -> one_live_appointment_per_slot db').
Proof.
  intros db'.
  assert (Hshape : appointments db' = appointments db
            /\ exists windows slots,
                 provider_availability db'
                 = provider_availability db ++ windows
                 /\ appointment_slots db' = appointment_slots db ++ slots
                 /\ forall s, In s slots ->
                      slot_status s = AVAILABLE
                      /\ exists w, In w windows
                                   /\ availability_id s = availability_pk w).
  { unfold db'.
    assert (Hsame : appointments db = appointments db
              /\ exists windows slots,
                   provider_availability db
                   = provider_availability db ++ windows
                   /\ appointment_slots db = appointment_slots db ++ slots
                   /\ forall s, In s slots ->
                        slot_status s = AVAILABLE
                        /\ exists w, In w windows
                                     /\ availability_id s
                                        = availability_pk w).
    { split; [reflexivity|]. exists [], []. rewrite !app_nil_r.
      repeat split; try reflexivity; destruct H. }
    rewrite create_provider_availability_unfold.
    destruct (get_provider_by_id db provider); [|exact Hsame].
    destruct (conflicting_window db provider availability_data);
      [exact Hsame|].
    destruct (dates_to_create_of rrule availability_data) as [dates|];
      [|exact Hsame].
    destruct (create_for_dates _ _ _ _ _ _ _) as [[[created total] db1]|]
      eqn:C; [|exact Hsame].
    destruct created as [|first created]; [exact Hsame|].
    simpl. apply create_for_dates_inv in C.
    destruct C as (groups & HF & _ & _ & Hw & Hs & Ha & _).
    split; [exact Ha|].
    exists (map fst groups), (List.concat (map snd groups)).
    split; [exact Hw|]. split; [exact Hs|].
    intros s Hin. apply in_concat in Hin. destruct Hin as (l & Hl & Hin).
    apply in_map_iff in Hl. destruct Hl as (g & <- & Hg).
    destruct (Forall2_in_right _ _ _ HF g Hg) as (d & _ & _ & _ & Hrows).
    destruct (Hrows s Hin) as [Hid Hst].
    split; [exact Hst|]. exists (fst g). split; [apply in_map; exact Hg|].
    exact Hid. }
  destruct Hshape as (Happ & windows & slots & Hw & Hs & Hnew).
  split; [exact Happ|].
  split; [exists windows, slots; auto|].
  split; [|split].
  - intros Hb s Hin Hst. rewrite Hs in Hin. rewrite Happ.
    apply in_app_or in Hin. destruct Hin as [Hin|Hin]; [exact (Hb s Hin Hst)|].
    destruct (Hnew s Hin) as [Hav _]. congruence.
  - intros Hl a Hin Hst. rewrite Happ in Hin.
    destruct (Hl a Hin Hst) as (s & Hs0 & Hrest).
    exists s. split; [rewrite Hs; apply in_or_app; auto | exact Hrest].
  - intros Ho a a'. rewrite Happ. apply Ho.
Qed.

(** X25.  A recurrence that ends before it begins.  When the request is
    recurring with one of the three patterns and the recurrence rule yields
    no date at all (as it does for an end date before the first date), the
    provider existing and the requested date being free of conflicts, the
    creation raises [IndexError] and stores nothing: the loop creates no
    window and the answer is then built from the first of none. *)
Theorem empty_recurrence_raises
  (pytz_timezone : string -> option tzinfo)
  (rrule : Frequency -> date -> date -> list date)
  (db : Session) (provider : UUID)
  (availability_data : AvailabilityData) (pattern : string) (until : date) :
  avd_is_recurring availability_data = true ->
  avd_recurrence_pattern availability_data = Some pattern ->
  pattern = "daily" \/ pattern = "weekly" \/ pattern = "monthly" ->
  avd_recurrence_end_date availability_data = Some until ->
  (forall freq, rrule freq (avd_date availability_data) until = []) ->
  get_provider_by_id db provider <> None ->
  conflicting_window db provider availability_data = None ->
  let r :=
    create_provider_availability pytz_timezone rrule db provider
      availability_data in
  r = Raise IndexError /\ committed db r = db.
Proof.
  intros Hrec Hpat Hone Huntil Hrule Hprov Hfree r.
  assert (Hdates : dates_to_create_of rrule availability_data = Ok []).
  { unfold dates_to_create_of. rewrite Hpat, Huntil, Hrec.
    destruct Hone as [-> | [-> | ->]]; simpl; rewrite Hrule; reflexivity. }
  assert (Hr : r = Raise IndexError).
  { unfold r. rewrite create_provider_availability_unfold.
    destruct (get_provider_by_id db provider); [|contradiction].
    rewrite Hfree, Hdates. reflexivity. }
  rewrite Hr. auto.
Qed.

Lemma provider_availability_report_witness :
  exists report,
    get_provider_availability pytz_zones
      (fun s text => String.eqb (AvailabilityStatus_value s) text)
      store_booked 1%nat 738931 738932 None None None
    = Ok report
    /\ total_slots (availability_summary report) = 4
    /\ available_slots (availability_summary report) = 3
    /\ booked_slots (availability_summary report) = 1
    /\ cancelled_slots (availability_summary report) = 0
    /\ List.length (day_entries (availability report)) = 4%nat
    /\ NoDup (map da_date (availability report)).
Proof.
  assert (Hfk : forall s, In s (appointment_slots store_booked) ->
                  slot_availability store_booked s <> None).
  { intros s Hin. vm_compute in Hin.
    repeat (destruct Hin as [<-|Hin]; [vm_compute; discriminate|]).
    destruct Hin. }
  destruct (provider_availability_report pytz_zones
              (fun s text => String.eqb (AvailabilityStatus_value s) text)
              store_booked 1%nat 738931 738932 None None None UTC)
    as (report & Hr & _ & Ht & Ha & Hb & Hc & _ & Hlen & Hnd & _);
    [vm_compute; discriminate | reflexivity | exact Hfk |].
  exists report. split; [exact Hr|].
  split; [rewrite Ht; reflexivity|]. split; [rewrite Ha; reflexivity|].
  split; [rewrite Hb; reflexivity|]. split; [rewrite Hc; reflexivity|].
  split; [rewrite Hlen; reflexivity | exact Hnd].
Defined.



Lemma empty_recurrence_raises_witness :
  create_provider_availability pytz_zones dateutil_rrule store_one_window
    1%nat
    (recurring (Some "daily") (Some 738930) (on_date 738932 morning_window))
  = Raise IndexError.
Proof.
  apply (empty_recurrence_raises pytz_zones dateutil_rrule
           store_one_window 1%nat
           (recurring (Some "daily") (Some 738930)
              (on_date 738932 morning_window)) "daily" 738930);
    [reflexivity | reflexivity | left; reflexivity | reflexivity
    | intros freq; destruct freq; reflexivity | vm_compute; discriminate
    | reflexivity].
Defined.

(** ** A slot update under a live booking *)

Lemma create_appointment_provider db patient appointment_data uuid_hex a db'
  slot :
  create_appointment db patient appointment_data uuid_hex = Ok (a, db') ->
  get_slot db (ad_slot_id appointment_data) = Some slot ->
  get_provider_by_id db (slot_provider_id slot) <> None.
Proof.
  unfold create_appointment. intros H Hs. rewrite Hs in H.
  destruct (get_patient_by_id db patient); [|discriminate].
  destruct (negb _); [discriminate|].
  destruct (get_provider_by_id db (slot_provider_id slot));
    [discriminate | discriminate H].
Qed.

(** X26.  The slot update does not look at bookings, so it can open a
    booked slot again.  After a booking, the update endpoint with status
    [available] on the booked slot succeeds and answers "available"; a
    booking of the same slot by any stored patient, with an unused
    reference, then succeeds as well, and the store holds two SCHEDULED
    appointments on one slot: the rule that a slot has at most one live
    appointment no longer holds. *)
Theorem slot_update_allows_double_booking
  (db : Session) (patient : UUID) (appointment_data : AppointmentData)
  (uuid_hex : string) (a1 : Appointment) (db1 : Session) :
  create_appointment db patient appointment_data uuid_hex = Ok (a1, db1) ->
  exists u db2,
    update_availability_slot_endpoint db1 (ad_slot_id appointment_data)
      [SU_status (Some AVAILABLE)] = Ok (u, db2)
    /\ upd_status u = "available"
    /\ appointments db2 = appointments db1
    /\ forall patient2 uuid_hex2,
         get_patient_by_id db patient2 <> None ->
         booking_reference_taken db2 (ad_slot_id appointment_data)
           ("APT-" ++ uuid_hex2)%string = false ->
         exists a2 db3,
           create_appointment db2 patient2 appointment_data uuid_hex2
           = Ok (a2, db3)
           /\ In a1 (appointments db3) /\ In a2 (appointments db3)
           /\ a1 <> a2
           /\ slot_id a1 = slot_id a2
           /\ status a1 = SCHEDULED /\ status a2 = SCHEDULED
           /\ ~ one_live_appointment_per_slot db3.
Proof.
  intros Hok.
  destruct (create_appointment_frame _ _ _ _ _ _ Hok) as (_ & Hprv & Hpat).
  pose proof Hok as Hinv. apply create_appointment_ok in Hinv.
  destruct Hinv as (slot & w & _ & Hslot & Hav & Hw & Hpk & Hsid & _ & Hst
                    & _ & _ & Href & _ & _ & Happ & Hsl & Hwl & Hnext).
  pose proof (create_appointment_provider _ _ _ _ _ _ _ Hok Hslot) as Hprov.
  destruct (query_first_some slot_pk _ _ _ Hslot) as [Hspk _].
  destruct (query_first_some availability_pk _ _ _ Hw) as [Hwpk _].
  set (booked := book_slot patient (booking_reference a1) slot).
  assert (Hs1 : get_slot db1 (ad_slot_id appointment_data) = Some booked).
  { unfold get_slot. rewrite Hsl, <- Hspk.
    rewrite query_first_update_same by apply book_slot_pk.
    unfold get_slot in Hslot. rewrite Hspk, Hslot. reflexivity. }
  set (db2 := with_slots db1
                (update_row slot_pk (slot_pk booked)
                   (apply_slot_update [SU_status (Some AVAILABLE)])
                   (appointment_slots db1))).
  assert (Hs2 : get_slot db2 (ad_slot_id appointment_data)
                = Some (set_slot_status AVAILABLE booked)).
  { unfold get_slot, db2. simpl. rewrite Hspk.
    rewrite query_first_update_same by (intros r; reflexivity).
    unfold get_slot in Hs1. rewrite Hs1. reflexivity. }
  exists {| upd_slot_id := slot_pk booked;
            upd_status := AvailabilityStatus_value AVAILABLE |}, db2.
  split.
  { unfold update_availability_slot_endpoint, update_availability_slot.
    rewrite Hs1. fold db2. rewrite Hs2. reflexivity. }
  split; [reflexivity|]. split; [reflexivity|].
  intros patient2 uuid_hex2 Hp2 Hfree.
  set (a2 :=
         {| appointment_pk := next_uuid db2;
            slot_id := ad_slot_id appointment_data;
            provider_id := slot_provider_id slot;
            patient_id := patient2;
            appointment_type := ad_appointment_type appointment_data;
            status := SCHEDULED;
            payment_status := PENDING;
            scheduled_start_time := slot_start_time slot;
            scheduled_end_time := slot_end_time slot;
            location := pa_location (increment_appointments w);
            contact_phone := ad_contact_phone appointment_data;
            contact_email := ad_contact_email appointment_data;
            symptoms := ad_symptoms appointment_data;
            appt_base_fee := pricing_base_fee (increment_appointments w);
            insurance_coverage :=
              match ad_insurance_coverage appointment_data with
              | Some q => q | None => 0%Q end;
            patient_payment :=
              match ad_patient_payment appointment_data with
              | Some q => q | None => 0%Q end;
            appt_currency := pricing_currency (increment_appointments w);
            booking_reference := ("APT-" ++ uuid_hex2)%string;
            cancellation_reason := None;
            cancelled_by := None;
            cancelled_at := None |}).
  assert (Hw2 : slot_availability db2 (set_slot_status AVAILABLE booked)
                = Some (increment_appointments w)).
  { unfold slot_availability, db2. simpl. rewrite Hwl, <- Hwpk.
    rewrite query_first_update_same by (intros r; reflexivity).
    unfold slot_availability in Hw. rewrite Hwpk, Hw. reflexivity. }
  assert (Hrun : exists db3,
            create_appointment db2 patient2 appointment_data uuid_hex2
            = Ok (a2, db3)
            /\ appointments db3 = appointments db2 ++ [a2]).
  { unfold create_appointment.
    change (get_patient_by_id db2 patient2)
      with (query_first patient_pk patient2 (patients db1)).
    rewrite Hpat. unfold get_patient_by_id in Hp2.
    destruct (query_first patient_pk patient2 (patients db));
      [|contradiction].
    rewrite Hs2. cbn [set_slot_status slot_status AvailabilityStatus_eqb negb].
    change (get_provider_by_id db2
              (slot_provider_id (set_slot_status AVAILABLE booked)))
      with (query_first provider_pk (slot_provider_id slot) (providers db1)).
    rewrite Hprv. unfold get_provider_by_id in Hprov.
    destruct (query_first provider_pk (slot_provider_id slot) (providers db));
      [|contradiction].
    rewrite Hw2.
    change (slot_pk (set_slot_status AVAILABLE booked)) with (slot_pk slot).
    rewrite Hspk, Hfree.
    eexists. split; reflexivity. }
  destruct Hrun as (db3 & Hrun & Happ3).
  assert (Hin1 : In a1 (appointments db3)).
  { rewrite Happ3. apply in_or_app. left. unfold db2. simpl. rewrite Happ.
    apply in_or_app. right. left. reflexivity. }
  assert (Hin2 : In a2 (appointments db3))
    by (rewrite Happ3; apply in_or_app; right; left; reflexivity).
  assert (Hne : a1 <> a2).
  { intros Heq. assert (Hk : appointment_pk a1 = appointment_pk a2)
      by (rewrite Heq; reflexivity).
    rewrite Hpk in Hk. unfold a2, db2 in Hk. simpl in Hk. lia. }
  exists a2, db3. split; [exact Hrun|]. split; [exact Hin1|].
  split; [exact Hin2|]. split; [exact Hne|].
  split; [rewrite Hsid; reflexivity|]. split; [exact Hst|].
  split; [reflexivity|].
  intros Hone. apply Hne.
  apply (Hone a1 a2 Hin1 Hin2);
    [rewrite Hst; discriminate | discriminate | rewrite Hsid; reflexivity].
Qed.

Lemma slot_update_allows_double_booking_witness :
  exists a1 db1 u db2 a2 db3,
    create_appointment store_two_windows 2%nat (booking_of 101%nat)
      "A1B2C3D4" = Ok (a1, db1)
    /\ update_availability_slot_endpoint db1 101%nat
         [SU_status (Some AVAILABLE)] = Ok (u, db2)
    /\ create_appointment db2 3%nat (booking_of 101%nat) "E5F6A7B8"
       = Ok (a2, db3)
    /\ In a1 (appointments db3) /\ In a2 (appointments db3)
    /\ a1 <> a2
    /\ slot_id a1 = slot_id a2
    /\ ~ one_live_appointment_per_slot db3.
Proof.
  destruct (create_appointment store_two_windows 2%nat (booking_of 101%nat)
              "A1B2C3D4") as [[a1 db1]|e] eqn:H;
    [|vm_compute in H; discriminate].
  destruct (slot_update_allows_double_booking store_two_windows 2%nat
              (booking_of 101%nat) "A1B2C3D4" a1 db1 H)
    as (u & db2 & Hu & _ & Happ & Hnext).
  assert (Hp : get_patient_by_id store_two_windows 3%nat <> None)
    by (vm_compute; discriminate).
  assert (Hfree : booking_reference_taken db2 (ad_slot_id (booking_of 101%nat))
                    "APT-E5F6A7B8" = false).
  { vm_compute in H. injection H as <- <-. vm_compute in Hu.
    injection Hu as <- <-. reflexivity. }
  destruct (Hnext 3%nat "E5F6A7B8" Hp Hfree)
    as (a2 & db3 & Hr & H1 & H2 & Hne & Hsid & _ & _ & Hbad).
  exists a1, db1, u, db2, a2, db3. repeat split; assumption.
Defined.
